(** * ARG-HMRG colocalization analyzer: a shallow embedding of the pipeline

    The Python scripts of the repository are embedded as Rocq functions:
    - [10.5_create_hmrg_annotation_map.py]     -> module [MapBuilder]
    - [11_run_colocalization_analysis_v6.py]   -> module [Coloc]
    - [12_analyze_abundance_v3.py]             -> module [Abundance]
    - [13_prepare_cluster_data_v4.py]          -> module [ClusterData]
    - [14_filter_top_clusters-v3.py]           -> module [TopClusters]
    - [15_format_for_external_plotter.py]      -> module [PlotExport]

    A Python [str] is a [string]; its characters are read as code points
    below 256.  A cell of a pandas DataFrame read from a file is a [cell]:
    [None] is NaN (the value [read_csv] gives to an empty field).  A Python
    exception is a constructor of [exn]; code that can raise returns a
    [result]. *)

From Stdlib Require Import ZArith QArith List Ascii String Bool Lia Permutation.
From stdpp Require Import base option list strings gmap sorting pretty.

#[local] Set Warnings "-clear-no-such-hyp".

Local Open Scope string_scope.
Local Open Scope list_scope.
Local Open Scope nat_scope.

(** ** Python values, exceptions and string primitives *)

Module Py.

Inductive exn : Type :=
| IndexError
| ValueError
| TypeError
| AttributeError.

Inductive result (A : Type) : Type :=
| Return (a : A)
| Raise (e : exn).
Arguments Return {A} a.
Arguments Raise {A} e.

Global Instance result_ret : MRet result := fun _ a => Return a.
Global Instance result_bind : MBind result := fun _ _ f m =>
  match m with
  | Return a => f a
  | Raise e => Raise e
  end.

(** [try: body  except: handler] with a bare [except]. *)
Definition try_except {A} (body handler : result A) : result A :=
  match body with
  | Return a => Return a
  | Raise _ => handler
  end.

Definition raises {A} (m : result A) : Prop := exists e, m = Raise e.

(** A DataFrame cell: [None] is NaN. *)
Abbreviation cell := (option string) (only parsing).

(** [str(x)] of a cell: [str(float('nan'))] is ['nan']. *)
Definition str (c : cell) : string :=
  match c with
  | Some s => s
  | None => "nan"
  end.

Definition isna (c : cell) : bool :=
  match c with
  | Some _ => false
  | None => true
  end.

(** [c.isspace()] for a character below 256:
    TAB..CR, FS..US, SPACE, NEL (0x85), NBSP (0xa0). *)
Definition isspace (c : ascii) : bool :=
  let n := N_of_ascii c in
  (((9 <=? n) && (n <=? 13)) || ((28 <=? n) && (n <=? 32))
   || (n =? 133) || (n =? 160))%N.

Fixpoint lstrip (p : ascii -> bool) (s : string) : string :=
  match s with
  | EmptyString => EmptyString
  | String c s' => if p c then lstrip p s' else s
  end.

Fixpoint rstrip (p : ascii -> bool) (s : string) : string :=
  match s with
  | EmptyString => EmptyString
  | String c s' =>
      match rstrip p s' with
      | EmptyString => if p c then EmptyString else String c EmptyString
      | r => String c r
      end
  end.

(** [s.strip()] and [s.strip(chars)] *)
Definition strip_by (p : ascii -> bool) (s : string) : string :=
  rstrip p (lstrip p s).
Definition strip (s : string) : string := strip_by isspace s.
Definition strip_char (ch : ascii) (s : string) : string :=
  strip_by (Ascii.eqb ch) s.

(** [s.split(sep)] for a one-character separator: never empty. *)
Fixpoint split (sep : ascii) (s : string) : list string :=
  match s with
  | EmptyString => [EmptyString]
  | String c s' =>
      if Ascii.eqb c sep then EmptyString :: split sep s'
      else match split sep s' with
           | [] => [String c EmptyString]
           | t :: ts => String c t :: ts
           end
  end.

(** [x in l] for a list of strings *)
Definition contains (x : string) (l : list string) : bool :=
  existsb (String.eqb x) l.

Fixpoint find_index (x : string) (l : list string) : option nat :=
  match l with
  | [] => None
  | y :: l' => if String.eqb x y then Some 0 else S <$> find_index x l'
  end.

(** [l.index(x)]: ValueError when absent *)
Definition index (x : string) (l : list string) : result nat :=
  match find_index x l with
  | Some i => Return i
  | None => Raise ValueError
  end.

(** [l[i]] for [i >= 0]: IndexError when out of range *)
Definition getitem {A} (l : list A) (i : nat) : result A :=
  match l !! i with
  | Some a => Return a
  | None => Raise IndexError
  end.

(** [sep.join(l)] *)
Fixpoint join (sep : string) (l : list string) : string :=
  match l with
  | [] => ""
  | [x] => x
  | x :: l' => x +:+ sep +:+ join sep l'
  end.

(** [Series.unique()] / order-preserving removal of later duplicates *)
Fixpoint unique `{EqDecision A} (l : list A) : list A :=
  match l with
  | [] => []
  | x :: l' => x :: filter (fun y => y <> x) (unique l')
  end.

(** [l[-1]]: IndexError on the empty list *)
Definition getitem_last {A} (l : list A) : result A :=
  match last l with
  | Some a => Return a
  | None => Raise IndexError
  end.

(** [s.startswith(p)] *)
Definition startswith (p s : string) : bool := String.prefix p s.

(** [s.endswith(p)] *)
Fixpoint endswith (p s : string) : bool :=
  String.eqb p s
  || match s with
     | EmptyString => false
     | String _ s' => endswith p s'
     end.

(** [s.split(sep)] for a separator of several characters.  [skip] counts
    the characters of a separator still to be passed over. *)
Fixpoint split_str_go (sep : string) (skip : nat) (s : string) : list string :=
  match s with
  | EmptyString => [EmptyString]
  | String c s' =>
      match skip with
      | S k => split_str_go sep k s'
      | O =>
          if String.prefix sep s then
            EmptyString :: split_str_go sep (String.length sep - 1) s'
          else match split_str_go sep 0 s' with
               | [] => [String c EmptyString]
               | t :: ts => String c t :: ts
               end
      end
  end.
Definition split_str (sep s : string) : list string := split_str_go sep 0 s.

(** [s.rsplit(sep, n=1)[0]]: the text before the last [sep], or all of
    [s] when [sep] does not occur. *)
Fixpoint rsplit1_head (sep : ascii) (s : string) : option string :=
  match s with
  | EmptyString => None
  | String c s' =>
      match rsplit1_head sep s' with
      | Some h => Some (String c h)
      | None => if Ascii.eqb c sep then Some EmptyString else None
      end
  end.
Definition rsplit1 (sep : ascii) (s : string) : string :=
  default s (rsplit1_head sep s).

(** Truthiness of an optional string: [None] and [''] are false. *)
Definition truthy (o : option string) : bool :=
  match o with
  | Some (String _ _) => true
  | _ => false
  end.

(** A [dict] keeps its keys in insertion order; assigning to a key that
    is present replaces the value where the key already stands. *)
Fixpoint dict_set {V} (k : string) (v : V) (d : list (string * V))
  : list (string * V) :=
  match d with
  | [] => [(k, v)]
  | (k', v') :: d' =>
      if String.eqb k k' then (k, v) :: d' else (k', v') :: dict_set k v d'
  end.

Fixpoint dict_get {V} (k : string) (d : list (string * V)) : option V :=
  match d with
  | [] => None
  | (k', v') :: d' => if String.eqb k k' then Some v' else dict_get k d'
  end.

(** A [collections.Counter]: absent keys count 0. *)
Definition counter_get `{Countable K} (c : gmap K nat) (k : K) : nat :=
  default 0 (c !! k).
Definition counter_incr `{Countable K} (k : K) (c : gmap K nat) : gmap K nat :=
  <[k := S (counter_get c k)]> c.
(** [Counter.update(iterable)] *)
Definition counter_update `{Countable K} (c : gmap K nat) (xs : list K)
  : gmap K nat :=
  foldr counter_incr c xs.

(** numpy [int64] arithmetic wraps around. *)
Definition wrap64 (z : Z) : Z := ((z + 2 ^ 63) mod 2 ^ 64 - 2 ^ 63)%Z.

End Py.
Import Py.

(** ** pandas operations on a DataFrame held as a list of rows *)

Module Pd.

Section Sorting.
Context {A : Type} (leb : A -> A -> bool).

Fixpoint insert_sorted (x : A) (l : list A) : list A :=
  match l with
  | [] => [x]
  | y :: l' => if leb x y then x :: l else y :: insert_sorted x l'
  end.

(** A stable ascending sort: equal keys keep their input order. *)
Definition stable_sort (l : list A) : list A := foldr insert_sorted [] l.
End Sorting.

Section SortValues.
Context {A K : Type} (leb : K -> K -> bool) (by_ : A -> option K).

Definition key_leb (x y : A) : bool :=
  match by_ x, by_ y with
  | Some a, Some b => leb a b
  | _, None => true
  | None, Some _ => false
  end.

(** [df.sort_values(by, ascending)] on one column, following pandas'
    [nargsort]: the rows whose key is NaN go last in input order; the
    others are sorted ascending, and for a descending sort they are
    reversed before and after.  The sort underneath is taken stable;
    where pandas leaves the order of equal keys open, the results below
    do not depend on it. *)
Definition sort_values (ascending : bool) (rows : list A) : list A :=
  let non_nans := List.filter (fun r => bool_decide (is_Some (by_ r))) rows in
  let nans := List.filter (fun r => bool_decide (by_ r = None)) rows in
  (if ascending then stable_sort key_leb non_nans
   else rev (stable_sort key_leb (rev non_nans))) ++ nans.
End SortValues.

(** [df.drop_duplicates(col)], keep='first'; NaN keys count as equal. *)
Fixpoint drop_duplicates_go {A} (key : A -> cell) (seen : list cell)
    (rows : list A) : list A :=
  match rows with
  | [] => []
  | r :: rows' =>
      if bool_decide (key r ∈ seen) then drop_duplicates_go key seen rows'
      else r :: drop_duplicates_go key (key r :: seen) rows'
  end.
Definition drop_duplicates {A} (key : A -> cell) (rows : list A) : list A :=
  drop_duplicates_go key [] rows.

(** The keys of [df.groupby(col)]: distinct, NaN dropped, ascending. *)
Definition group_keys {A} (key : A -> cell) (rows : list A) : list string :=
  stable_sort String.leb (unique (omap key rows)).

(** [df.groupby(col)]: one group per key, rows in input order. *)
Definition groupby {A} (key : A -> cell) (rows : list A)
  : list (string * list A) :=
  (fun k => (k, filter (fun r => key r = Some k) rows)) <$> group_keys key rows.

(** [Series.map(dict).fillna(Series)] on one value: a key that is absent,
    or whose value is NaN, falls back to the key itself. *)
Definition map_fillna (m : gmap string cell) (k : string) : string :=
  match m !! k with
  | Some (Some v) => v
  | _ => k
  end.

(** [Series.value_counts()] as a Counter over the non-NaN values. *)
Definition tally (xs : list string) : gmap string nat := counter_update ∅ xs.

End Pd.
Import Pd.

(** The database codes [db_codes] that every accession parser scans for,
    in this order. *)
Definition db_codes : list string := ["ref"; "gb"; "emb"; "sp"; "tr"].

(** ** The tables passed between the scripts *)

(** One row of an alignment-hit file as [read_csv(..., usecols=[0,1,2,10,11],
    dtype=str)] gives it: every field is text or NaN. *)
Record hit : Type := mk_hit {
  h_protein_id : cell;
  h_sseqid : cell;
  h_pident : cell;
  h_evalue : cell;
  h_bitscore : cell
}.

(** A value of a column that [read_csv] reads without [dtype]: text in a
    column of dtype object, a number in a column of dtype int64 or
    float64.  NaN is [None]. *)
Inductive scalar : Type :=
| Str (s : string)
| Num (x : Q).

(** One row of the 9-column gene coordinate file, read without [dtype]:
    the contig is text, or a number when the column is numeric. *)
Record gff_row : Type := mk_gff {
  g_contig_id : option scalar;
  g_source : cell;
  g_type : cell;
  g_start : Z;
  g_end : Z;
  g_score : cell;
  g_strand : cell;
  g_phase : cell;
  g_attributes : cell
}.

(** One row of the detailed colocalization report, the table script 11
    writes and scripts 12, 13 and 14 read back. *)
Record detail_row : Type := mk_detail {
  contig_id : cell;
  protein_id : cell;
  start : Z;
  end_ : Z;
  strand : cell;
  gene_type : cell;
  gene_name : cell;
  pident : cell;
  evalue : cell;
  bitscore : cell
}.

Global Instance hit_eq_dec : EqDecision hit.
Proof. solve_decision. Defined.
Global Instance detail_row_eq_dec : EqDecision detail_row.
Proof. solve_decision. Defined.

(** One row of the plot-ready table of scripts 13 and 14. *)
Record plot_row : Type := mk_plot {
  ID : cell;
  source : cell;
  p_start : Z;
  p_end : Z;
  p_strand : cell;
  p_gene_type : cell;
  p_gene_name : cell
}.

(** What a script prints, and what it writes.  [Print] records a line on
    the console, [WriteFile] a table saved under a file name. *)
Inductive message : Type :=
| MsgProcessing
| WarnMissingFile
| InfoEmptyReport
| InfoNoColocalized
| InfoNoPairs
| MsgSuccess
| MsgError.

Inductive event (R : Type) : Type :=
| Print (m : message)
| WriteFile (name : string) (rows : list R).
Arguments Print {R} m.
Arguments WriteFile {R} name rows.

Definition writes_file {R} (e : event R) : bool :=
  match e with
  | WriteFile _ _ => true
  | Print _ => false
  end.

(** Ordering of rows by [(contig, start)] as [sort_values(by=[.., 'start'])]
    does: NaN contigs last. *)
Definition contig_start_leb (c1 : cell) (s1 : Z) (c2 : cell) (s2 : Z) : bool :=
  match c1, c2 with
  | Some a, Some b => if String.eqb a b then (s1 <=? s2)%Z else String.leb a b
  | Some _, None => true
  | None, Some _ => false
  | None, None => (s1 <=? s2)%Z
  end.

(** ** [10.5_create_hmrg_annotation_map.py] *)

Module MapBuilder.

(** A compiled pattern, used through [m = pattern.search(s)] and
    [m.group(1)].  [None]: nothing matches.  Otherwise what [m.group(1)]
    gives for the leftmost match: the text of group 1, [None] when the
    group took no part in the match, and IndexError when the pattern has
    no group 1. *)
Definition pattern : Type := string -> option (result (option string)).

Fixpoint take_while (p : ascii -> bool) (s : string) : string :=
  match s with
  | EmptyString => EmptyString
  | String c s' => if p c then String c (take_while p s') else EmptyString
  end.

Fixpoint drop_while (p : ascii -> bool) (s : string) : string :=
  match s with
  | EmptyString => EmptyString
  | String c s' => if p c then drop_while p s' else s
  end.

Fixpoint all_chars (p : ascii -> bool) (s : string) : bool :=
  match s with
  | EmptyString => true
  | String c s' => p c && all_chars p s'
  end.

Definition not_rbracket (c : ascii) : bool := negb (Ascii.eqb c "]").

(** [\[([^\]]+)\]\s*$] tried at the first character of [s].  The greedy
    [[^\]]+] takes the whole run of characters other than a closing
    bracket and the greedy [\s*] the whole run of white space; a shorter
    choice of either cannot match, so no backtracking is modelled. *)
Definition bracket_match_here (s : string) : option string :=
  match s with
  | String "[" rest =>
      match take_while not_rbracket rest, drop_while not_rbracket rest with
      | String c tok, String "]" tail =>
          if all_chars isspace tail then Some (String c tok) else None
      | _, _ => None
      end
  | _ => None
  end.

(** The leftmost match of [\[([^\]]+)\]\s*$] in [s]: the text of its
    group 1. *)
Fixpoint bracket_search (s : string) : option string :=
  match bracket_match_here s with
  | Some g => Some g
  | None =>
      match s with
      | EmptyString => None
      | String _ s' => bracket_search s'
      end
  end.

(** [bracket_pattern = re.compile(r"\[([^\]]+)\]\s*$")]: group 1 takes
    part in every match. *)
Definition bracket_pattern : pattern :=
  fun s => (fun g => Return (Some g)) <$> bracket_search s.

(** [c.isalnum()] for a character below 256. *)
Definition isalnum (c : ascii) : bool :=
  let n := N_of_ascii c in
  (((48 <=? n) && (n <=? 57)) || ((65 <=? n) && (n <=? 90))
   || ((97 <=? n) && (n <=? 122))
   || (n =? 170) || (n =? 178) || (n =? 179) || (n =? 181) || (n =? 185)
   || (n =? 186) || ((188 <=? n) && (n <=? 190))
   || ((192 <=? n) && (n <=? 214)) || ((216 <=? n) && (n <=? 246))
   || ((248 <=? n) && (n <=? 255)))%N.

(** The class [[\w\(\)\-\_/\.]] *)
Definition gn_char (c : ascii) : bool :=
  isalnum c || Ascii.eqb c "_" || Ascii.eqb c "(" || Ascii.eqb c ")"
  || Ascii.eqb c "-" || Ascii.eqb c "/" || Ascii.eqb c ".".

Definition gn_match_here (s : string) : option string :=
  match s with
  | String "G" (String "N" (String "=" rest)) =>
      match take_while gn_char rest with
      | EmptyString => None
      | tok => Some tok
      end
  | _ => None
  end.

(** The leftmost match of [GN=([\w\(\)\-\_/\.]+)] in [s]: the text of
    its group 1. *)
Fixpoint gn_search (s : string) : option string :=
  match gn_match_here s with
  | Some g => Some g
  | None =>
      match s with
      | EmptyString => None
      | String _ s' => gn_search s'
      end
  end.

(** [gn_pattern = re.compile(r"GN=([\w\(\)\-\_/\.]+)")] *)
Definition gn_pattern : pattern :=
  fun s => (fun g => Return (Some g)) <$> gn_search s.

(** The loop over [db_codes] of [process_header]: the accession it
    leaves, [None] when no code gives one. *)
Fixpoint scan_codes (parts codes : list string) : result (option string) :=
  match codes with
  | [] => Return None
  | code :: rest =>
      if contains code parts then
        match index code parts with
        | Return idx =>
            if idx + 1 <? length parts then
              acc ← getitem parts (idx + 1);
              Return (Some acc)
            else scan_codes parts rest
        | Raise ValueError => scan_codes parts rest
        | Raise e => Raise e
        end
      else scan_codes parts rest
  end.

Definition process_header (header : string) (bracket_pattern : pattern)
    (gn_pattern : option pattern) : result (option string * option string) :=
  let header := strip_char ">" (strip header) in
  gene_name ←
    match bracket_pattern header with
    | Some group1 => group1
    | None =>
        match gn_pattern with
        | Some gn =>
            match gn header with
            | Some group1 => group1
            | None => Return None
            end
        | None => Return None
        end
    end;
  let parts := split "|" header in
  accession ← scan_codes parts db_codes;
  '(accession, gene_name) ←
    (if negb (truthy accession) && (3 <? length parts) then
       acc ← getitem parts 3;
       if negb (truthy gene_name) then
         g ← getitem parts 1;
         Return (Some acc, Some g)
       else Return (Some acc, gene_name)
     else Return (accession, gene_name));
  if negb (truthy gene_name) && truthy accession then
    g ← getitem (split "." (default "" accession)) 0;
    Return (accession, Some g)
  else Return (accession, gene_name).

(** The body of the loop over the lines of the FASTA file. *)
Definition register (annotation_map : list (string * string)) (line : string)
  : result (list (string * string)) :=
  if startswith ">" line then
    '(accession, gene_name) ← process_header line bracket_pattern (Some gn_pattern);
    match accession, gene_name with
    | Some acc, Some name =>
        if truthy accession && truthy gene_name then
          acc0 ← getitem (split "." acc) 0;
          Return (dict_set acc0 name (dict_set acc name annotation_map))
        else Return annotation_map
    | _, _ => Return annotation_map
    end
  else Return annotation_map.

Fixpoint build_annotation_map (annotation_map : list (string * string))
    (lines : list string) : result (list (string * string)) :=
  match lines with
  | [] => Return annotation_map
  | line :: lines' =>
      m ← register annotation_map line;
      build_annotation_map m lines'
  end.

(** [{acc.split('.')[0]: name for acc, name in annotation_map.items()}] *)
Fixpoint unique_map_go (d : list (string * string))
    (items : list (string * string)) : result (list (string * string)) :=
  match items with
  | [] => Return d
  | (acc, name) :: items' =>
      acc0 ← getitem (split "." acc) 0;
      unique_map_go (dict_set acc0 name d) items'
  end.
Definition unique_map (annotation_map : list (string * string))
  : result (list (string * string)) :=
  unique_map_go [] annotation_map.

(** [main]: [None] stands for a missing FASTA file, after which nothing
    is written; otherwise the rows of the table written under the header
    line [accession<TAB>gene_name]. *)
Definition main (fasta : option (list string))
  : result (option (list (string * string))) :=
  match fasta with
  | None => Return None
  | Some lines =>
      annotation_map ← build_annotation_map [] lines;
      table ← unique_map annotation_map;
      Return (Some table)
  end.

End MapBuilder.

(** ** [11_run_colocalization_analysis_v6.py] *)

Module Coloc.

Definition parse_gff_attributes (attr_string : cell) : result string :=
  try_except
    (match attr_string with
     | None => Raise AttributeError
     | Some s =>
         a ← getitem (split_str "ID=" s) 1;
         b ← getitem (split ";" a) 0;
         getitem_last (split "_" b)
     end)
    (Return "").

Definition parse_card_gene_name (sseqid : cell) : result string :=
  try_except
    (match sseqid with
     | None => Raise AttributeError
     | Some s => getitem_last (split "|" (strip s))
     end)
    (Return "unknown_arg").

(** The [for code in db_codes] loop of [parse_hmrg_accession];
    [Return None] when it falls through. *)
Fixpoint scan_codes (parts codes : list string) : result (option string) :=
  match codes with
  | [] => Return None
  | code :: rest =>
      if contains code parts then
        idx ← index code parts;
        if idx + 1 <? length parts then
          tok ← getitem parts (idx + 1);
          acc ← getitem (split "." tok) 0;
          Return (Some acc)
        else scan_codes parts rest
      else scan_codes parts rest
  end.

Definition parse_hmrg_accession_body (sseqid : cell) : result string :=
  let parts := split "|" (strip (str sseqid)) in
  r ← scan_codes parts db_codes;
  match r with
  | Some acc => Return acc
  | None =>
      if 3 <? length parts then getitem parts 3
      else Return "unknown_accession"
  end.

Definition parse_hmrg_accession (sseqid : cell) : result string :=
  try_except (parse_hmrg_accession_body sseqid) (Return "parse_error").

(** [read_csv(...).sort_values('bitscore', ascending=False)
      .drop_duplicates('protein_id')]; with [dtype=str] the [bitscore]
    column holds text, which [sort_values] orders as text. *)
Definition best_hits (rows : list hit) : list hit :=
  drop_duplicates h_protein_id (sort_values String.leb h_bitscore false rows).

(** A row of [df_annotations]. *)
Record annotation : Type := mk_annotation {
  a_protein_id : cell;
  a_sseqid : cell;
  a_pident : cell;
  a_evalue : cell;
  a_bitscore : cell;
  a_gene_name : cell;
  a_gene_type : string;
  a_contig_id : cell
}.

(** [protein_id.str.rsplit('_', n=1).str[0]] *)
Definition contig_of (protein_id : cell) : cell := rsplit1 "_" <$> protein_id.

Definition annotate (gene_type : string) (name_of : hit -> result string)
    (h : hit) : result annotation :=
  name ← name_of h;
  Return {| a_protein_id := h_protein_id h; a_sseqid := h_sseqid h;
            a_pident := h_pident h; a_evalue := h_evalue h;
            a_bitscore := h_bitscore h; a_gene_name := Some name;
            a_gene_type := gene_type;
            a_contig_id := contig_of (h_protein_id h) |}.

Definition card_name (h : hit) : result string :=
  parse_card_gene_name (h_sseqid h).

Definition bacmet_name (hmrg_map : gmap string cell) (h : hit) : result string :=
  accession ← parse_hmrg_accession (h_sseqid h);
  Return (map_fillna hmrg_map accession).

Definition annotations (hmrg_map : gmap string cell) (card bacmet : list hit)
  : result (list annotation) :=
  df_card ← mapM (annotate "ARG" card_name) (best_hits card);
  df_bacmet ← mapM (annotate "HMRG" (bacmet_name hmrg_map)) (best_hits bacmet);
  Return (df_card ++ df_bacmet).

(** [groupby('contig_id')['gene_type'].unique().apply(set)] *)
Definition contig_summary (df_annotations : list annotation)
  : list (string * gset string) :=
  (fun g => (g.1, list_to_set (unique (a_gene_type <$> g.2))))
    <$> groupby a_contig_id df_annotations.

Definition colocalized_contigs (df_annotations : list annotation) : gset string :=
  list_to_set
    (fst <$> filter (fun g => "ARG" ∈ g.2 ∧ "HMRG" ∈ g.2)
                    (contig_summary df_annotations)).

(** The dtype of a column read without [dtype] is numeric (int64 or
    float64) when the column has a value and none of its values is
    text. *)
Definition numeric_dtype (col : list (option scalar)) : bool :=
  match col with
  | [] => false
  | _ => forallb (fun v => match v with
                           | Some (Str _) => false
                           | _ => true
                           end) col
  end.

(** [value + t] for a text [t], on one value of a column of dtype
    object: NaN stays NaN, and a number cannot take text. *)
Definition add_str (v : option scalar) (t : string) : result cell :=
  match v with
  | Some (Str s) => Return (Some (s +:+ t))
  | Some (Num _) => Raise TypeError
  | None => Return None
  end.

(** One value of [df_gff['contig_id'] + '_' +
    df_gff['attributes'].apply(parse_gff_attributes)]. *)
Definition gff_protein_id (g : gff_row) : result cell :=
  c ← add_str (g_contig_id g) "_";
  suffix ← parse_gff_attributes (g_attributes g);
  Return ((fun c => c +:+ suffix) <$> (c : option string)).

(** The [protein_id] column of [df_gff], the CDS rows of the frame
    [gff]: adding text to a column of numeric dtype raises a TypeError,
    whatever rows are left in [df_gff]. *)
Definition protein_id_column (gff df_gff : list gff_row) : result (list cell) :=
  if numeric_dtype (g_contig_id <$> gff) then Raise TypeError
  else mapM gff_protein_id df_gff.

(** [value in colocalized_contigs], a set of texts. *)
Definition isin (s : gset string) (v : option scalar) : bool :=
  match v with
  | Some (Str x) => bool_decide (x ∈ s)
  | _ => false
  end.

(** The text of a contig; the rows that [isin] keeps have one. *)
Definition contig_text (v : option scalar) : cell :=
  match v with
  | Some (Str x) => Some x
  | _ => None
  end.

(** One row of [pd.merge(df_target_gff, df_annotations, on='protein_id',
    how='left')], followed by [fillna('Other')] on [gene_type] and the
    choice of the output columns. *)
Definition joined (pid : cell) (g : gff_row) (a : option annotation) : detail_row :=
  {| contig_id := contig_text (g_contig_id g); protein_id := pid;
     start := g_start g; end_ := g_end g; strand := g_strand g;
     gene_type := Some (from_option a_gene_type "Other" a);
     gene_name := a ≫= a_gene_name;
     pident := a ≫= a_pident; evalue := a ≫= a_evalue;
     bitscore := a ≫= a_bitscore |}.

(** The rows that the left merge gives for one row of [df_target_gff]
    with its [protein_id]. *)
Definition merge_left (df_annotations : list annotation) (gp : gff_row * cell)
  : list detail_row :=
  match filter (fun a => a_protein_id a = gp.2) df_annotations with
  | [] => [joined gp.2 gp.1 None]
  | matches => (fun a => joined gp.2 gp.1 (Some a)) <$> matches
  end.

Definition detail_leb (x y : detail_row) : bool :=
  contig_start_leb (contig_id x) (start x) (contig_id y) (start y).

(** Lines 102 to 119: the detailed report from the frame of the
    coordinate file. *)
Definition report (df_annotations : list annotation)
    (colocalized : gset string) (gff : list gff_row) : result (list detail_row) :=
  let df_gff := List.filter (fun g => bool_decide (g_type g = Some "CDS")) gff in
  protein_ids ← protein_id_column gff df_gff;
  let df_gff := zip df_gff protein_ids in
  let df_target_gff :=
    List.filter (fun gp => isin colocalized (g_contig_id gp.1)) df_gff in
  Return (stable_sort detail_leb
            (concat (merge_left df_annotations <$> df_target_gff))).

(** The [try] block of [analyze_sample]. *)
Definition analyze_body (sample_name : string) (hmrg_map : gmap string cell)
    (card bacmet : list hit) (gff : list gff_row)
  : result (list (event detail_row)) :=
  df_annotations ← annotations hmrg_map card bacmet;
  let colocalized := colocalized_contigs df_annotations in
  if decide (colocalized = ∅) then Return [Print InfoNoColocalized]
  else
    df_final ← report df_annotations colocalized gff;
    Return [WriteFile (sample_name +:+ "_colocalization_full_details_annotated.tsv")
                      df_final;
            Print MsgSuccess].

(** [analyze_sample]; a file that does not exist is [None]. *)
Definition analyze_sample (sample_name : string) (hmrg_map : gmap string cell)
    (card_file bacmet_file : option (list hit)) (gff_file : option (list gff_row))
  : result (list (event detail_row)) :=
  match card_file, bacmet_file, gff_file with
  | Some card, Some bacmet, Some gff =>
      evs ← try_except (analyze_body sample_name hmrg_map card bacmet gff)
                       (Return [Print MsgError]);
      Return (Print MsgProcessing :: evs)
  | _, _, _ => Return [Print MsgProcessing; Print WarnMissingFile]
  end.

End Coloc.

(** ** [12_analyze_abundance_v3.py] *)

Module Abundance.

Record pair_row : Type := mk_pair {
  arg_gene_name : string;
  hmrg_gene_name : string;
  shared_contig_count : nat
}.

Record abundance_row : Type := mk_abundance {
  hmrg_name : string;
  abundance_count : nat
}.

(** [df[df['gene_type'].isin(['ARG','HMRG'])].dropna(subset=['gene_name'])] *)
Definition annotated (df : list detail_row) : list detail_row :=
  filter (fun r => (gene_type r = Some "ARG" ∨ gene_type r = Some "HMRG")
                   ∧ gene_name r ≠ None) df.

(** [df_annotated[gene_type == ty].groupby('contig_id')['gene_name']
      .unique().apply(list)] *)
Definition names_per_contig (ty : string) (df_annotated : list detail_row)
  : list (string * list string) :=
  (fun g => (g.1, unique (omap gene_name g.2)))
    <$> groupby contig_id (filter (fun r => gene_type r = Some ty) df_annotated).

(** [set(itertools.product(arg_list, hmrg_list))] *)
Definition all_pairs_on_contig (arg_list hmrg_list : list string)
  : gset (string * string) :=
  list_to_set (list_prod arg_list hmrg_list).

(** The loop over [args_per_contig.items()]. *)
Fixpoint count_pairs (hmrgs_per_contig : list (string * list string))
    (pair_counter : gmap (string * string) nat)
    (args_per_contig : list (string * list string))
  : gmap (string * string) nat :=
  match args_per_contig with
  | [] => pair_counter
  | (contig, arg_list) :: rest =>
      match dict_get contig hmrgs_per_contig with
      | Some hmrg_list =>
          count_pairs hmrgs_per_contig
            (counter_update pair_counter
               (elements (all_pairs_on_contig arg_list hmrg_list)))
            rest
      | None => count_pairs hmrgs_per_contig pair_counter rest
      end
  end.

Definition pair_counter (df : list detail_row) : gmap (string * string) nat :=
  let df_annotated := annotated df in
  count_pairs (names_per_contig "HMRG" df_annotated) ∅
              (names_per_contig "ARG" df_annotated).

(** The rows of the pair-abundance report, sorted by
    [shared_contig_count] descending. *)
Definition abundance_df (pair_counter : gmap (string * string) nat)
  : list pair_row :=
  sort_values Nat.leb (fun r => Some (shared_contig_count r)) false
    ((fun pc => mk_pair pc.1.1 pc.1.2 pc.2) <$> map_to_list pair_counter).

Definition process_pair_abundance (sample_name : string)
    (details_file : option (list detail_row)) : result (list (event pair_row)) :=
  match details_file with
  | None => Return [Print MsgProcessing; Print WarnMissingFile]
  | Some df =>
      let pc := pair_counter df in
      if decide (pc = ∅) then Return [Print MsgProcessing; Print InfoNoPairs]
      else Return [Print MsgProcessing;
                   WriteFile (sample_name +:+ "_pair_abundance.tsv") (abundance_df pc);
                   Print MsgSuccess]
  end.

(** The [for code in db_codes] loop of this script's
    [parse_hmrg_accession]: the token after the code is read without a
    check of the length. *)
Fixpoint scan_codes (parts codes : list string) : result (option string) :=
  match codes with
  | [] => Return None
  | code :: rest =>
      if contains code parts then
        idx ← index code parts;
        tok ← getitem parts (idx + 1);
        acc ← getitem (split "." tok) 0;
        Return (Some acc)
      else scan_codes parts rest
  end.

Definition parse_hmrg_accession_body (sseqid : cell) : result string :=
  let parts := split "|" (strip (str sseqid)) in
  r ← scan_codes parts db_codes;
  match r with
  | Some acc => Return acc
  | None =>
      if 3 <? length parts then getitem parts 3
      else Return "unknown_accession"
  end.

Definition parse_hmrg_accession (sseqid : cell) : result string :=
  try_except (parse_hmrg_accession_body sseqid) (Return "parse_error").

(** The [gene_name] column of [process_hmrg_abundance]: one name per raw
    hit, no best-hit filter. *)
Definition hmrg_gene_name_of (hmrg_map : gmap string cell) (h : hit)
  : result string :=
  accession ← parse_hmrg_accession (h_sseqid h);
  Return (map_fillna hmrg_map accession).

Definition hmrg_gene_names (hmrg_map : gmap string cell) (df_bacmet : list hit)
  : result (list string) :=
  mapM (hmrg_gene_name_of hmrg_map) df_bacmet.

(** [value_counts().reset_index()]: counts in descending order. *)
Definition value_counts (names : list string) : list abundance_row :=
  sort_values Nat.leb (fun r => Some (abundance_count r)) false
    ((fun kc => mk_abundance kc.1 kc.2) <$> map_to_list (tally names)).

Definition hmrg_abundance_body (sample_name : string)
    (hmrg_map : gmap string cell) (df_bacmet : list hit)
  : result (list (event abundance_row)) :=
  names ← hmrg_gene_names hmrg_map df_bacmet;
  Return [WriteFile (sample_name +:+ "_hmrg_abundance.tsv") (value_counts names);
          Print MsgSuccess].

Definition process_hmrg_abundance (sample_name : string)
    (hmrg_map : gmap string cell) (bacmet_file : option (list hit))
  : result (list (event abundance_row)) :=
  match bacmet_file with
  | None => Return [Print MsgProcessing; Print WarnMissingFile]
  | Some df_bacmet =>
      evs ← try_except (hmrg_abundance_body sample_name hmrg_map df_bacmet)
                       (Return [Print MsgError]);
      Return (Print MsgProcessing :: evs)
  end.

End Abundance.

(** The projection of a cleaned detail row on the columns of the plot table. *)
Definition to_plot_row (r : detail_row) : plot_row :=
  {| ID := protein_id r; source := contig_id r; p_start := start r;
     p_end := end_ r; p_strand := strand r; p_gene_type := gene_type r;
     p_gene_name := gene_name r |}.

Definition plot_leb (x y : plot_row) : bool :=
  contig_start_leb (source x) (p_start x) (source y) (p_start y).

(** [output_df.sort_values(by=['source', 'start'])] *)
Definition output_df (rows : list detail_row) : list plot_row :=
  stable_sort plot_leb (to_plot_row <$> rows).

(** ** [13_prepare_cluster_data_v4.py] *)

Module ClusterData.

Definition merged_gene_type (group : list detail_row) : string :=
  join "/" (stable_sort String.leb (unique (str ∘ gene_type <$> group))).

Definition merged_gene_name (group : list detail_row) : string :=
  join " / " (unique (omap gene_name group)).

(** [aggregate_duplicates(group)]; a group is never empty, and
    [group.iloc[0]] on an empty one would raise. *)
Definition aggregate_duplicates (group : list detail_row) : result detail_row :=
  match group with
  | [] => Raise IndexError
  | [r] => Return r
  | r :: _ =>
      Return {| contig_id := contig_id r; protein_id := protein_id r;
                start := start r; end_ := end_ r; strand := strand r;
                gene_type := Some (merged_gene_type group);
                gene_name := Some (merged_gene_name group);
                pident := pident r; evalue := evalue r; bitscore := bitscore r |}
  end.

Definition df_annotated (df_details : list detail_row) : list detail_row :=
  filter (fun r => gene_type r ≠ Some "Other") df_details.

Definition df_other (df_details : list detail_row) : list detail_row :=
  filter (fun r => gene_type r = Some "Other") df_details.

(** [df_annotated.groupby('protein_id').apply(aggregate_duplicates)] and
    the [pd.concat] with [df_other]. *)
Definition deduplicate (df_details : list detail_row) : result (list detail_row) :=
  merged ← mapM (fun g => aggregate_duplicates g.2)
                (groupby protein_id (df_annotated df_details));
  Return (merged ++ df_other df_details).

Definition process_body (sample_name : string) (df_details : list detail_row)
  : result (list (event plot_row)) :=
  match df_details with
  | [] => Return [Print InfoEmptyReport]
  | _ =>
      final ← deduplicate df_details;
      Return [WriteFile (sample_name +:+ "_plot_data.tsv") (output_df final);
              Print MsgSuccess]
  end.

Definition process_sample (sample_name : string)
    (details_file : option (list detail_row)) : result (list (event plot_row)) :=
  match details_file with
  | None => Return [Print MsgProcessing; Print WarnMissingFile]
  | Some df_details =>
      evs ← try_except (process_body sample_name df_details)
                       (Return [Print MsgError]);
      Return (Print MsgProcessing :: evs)
  end.

End ClusterData.

(** ** [14_filter_top_clusters-v3.py] *)

Module TopClusters.

Definition NUM_TOP_CONTIGS_TO_PLOT : nat := 10.

(** A row of [gene_counts]: the contig (the index), its [ARG] and [HMRG]
    columns and its [density_score]. *)
Record count_row : Type := mk_count {
  cr_contig : string;
  cr_ARG : Z;
  cr_HMRG : Z;
  density_score : Z
}.

Definition size_of (ty : string) (rows : list detail_row) : Z :=
  Z.of_nat (length (filter (fun r => gene_type r = Some ty) rows)).

(** [groupby(['contig_id','gene_type']).size().unstack(fill_value=0)]
    with the [ARG] and [HMRG] columns added as 0 when absent, and the
    [density_score] column.  A row with NaN in either key is in no group. *)
Definition gene_counts (df_details : list detail_row) : list count_row :=
  (fun g => let a := size_of "ARG" g.2 in
            let h := size_of "HMRG" g.2 in
            mk_count g.1 a h (wrap64 (a * h)))
    <$> groupby contig_id (filter (fun r => gene_type r ≠ None) df_details).

(** [gene_counts.sort_values(by='density_score', ascending=False)]
    restricted to [density_score > 0]. *)
Definition top_contigs_df (df_details : list detail_row) : list count_row :=
  filter (fun c => (0 < density_score c)%Z)
    (sort_values Z.leb (fun c => Some (density_score c)) false
       (gene_counts df_details)).

(** [top_contigs_df.head(k).index], before it is made a set. *)
Definition ranked_contigs (k : nat) (df_details : list detail_row) : list string :=
  cr_contig <$> take k (top_contigs_df df_details).

Definition target_contigs (df_details : list detail_row) : gset string :=
  list_to_set (ranked_contigs NUM_TOP_CONTIGS_TO_PLOT df_details).

(** [aggregate_duplicates(group)] of this script: it returns a frame, and
    sorts and joins the [gene_type] values as they are, so that a NaN
    among them raises. *)
Definition aggregate_duplicates (group : list detail_row)
  : result (list detail_row) :=
  match group with
  | [] => Raise IndexError
  | [r] => Return [r]
  | r :: _ =>
      types ← mapM (fun c : cell => match c with
                                    | Some s => Return s
                                    | None => Raise TypeError
                                    end)
                   (unique (gene_type <$> group));
      Return [ {| contig_id := contig_id r; protein_id := protein_id r;
                  start := start r; end_ := end_ r; strand := strand r;
                  gene_type := Some (join "/" (stable_sort String.leb types));
                  gene_name := Some (join " / " (unique (omap gene_name group)));
                  pident := pident r; evalue := evalue r;
                  bitscore := bitscore r |} ]
  end.

Definition deduplicate (df_plot_data : list detail_row) : result (list detail_row) :=
  frames ← mapM (fun g => aggregate_duplicates g.2)
                (groupby protein_id df_plot_data);
  Return (concat frames).

Definition isin (s : gset string) (c : cell) : bool :=
  match c with
  | Some x => bool_decide (x ∈ s)
  | None => false
  end.

Definition process_body (sample_name : string) (df_details : list detail_row)
  : result (list (event plot_row)) :=
  match df_details with
  | [] => Return [Print InfoEmptyReport]
  | _ =>
      match top_contigs_df df_details with
      | [] => Return [Print InfoNoColocalized]
      | _ =>
          let target := target_contigs df_details in
          let df_plot_data :=
            List.filter (fun r => isin target (contig_id r)) df_details in
          df_deduplicated ← deduplicate df_plot_data;
          Return [WriteFile (sample_name +:+ "_top_10_contigs_plot_data.tsv")
                            (output_df df_deduplicated);
                  Print MsgSuccess]
      end
  end.

Definition process_sample (sample_name : string)
    (details_file : option (list detail_row)) : result (list (event plot_row)) :=
  match details_file with
  | None => Return [Print MsgProcessing; Print WarnMissingFile]
  | Some df_details =>
      evs ← try_except (process_body sample_name df_details)
                       (Return [Print MsgError]);
      Return (Print MsgProcessing :: evs)
  end.

End TopClusters.

(** ** [15_format_for_external_plotter.py] *)

Module PlotExport.

(** A row of [df[['ID', 'source', 'start', 'end', 'strand']]]. *)
Record final_row : Type := mk_final {
  f_ID : cell;
  f_source : cell;
  f_start : Z;
  f_end : Z;
  f_strand : cell
}.

Global Instance final_row_eq_dec : EqDecision final_row.
Proof. solve_decision. Defined.

Definition df_formatted (df : list plot_row) : list final_row :=
  (fun r => {| f_ID := ID r; f_source := source r; f_start := p_start r;
               f_end := p_end r; f_strand := p_strand r |}) <$> df.

(** [df_formatted['source'].unique()]: the distinct sources in the order
    in which they are first seen; NaN is one of the values. *)
Definition unique_contigs (rows : list final_row) : list cell :=
  unique (f_source <$> rows).

(** [f"Contig_{i+1}"] *)
Definition contig_label (i : nat) : string := "Contig_" +:+ pretty (i + 1).

(** A [dict] whose keys are cells, in insertion order. *)
Fixpoint cdict_set (k : cell) (v : string) (d : list (cell * string))
  : list (cell * string) :=
  match d with
  | [] => [(k, v)]
  | (k', v') :: d' =>
      if decide (k = k') then (k, v) :: d' else (k', v') :: cdict_set k v d'
  end.

Fixpoint cdict_get (k : cell) (d : list (cell * string)) : cell :=
  match d with
  | [] => None
  | (k', v') :: d' => if decide (k = k') then Some v' else cdict_get k d'
  end.

(** [{contig_id: f"Contig_{i+1}" for i, contig_id in enumerate(unique_contigs)}],
    from the entry numbered [i] on. *)
Fixpoint contig_map_go (d : list (cell * string)) (i : nat) (contigs : list cell)
  : list (cell * string) :=
  match contigs with
  | [] => d
  | c :: contigs' => contig_map_go (cdict_set c (contig_label i) d) (S i) contigs'
  end.
Definition contig_map (contigs : list cell) : list (cell * string) :=
  contig_map_go [] 0 contigs.

(** [df_formatted['source'].map(contig_map)] on one row: a source that is
    no key becomes NaN. *)
Definition relabel (d : list (cell * string)) (r : final_row) : final_row :=
  {| f_ID := f_ID r; f_source := cdict_get (f_source r) d;
     f_start := f_start r; f_end := f_end r; f_strand := f_strand r |}.

(** The table that is written: sources renamed, then
    [drop_duplicates()] over all columns. *)
Definition format_rows (df : list plot_row) : list final_row :=
  let rows := df_formatted df in
  unique (relabel (contig_map (unique_contigs rows)) <$> rows).

Definition INPUT_SUFFIX : string := "_plot_data.tsv".

(** The loop over [os.listdir(INPUT_FOLDER)] of
    [process_file_for_plotting]: the first name, in the order of the
    listing, that starts with the sample name and ends with the suffix. *)
Definition input_file (sample_name : string) (listing : list string)
  : option string :=
  List.find (fun fname => startswith sample_name fname
                          && endswith "_plot_data.tsv" fname) listing.

(** [samples] of [main]:
    [sorted(list(set(fname.split('_')[0] for fname in os.listdir(INPUT_FOLDER)
                     if fname.endswith(INPUT_SUFFIX))))] *)
Definition samples (listing : list string) : result (list string) :=
  names ← mapM (fun fname => getitem (split "_" fname) 0)
               (List.filter (endswith INPUT_SUFFIX) listing);
  Return (stable_sort String.leb (unique names)).

(** [process_file_for_plotting]; [None] when no file of the sample is in
    the input folder. *)
Definition process_file_for_plotting (sample_name : string)
    (input_file : option (list plot_row)) : result (list (event final_row)) :=
  match input_file with
  | None => Return [Print MsgProcessing; Print WarnMissingFile]
  | Some [] => Return [Print MsgProcessing; Print InfoEmptyReport]
  | Some df =>
      Return [Print MsgProcessing;
              WriteFile (sample_name +:+ "_final_plot_data.tsv") (format_rows df);
              Print MsgSuccess]
  end.

End PlotExport.

(** ** Notions the properties are stated with *)

(** The number a [bit_score] field denotes when it is read as a decimal
    number: digits, optionally followed by a point and more digits. *)
Definition digit_value (c : ascii) : option Z :=
  let n := N_of_ascii c in
  if ((48 <=? n) && (n <=? 57))%N then Some (Z.of_N n - 48)%Z else None.

Fixpoint digits_value (acc : Z) (s : string) : option Z :=
  match s with
  | EmptyString => Some acc
  | String c s' =>
      match digit_value c with
      | Some d => digits_value (10 * acc + d)%Z s'
      | None => None
      end
  end.

Definition decimal_value (s : string) : option Q :=
  match split "." s with
  | [ip] =>
      match ip with
      | EmptyString => None
      | _ => (fun n => inject_Z n) <$> digits_value 0 ip
      end
  | [ip; fp] =>
      match digits_value 0 ip, digits_value 0 fp with
      | Some n, Some f =>
          Some (inject_Z n + Qmake f (Pos.pow 10 (Pos.of_nat (String.length fp))))%Q
      | _, _ => None
      end
  | _ => None
  end.

(** Whether [s] has an opening bracket that no later closing bracket of
    [s] follows; [opened] is the state on entry. *)
Fixpoint open_bracket (opened : bool) (s : string) : bool :=
  match s with
  | EmptyString => opened
  | String c s' =>
      if Ascii.eqb c "[" then open_bracket true s'
      else if Ascii.eqb c "]" then open_bracket false s'
      else open_bracket opened s'
  end.

(** [c] does not occur in [s]. *)
Fixpoint lacks (c : ascii) (s : string) : bool :=
  match s with
  | EmptyString => true
  | String c' s' => negb (Ascii.eqb c' c) && lacks c s'
  end.

(** None of the database codes is among the fields. *)
Definition no_db_code (parts : list string) : Prop :=
  forall code, code ∈ db_codes -> contains code parts = false.

(** The order in which a descending [sort_values] leaves the rows: keys
    never increase, and the rows without a key come last. *)
Definition desc_by {A K} (leb : K -> K -> bool) (by_ : A -> option K)
    (x y : A) : Prop :=
  match by_ x, by_ y with
  | Some a, Some b => leb b a = true
  | _, None => True
  | None, Some _ => False
  end.


(** The contig column of the coordinate frame takes text: it is not of
    numeric dtype, and no CDS row holds a number. *)
Definition contigs_are_text (gff : list gff_row) : bool :=
  negb (Coloc.numeric_dtype (g_contig_id <$> gff))
  && forallb (fun g => match g_contig_id g with
                       | Some (Num _) => false
                       | _ => true
                       end)
       (List.filter (fun g => bool_decide (g_type g = Some "CDS")) gff).


(** The number of rows of the detailed report on contig [c] whose
    [gene_type] is [ty]. *)
Definition hits_on (ty c : string) (df : list detail_row) : nat :=
  length (filter (fun r => contig_id r = Some c /\ gene_type r = Some ty) df).

(** The gene names of type [ty] on contig [c] in the detailed report. *)
Definition names_on (ty c : string) (df : list detail_row) : list string :=
  omap gene_name
       (filter (fun r => contig_id r = Some c /\ gene_type r = Some ty) df).

(** The ARG name [a] and the HMRG name [h] both occur on contig [c]. *)
Definition co_occur (df : list detail_row) (a h c : string) : Prop :=
  a ∈ names_on "ARG" c df /\ h ∈ names_on "HMRG" c df.

Global Instance co_occur_dec df a h c : Decision (co_occur df a h c).
Proof. unfold co_occur. apply _. Defined.

(** The set of distinct contigs on which [a] and [h] co-occur. *)
Definition shared_contigs (df : list detail_row) (a h : string) : gset string :=
  filter (co_occur df a h) (list_to_set (omap contig_id df) : gset string).

(** Whether the loop of [process_pair_abundance] counts the pair [k] at the
    entry [g] of [args_per_contig]. *)
Definition counted_at (hmrgs_per_contig : list (string * list string))
    (k : string * string) (g : string * list string) : Prop :=
  match dict_get g.1 hmrgs_per_contig with
  | Some hmrg_list => k ∈ list_prod g.2 hmrg_list
  | None => False
  end.

Global Instance counted_at_dec hs k g : Decision (counted_at hs k g).
Proof. unfold counted_at. destruct (dict_get g.1 hs); apply _. Defined.

(** A FASTA header of the form [>gi|<num>|ref|<acc>.<ver>|<rest>] and the
    subject identifier an alignment reports for such an entry. *)
Definition versioned (acc ver : string) : string := acc +:+ "." +:+ ver.

Definition ncbi_header (num acc ver rest : string) : string :=
  ">gi|" +:+ num +:+ "|ref|" +:+ versioned acc ver +:+ "|" +:+ rest.

Definition ncbi_subject (num acc ver rest : string) : string :=
  "gi|" +:+ num +:+ "|ref|" +:+ versioned acc ver +:+ "|" +:+ rest.

(** A header that ends with the bracketed token [[X]], after the text
    [pre] and before the white space [ws]. *)
Definition bracketed_header (pre X ws : string) : string :=
  pre +:+ "[" +:+ X +:+ "]" +:+ ws.

(** An accession without its version: the text before the first point. *)
Definition version_stripped (a : string) : string :=
  match split "." a with
  | t :: _ => t
  | [] => a
  end.

(** The last entry of a dictionary, in the order of its keys, whose key
    is [k] once its version is stripped. *)
Definition last_with_stripped_key (k : string) (d : list (string * string))
  : option (string * string) :=
  last (filter (fun it => version_stripped it.1 = k) d).

(** The header lines of a FASTA file. *)
Definition header_lines (lines : list string) : list string :=
  filter (fun line => startswith ">" line = true) lines.

(** The [group(1)] that [process_header] evaluates on a stripped header:
    that of the bracket match if there is one, else that of the [GN=]
    match if there is one; [Return None] when it evaluates none. *)
Definition used_group1 (bracket_pattern : MapBuilder.pattern)
    (gn_pattern : option MapBuilder.pattern) (header : string)
  : result (option string) :=
  match bracket_pattern header with
  | Some group1 => group1
  | None =>
      match gn_pattern with
      | Some gn =>
          match gn header with
          | Some group1 => group1
          | None => Return None
          end
      | None => Return None
      end
  end.

(** A header that gives both an accession and a gene name, the headers
    that [main] registers. *)
Definition resolvable (header : string) : bool :=
  match MapBuilder.process_header header MapBuilder.bracket_pattern
          (Some MapBuilder.gn_pattern) with
  | Return (accession, gene_name) => truthy accession && truthy gene_name
  | Raise _ => false
  end.

(** The accession of a header without its version. *)
Definition header_key (header : string) : string :=
  match MapBuilder.process_header header MapBuilder.bracket_pattern
          (Some MapBuilder.gn_pattern) with
  | Return (Some acc, _) => version_stripped acc
  | _ => ""
  end.

(** The gene name of a header. *)
Definition header_name (header : string) : option string :=
  match MapBuilder.process_header header MapBuilder.bracket_pattern
          (Some MapBuilder.gn_pattern) with
  | Return (_, gene_name) => gene_name
  | Raise _ => None
  end.

(** The first database code, in the order of [codes], that is among the
    fields. *)
Fixpoint first_code (parts codes : list string) : option string :=
  match codes with
  | [] => None
  | code :: rest =>
      if contains code parts then Some code else first_code parts rest
  end.

(** The order of the detailed report: by contig, then by start. *)
Definition detail_le (x y : detail_row) : Prop := Coloc.detail_leb x y = true.

(** The rows of the contigs that script 14 selects, [df_plot_data]. *)
Definition df_plot_data (df_details : list detail_row) : list detail_row :=
  List.filter
    (fun r => TopClusters.isin (TopClusters.target_contigs df_details) (contig_id r))
    df_details.

(** A protein with two or more rows, one of them without a [gene_type]. *)
Definition nan_type_in_group (rows : list detail_row) : Prop :=
  exists p r,
    (2 <= length (filter (fun x => protein_id x = Some p) rows)) /\
    (r ∈ rows) /\ protein_id r = Some p /\ gene_type r = None.

(** An order of sources: as text, NaN last. *)
Definition source_le (c1 c2 : cell) : Prop :=
  match c1, c2 with
  | Some a, Some b => String.leb a b = true
  | _, None => True
  | None, Some _ => False
  end.

(** * Properties *)

(** ** The result monad and the string primitives *)

Lemma split_cons (sep : ascii) (s : string) :
  exists t ts, split sep s = t :: ts.
Proof.
  induction s as [|c s IH]; simpl; [by eauto|].
  destruct (Ascii.eqb c sep); [by eauto|].
  destruct IH as (t & ts & ->). by eauto.
Qed.

Lemma getitem_split_0 (sep : ascii) (s : string) :
  exists t, getitem (split sep s) 0 = Return t.
Proof. destruct (split_cons sep s) as (t & ts & ->). by exists t. Qed.

Lemma find_index_lookup (x : string) (l : list string) (i : nat) :
  find_index x l = Some i -> l !! i = Some x.
Proof.
  revert i. induction l as [|y l IH]; intros i; simpl; [done|].
  destruct (String.eqb_spec x y) as [->|Hne].
  - by intros [= <-].
  - destruct (find_index x l) as [j|]; simpl; [|done].
    intros [= <-]. by apply IH.
Qed.

Lemma contains_find_index (x : string) (l : list string) :
  contains x l = true -> exists i, find_index x l = Some i.
Proof.
  unfold contains. induction l as [|y l IH]; simpl; [done|].
  destruct (String.eqb x y); simpl; [by eauto|].
  intros H. destruct (IH H) as [i ->]. by eauto.
Qed.

Lemma contains_false_find_index (x : string) (l : list string) :
  contains x l = false -> find_index x l = None.
Proof.
  unfold contains. induction l as [|y l IH]; simpl; [done|].
  destruct (String.eqb x y); simpl; [done|].
  intros H. by rewrite (IH H).
Qed.

Lemma contains_index (x : string) (l : list string) :
  contains x l = true -> exists i, index x l = Return i /\ l !! i = Some x.
Proof.
  intros H. destruct (contains_find_index _ _ H) as [i Hi].
  exists i. unfold index. rewrite Hi. eauto using find_index_lookup.
Qed.

Lemma getitem_lt {A} (l : list A) (i : nat) :
  i < length l -> exists a, getitem l i = Return a /\ l !! i = Some a.
Proof.
  intros H. destruct (lookup_lt_is_Some_2 l i H) as [a Ha].
  exists a. unfold getitem. by rewrite Ha.
Qed.

Lemma getitem_Return {A} (l : list A) (i : nat) (a : A) :
  getitem l i = Return a -> l !! i = Some a.
Proof. unfold getitem. by destruct (l !! i); intros [= ->]. Qed.

(** ** The accession parsers of scripts 11 and 12 *)

Lemma coloc_scan_codes_returns (parts codes : list string) :
  exists r, Coloc.scan_codes parts codes = Return r.
Proof.
  induction codes as [|code rest IH]; simpl; [by eauto|].
  destruct (contains code parts) eqn:Hin; [|done].
  destruct (contains_index _ _ Hin) as (idx & -> & _); simpl.
  destruct (Nat.ltb_spec (idx + 1) (length parts)) as [Hlt|]; [|done].
  destruct (getitem_lt _ _ Hlt) as (tok & -> & _); simpl.
  destruct (getitem_split_0 "." tok) as [acc ->]; simpl. by eauto.
Qed.

Lemma coloc_body_returns (sseqid : cell) :
  exists r, Coloc.parse_hmrg_accession_body sseqid = Return r.
Proof.
  unfold Coloc.parse_hmrg_accession_body.
  destruct (coloc_scan_codes_returns (split "|" (strip (str sseqid))) db_codes)
    as [[acc|] ->]; simpl; [by eauto|].
  destruct (Nat.ltb_spec 3 (length (split "|" (strip (str sseqid))))) as [Hlt|];
    [|by eauto].
  destruct (getitem_lt _ _ Hlt) as (a & -> & _). by eauto.
Qed.

Lemma coloc_parse_returns (sseqid : cell) :
  exists r, Coloc.parse_hmrg_accession sseqid = Return r.
Proof.
  unfold Coloc.parse_hmrg_accession.
  destruct (coloc_body_returns sseqid) as [r ->]. by exists r.
Qed.

Lemma abundance_parse_returns (sseqid : cell) :
  exists r, Abundance.parse_hmrg_accession sseqid = Return r.
Proof.
  unfold Abundance.parse_hmrg_accession, try_except.
  destruct (Abundance.parse_hmrg_accession_body sseqid); by eauto.
Qed.

Lemma coloc_scan_no_code (parts codes : list string) :
  (forall code, code ∈ codes -> contains code parts = false) ->
  Coloc.scan_codes parts codes = Return None.
Proof.
  induction codes as [|code rest IH]; intros H; simpl; [done|].
  rewrite (H code) by set_solver. apply IH. intros c Hc. apply H. set_solver.
Qed.

Lemma abundance_scan_no_code (parts codes : list string) :
  (forall code, code ∈ codes -> contains code parts = false) ->
  Abundance.scan_codes parts codes = Return None.
Proof.
  induction codes as [|code rest IH]; intros H; simpl; [done|].
  rewrite (H code) by set_solver. apply IH. intros c Hc. apply H. set_solver.
Qed.

(** Where script 12's copy returns from its [try] block, script 11's copy
    returns the same accession. *)
Lemma abundance_scan_coloc_scan (parts codes : list string) (r : option string) :
  Abundance.scan_codes parts codes = Return r ->
  Coloc.scan_codes parts codes = Return r.
Proof.
  induction codes as [|code rest IH]; simpl; [done|].
  destruct (contains code parts) eqn:Hin; [|done].
  destruct (contains_index _ _ Hin) as (idx & -> & _); simpl.
  destruct (getitem parts (idx + 1)) as [tok|e] eqn:Htok; simpl; [|done].
  apply getitem_Return, lookup_lt_Some in Htok.
  destruct (Nat.ltb_spec (idx + 1) (length parts)); [done|lia].
Qed.

Lemma parse_copies_agree_on_return (sseqid : cell) (r : string) :
  Abundance.parse_hmrg_accession_body sseqid = Return r ->
  Coloc.parse_hmrg_accession sseqid = Return r.
Proof.
  unfold Abundance.parse_hmrg_accession_body, Coloc.parse_hmrg_accession,
    Coloc.parse_hmrg_accession_body.
  destruct (Abundance.scan_codes _ db_codes) as [o|e] eqn:Hscan; [|by simpl].
  rewrite (abundance_scan_coloc_scan _ _ _ Hscan).
  cbn [mbind result_bind]. intros H. by rewrite H.
Qed.

(** C9. [parse_hmrg_accession] is total in both scripts: on every cell it
    returns a string and raises nothing.  When none of the codes ref, gb,
    emb, sp, tr is among the fields and there are at most 3 fields, the
    result is the sentinel unknown_accession; when the body of the [try]
    raises, the result is the sentinel parse_error. *)
Theorem parse_hmrg_accession_total (sseqid : cell) :
  (exists r, Coloc.parse_hmrg_accession sseqid = Return r) /\
  (exists r, Abundance.parse_hmrg_accession sseqid = Return r) /\
  (no_db_code (split "|" (strip (str sseqid))) ->
   length (split "|" (strip (str sseqid))) <= 3 ->
   Coloc.parse_hmrg_accession sseqid = Return "unknown_accession" /\
   Abundance.parse_hmrg_accession sseqid = Return "unknown_accession") /\
  (raises (Coloc.parse_hmrg_accession_body sseqid) ->
   Coloc.parse_hmrg_accession sseqid = Return "parse_error") /\
  (raises (Abundance.parse_hmrg_accession_body sseqid) ->
   Abundance.parse_hmrg_accession sseqid = Return "parse_error").
Proof.
  split; [apply coloc_parse_returns|].
  split; [apply abundance_parse_returns|].
  split; [|split].
  - intros Hno Hlen.
    unfold Coloc.parse_hmrg_accession, Coloc.parse_hmrg_accession_body,
      Abundance.parse_hmrg_accession, Abundance.parse_hmrg_accession_body.
    rewrite (coloc_scan_no_code _ _ Hno), (abundance_scan_no_code _ _ Hno); simpl.
    by destruct (Nat.ltb_spec 3 (length (split "|" (strip (str sseqid))))); [lia|].
  - intros [e He]. unfold Coloc.parse_hmrg_accession. by rewrite He.
  - intros [e He]. unfold Abundance.parse_hmrg_accession. by rewrite He.
Qed.

Lemma parse_hmrg_accession_total_witness :
  Coloc.parse_hmrg_accession (Some "BAC0001|abeM") = Return "unknown_accession" /\
  Abundance.parse_hmrg_accession (Some "BAC0001|abeM") = Return "unknown_accession" /\
  Abundance.parse_hmrg_accession (Some "gi|123|ref") = Return "parse_error".
Proof.
  split; [|split].
  - apply (parse_hmrg_accession_total (Some "BAC0001|abeM")).
    + intros code Hc. repeat (apply elem_of_cons in Hc as [->|Hc]; [reflexivity|]).
      by apply elem_of_nil in Hc.
    + simpl. lia.
  - apply (parse_hmrg_accession_total (Some "BAC0001|abeM")).
    + intros code Hc. repeat (apply elem_of_cons in Hc as [->|Hc]; [reflexivity|]).
      by apply elem_of_nil in Hc.
    + simpl. lia.
  - apply (parse_hmrg_accession_total (Some "gi|123|ref")).
    exists IndexError. reflexivity.
Defined.

(** C2. The two copies of [parse_hmrg_accession] disagree on a subject
    identifier whose last field is a database code: script 11 checks the
    length and falls through to unknown_accession, script 12 reads past the
    end and answers parse_error. *)
Theorem parse_hmrg_accession_copies_differ :
  Coloc.parse_hmrg_accession (Some "gi|123|ref") = Return "unknown_accession" /\
  Abundance.parse_hmrg_accession (Some "gi|123|ref") = Return "parse_error".
Proof. split; reflexivity. Qed.

(** ** Sorting *)

Section stable_sort_facts.
Context {A : Type} (leb : A -> A -> bool).
Hypothesis leb_total : forall x y, leb x y = true \/ leb y x = true.
Hypothesis leb_trans :
  forall x y z, leb x y = true -> leb y z = true -> leb x z = true.

Lemma insert_sorted_Permutation (x : A) (l : list A) :
  insert_sorted leb x l ≡ₚ x :: l.
Proof.
  induction l as [|y l IH]; simpl; [done|].
  destruct (leb x y); [done|]. rewrite IH. apply Permutation_swap.
Qed.

Lemma stable_sort_Permutation (l : list A) : stable_sort leb l ≡ₚ l.
Proof.
  induction l as [|x l IH]; simpl; [done|].
  by rewrite insert_sorted_Permutation, IH.
Qed.

Lemma insert_sorted_StronglySorted (x : A) (l : list A) :
  StronglySorted (fun a b => leb a b = true) l ->
  StronglySorted (fun a b => leb a b = true) (insert_sorted leb x l).
Proof.
  induction 1 as [|y l Hl IH Hy]; simpl; [by repeat constructor|].
  destruct (leb x y) eqn:Hxy.
  - constructor; [by constructor|].
    constructor; [done|].
    eapply Forall_impl; [exact Hy|]. intros z Hz. by eapply leb_trans.
  - constructor; [done|].
    rewrite insert_sorted_Permutation. constructor; [|done].
    destruct (leb_total x y) as [H|H]; [congruence|done].
Qed.

Lemma stable_sort_StronglySorted (l : list A) :
  StronglySorted (fun a b => leb a b = true) (stable_sort leb l).
Proof.
  induction l as [|x l IH]; simpl; [constructor|].
  by apply insert_sorted_StronglySorted.
Qed.
End stable_sort_facts.

Lemma StronglySorted_rev {A} (R : relation A) (l : list A) :
  StronglySorted R l -> StronglySorted (flip R) (rev l).
Proof.
  induction 1 as [|x l Hl IH Hx]; simpl; [constructor|].
  apply StronglySorted_app. split_and!; [|done|by repeat constructor].
  intros x1 x2 Hx1 ->%list_elem_of_singleton.
  rewrite Forall_forall in Hx. apply Hx.
  by apply list_elem_of_In, in_rev, list_elem_of_In.
Qed.

Lemma StronglySorted_weaken {A} (R1 R2 : relation A) (l : list A) :
  (forall x y, x ∈ l -> y ∈ l -> R1 x y -> R2 x y) ->
  StronglySorted R1 l -> StronglySorted R2 l.
Proof.
  intros HR Hs. induction Hs as [|x l Hl IH Hx]; [constructor|].
  constructor.
  - apply IH. intros a b Ha Hb. apply HR; by right.
  - rewrite Forall_forall in *. intros y Hy.
    apply HR; [by left|by right|by apply Hx].
Qed.

Lemma filter_key_partition {A K} (by_ : A -> option K) (rows : list A) :
  List.filter (fun r => bool_decide (is_Some (by_ r))) rows
    ++ List.filter (fun r => bool_decide (by_ r = None)) rows ≡ₚ rows.
Proof.
  induction rows as [|r rows IH]; simpl; [done|].
  destruct (by_ r) as [k|] eqn:Hk.
  - rewrite bool_decide_true by eauto. rewrite bool_decide_false by done.
    simpl. by rewrite IH.
  - rewrite bool_decide_false by (by intros [? ?]). rewrite bool_decide_true by done.
    rewrite <- Permutation_middle. by rewrite IH.
Qed.

Section sort_values_facts.
Context {A K : Type} (leb : K -> K -> bool) (by_ : A -> option K).
Hypothesis leb_total : forall x y, leb x y = true \/ leb y x = true.
Hypothesis leb_trans :
  forall x y z, leb x y = true -> leb y z = true -> leb x z = true.

Lemma key_leb_total (x y : A) :
  key_leb leb by_ x y = true \/ key_leb leb by_ y x = true.
Proof. unfold key_leb. destruct (by_ x), (by_ y); auto. Qed.

Lemma key_leb_trans (x y z : A) :
  key_leb leb by_ x y = true -> key_leb leb by_ y z = true ->
  key_leb leb by_ x z = true.
Proof. unfold key_leb. destruct (by_ x), (by_ y), (by_ z); eauto; done. Qed.

Lemma sort_values_Permutation (ascending : bool) (rows : list A) :
  sort_values leb by_ ascending rows ≡ₚ rows.
Proof.
  unfold sort_values.
  etransitivity; [|apply (filter_key_partition by_ rows)].
  apply Permutation_app_tail. destruct ascending.
  - apply stable_sort_Permutation.
  - rewrite <- Permutation_rev, stable_sort_Permutation.
    by rewrite <- Permutation_rev.
Qed.

Lemma sort_values_desc_sorted (rows : list A) :
  StronglySorted (desc_by leb by_) (sort_values leb by_ false rows).
Proof.
  unfold sort_values. apply StronglySorted_app. split_and!.
  - intros x1 x2 _ Hx2.
    apply list_elem_of_In, filter_In in Hx2 as [_ Hx2].
    apply bool_decide_eq_true in Hx2. unfold desc_by. rewrite Hx2.
    by destruct (by_ x1).
  - eapply (StronglySorted_weaken (flip (fun a b => key_leb leb by_ a b = true))).
    + assert (forall x, x ∈ rev (stable_sort (key_leb leb by_)
                  (rev (List.filter (fun r => bool_decide (is_Some (by_ r))) rows)))
                -> is_Some (by_ x)) as Hsome.
      { intros x Hx.
        rewrite <- Permutation_rev, stable_sort_Permutation, <- Permutation_rev in Hx.
        apply list_elem_of_In, filter_In in Hx as [_ Hx].
        by apply bool_decide_eq_true in Hx. }
      intros x y [a Ha]%Hsome [b Hb]%Hsome.
      unfold flip, key_leb, desc_by. by rewrite Ha, Hb.
    + apply StronglySorted_rev, stable_sort_StronglySorted;
        [apply key_leb_total|apply key_leb_trans].
  - induction rows as [|r rows IH]; simpl; [constructor|].
    case_bool_decide as Hr; [|done].
    constructor; [done|]. apply Forall_forall. intros y Hy.
    apply list_elem_of_In, filter_In in Hy as [_ Hy].
    apply bool_decide_eq_true in Hy. unfold desc_by. by rewrite Hr, Hy.
Qed.
End sort_values_facts.

Lemma string_leb_total (x y : string) :
  String.leb x y = true \/ String.leb y x = true.
Proof. apply String.leb_total. Qed.

Lemma string_leb_trans (x y z : string) :
  String.leb x y = true -> String.leb y z = true -> String.leb x z = true.
Proof.
  intros H1 H2. apply Is_true_true.
  apply Is_true_true in H1, H2.
  exact (transitivity (R:=String.le) H1 H2).
Qed.

(** ** [drop_duplicates] keeps the first row of every key *)

Lemma drop_duplicates_go_elem {A} (key : A -> cell) (seen : list cell)
    (rows : list A) (r : A) :
  r ∈ drop_duplicates_go key seen rows <->
  exists l1 l2, rows = l1 ++ r :: l2 /\ (key r ∉ seen) /\ (key r ∉ (key <$> l1)).
Proof.
  revert seen. induction rows as [|x rows IH]; intros seen; simpl.
  - split; [by intros ?%elem_of_nil|]. intros ([|??] & ? & ? & _); done.
  - case_bool_decide as Hx.
    + rewrite IH. split.
      * intros (l1 & l2 & -> & Hs & Hl). exists (x :: l1), l2.
        split_and!; [done|done|]. rewrite fmap_cons, not_elem_of_cons.
        split; [|done]. intros Heq. apply Hs. by rewrite Heq.
      * intros ([|y l1] & l2 & Heq & Hs & Hl); simplify_eq/=; [done|].
        apply not_elem_of_cons in Hl as [? ?]. by exists l1, l2.
    + rewrite elem_of_cons, IH. split.
      * intros [->|(l1 & l2 & -> & Hs & Hl)].
        -- exists [], rows. split_and!; [done|done|]. simpl. apply not_elem_of_nil.
        -- apply not_elem_of_cons in Hs as [? ?].
           exists (x :: l1), l2. split_and!; [done|done|].
           rewrite fmap_cons, not_elem_of_cons. done.
      * intros ([|y l1] & l2 & Heq & Hs & Hl); simplify_eq/=; [by left|].
        apply not_elem_of_cons in Hl as [? ?]. right.
        exists l1, l2. split_and!; [done| |done].
        rewrite not_elem_of_cons. done.
Qed.

Lemma drop_duplicates_go_NoDup {A} (key : A -> cell) (seen : list cell)
    (rows : list A) :
  NoDup (key <$> drop_duplicates_go key seen rows).
Proof.
  revert seen. induction rows as [|x rows IH]; intros seen; simpl; [constructor|].
  case_bool_decide; [apply IH|].
  rewrite fmap_cons. constructor; [|apply IH].
  intros (y & Hk & Hy)%list_elem_of_fmap.
  apply drop_duplicates_go_elem in Hy as (_ & _ & _ & Hs & _).
  apply Hs. rewrite <- Hk. by left.
Qed.

Lemma drop_duplicates_go_covers {A} (key : A -> cell) (seen : list cell)
    (rows : list A) (r : A) :
  r ∈ rows -> key r ∉ seen ->
  exists r', r' ∈ drop_duplicates_go key seen rows /\ key r' = key r.
Proof.
  revert seen. induction rows as [|x rows IH]; intros seen; [by intros ?%elem_of_nil|].
  simpl. intros [->|Hr]%elem_of_cons Hs.
  - rewrite bool_decide_false by done. exists x. split; [by left|done].
  - case_bool_decide as Hx; [by apply IH|].
    destruct (decide (key r = key x)) as [Heq|Hne].
    + exists x. split; [by left|done].
    + destruct (IH (key x :: seen) Hr) as (r' & Hr' & Hk).
      { rewrite not_elem_of_cons. done. }
      exists r'. split; [by right|done].
Qed.

(** ** Script 11: best hits *)

Lemma best_hits_one_per_query (rows : list hit) :
  NoDup (h_protein_id <$> Coloc.best_hits rows).
Proof. apply drop_duplicates_go_NoDup. Qed.

Lemma best_hits_from_input (rows : list hit) (r : hit) :
  r ∈ Coloc.best_hits rows -> r ∈ rows.
Proof.
  intros (l1 & l2 & Heq & _)%drop_duplicates_go_elem.
  rewrite <- (sort_values_Permutation String.leb h_bitscore false rows), Heq.
  set_solver.
Qed.

Lemma best_hits_covers (rows : list hit) (r : hit) :
  r ∈ rows ->
  exists r', r' ∈ Coloc.best_hits rows /\ h_protein_id r' = h_protein_id r.
Proof.
  intros Hr. apply drop_duplicates_go_covers; [|apply not_elem_of_nil].
  by rewrite (sort_values_Permutation String.leb h_bitscore false rows).
Qed.

(** What the loader keeps for a query is a row whose [bit_score] text is
    greatest in the order of strings. *)
Lemma best_hits_text_greatest (rows : list hit) (kept r : hit) :
  kept ∈ Coloc.best_hits rows -> r ∈ rows ->
  h_protein_id r = h_protein_id kept ->
  desc_by String.leb h_bitscore kept r.
Proof.
  intros (l1 & l2 & Heq & _ & Hl1)%drop_duplicates_go_elem Hr Hk.
  pose proof (sort_values_desc_sorted String.leb h_bitscore
                string_leb_total string_leb_trans rows) as Hs.
  rewrite Heq in Hs.
  rewrite <- (sort_values_Permutation String.leb h_bitscore false rows), Heq in Hr.
  apply elem_of_app in Hr as [Hr|Hr].
  { destruct Hl1. rewrite <- Hk. by apply list_elem_of_fmap_2. }
  apply StronglySorted_app_1_r, StronglySorted_cons in Hs as [Hs _].
  apply elem_of_cons in Hr as [->|Hr].
  - unfold desc_by. destruct (h_bitscore kept) as [b|]; [|done].
    destruct (string_leb_total b b); done.
  - rewrite Forall_forall in Hs. by apply Hs.
Qed.

Example best_hits_spec_example :
  h_bitscore <$> Coloc.best_hits
    [mk_hit (Some "q") (Some "s1") None None (Some "10");
     mk_hit (Some "q") (Some "s2") None None (Some "25");
     mk_hit (Some "q") (Some "s3") None None (Some "25")] = [Some "25"].
Proof. reflexivity. Qed.

(** C1. The loader keeps one row per query, but it compares the
    [bit_score] fields as text: of two hits of one query with bit scores
    98.2 and 101.5 it keeps the hit with 98.2, which is not the greatest
    as a number. *)
Theorem best_hits_orders_bit_scores_as_text :
  let low := mk_hit (Some "k141_7_2") (Some "gb|AAA01|ARO:3000001|ceoB")
                    (Some "80.1") (Some "1e-30") (Some "98.2") in
  let high := mk_hit (Some "k141_7_2") (Some "gb|BBB02|ARO:3000002|mexB")
                     (Some "85.0") (Some "1e-40") (Some "101.5") in
  Coloc.best_hits [low; high] = [low] /\
  Coloc.best_hits [high; low] = [low] /\
  exists q_low q_high,
    decimal_value "98.2" = Some q_low /\
    decimal_value "101.5" = Some q_high /\
    (q_low < q_high)%Q.
Proof.
  split; [reflexivity|]. split; [reflexivity|].
  eexists _, _. split; [reflexivity|]. split; [reflexivity|].
  vm_compute. reflexivity.
Qed.

(** ** [unique], [groupby] and [mapM] *)

Lemma elem_of_unique `{EqDecision A} (l : list A) (x : A) :
  x ∈ unique l <-> x ∈ l.
Proof.
  induction l as [|y l IH]; simpl; [done|].
  rewrite !elem_of_cons, list_elem_of_filter, IH.
  destruct (decide (x = y)) as [Heq|Hne]; [by split; left|].
  split; [intros [?|[_ ?]]; auto|intros [?|?]; auto].
Qed.

Lemma NoDup_unique `{EqDecision A} (l : list A) : NoDup (unique l).
Proof.
  induction l as [|y l IH]; simpl; [constructor|].
  constructor; [|by apply NoDup_filter].
  rewrite list_elem_of_filter. by intros [Hne _].
Qed.

Lemma elem_of_group_keys {A} (key : A -> cell) (rows : list A) (k : string) :
  k ∈ group_keys key rows <-> exists r, r ∈ rows /\ key r = Some k.
Proof.
  unfold group_keys.
  rewrite (stable_sort_Permutation String.leb), elem_of_unique.
  apply list_elem_of_omap.
Qed.

Lemma NoDup_group_keys {A} (key : A -> cell) (rows : list A) :
  NoDup (group_keys key rows).
Proof.
  unfold group_keys. rewrite (stable_sort_Permutation String.leb).
  apply NoDup_unique.
Qed.

Lemma elem_of_groupby {A} (key : A -> cell) (rows : list A) (g : string * list A) :
  g ∈ groupby key rows <->
  g.1 ∈ group_keys key rows /\ g.2 = filter (fun r => key r = Some g.1) rows.
Proof.
  unfold groupby. rewrite list_elem_of_fmap. split.
  - intros (k & -> & Hk). done.
  - intros [Hk Hg]. exists g.1. split; [|done]. destruct g; simpl in *. by subst.
Qed.

Lemma groupby_keys {A} (key : A -> cell) (rows : list A) :
  (groupby key rows).*1 = group_keys key rows.
Proof.
  unfold groupby.
  induction (group_keys key rows) as [|k ks IH]; [done|].
  rewrite !fmap_cons. simpl. by rewrite IH.
Qed.

Lemma mapM_result_returns {A B} (f : A -> result B) (l : list A) :
  (forall x, x ∈ l -> exists y, f x = Return y) ->
  exists ys, mapM f l = Return ys /\ Forall2 (fun x y => f x = Return y) l ys.
Proof.
  induction l as [|x l IH]; intros Hf; simpl.
  - exists []. by split; [|constructor].
  - destruct (Hf x) as [y Hy]; [by left|].
    destruct IH as (ys & Hys & Hall); [intros z Hz; apply Hf; by right|].
    exists (y :: ys). rewrite Hy; simpl. rewrite Hys; simpl.
    by split; [|constructor].
Qed.

(** ** Script 11: the colocalized contigs *)

Lemma annotations_return (hmrg_map : gmap string cell) (card bacmet : list hit) :
  exists df, Coloc.annotations hmrg_map card bacmet = Return df.
Proof.
  unfold Coloc.annotations.
  destruct (mapM_result_returns (Coloc.annotate "ARG" Coloc.card_name)
              (Coloc.best_hits card)) as (dc & -> & _).
  { intros h _. unfold Coloc.annotate, Coloc.card_name, Coloc.parse_card_gene_name.
    destruct (h_sseqid h) as [s|]; simpl; [|by eauto].
    destruct (getitem_last _); simpl; by eauto. }
  destruct (mapM_result_returns (Coloc.annotate "HMRG" (Coloc.bacmet_name hmrg_map))
              (Coloc.best_hits bacmet)) as (db & -> & _).
  { intros h _. unfold Coloc.annotate, Coloc.bacmet_name.
    destruct (coloc_parse_returns (h_sseqid h)) as [acc ->]. simpl. by eauto. }
  simpl. by eauto.
Qed.



(** ** Counters *)

Section counter_facts.
Context `{Countable K}.
Implicit Types (c : gmap K nat) (k : K) (xs : list K).

Lemma counter_update_lookup_in c xs k :
  k ∈ xs ->
  counter_update c xs !! k
    = Some (counter_get c k + length (filter (fun x => x = k) xs)).
Proof.
  induction xs as [|x xs IH]; [by intros ?%elem_of_nil|].
  intros Hin. simpl. unfold counter_incr at 1.
  rewrite filter_cons. destruct (decide (x = k)) as [->|Hne].
  - rewrite lookup_insert_eq. f_equal. unfold counter_get at 1.
    destruct (decide (k ∈ xs)) as [Hk|Hk].
    + rewrite (IH Hk). simpl. lia.
    + assert (counter_update c xs !! k = c !! k) as ->.
      { clear -Hk. induction xs as [|y xs IH]; [done|].
        apply not_elem_of_cons in Hk as [? ?]. simpl. unfold counter_incr at 1.
        rewrite lookup_insert_ne by done. by apply IH. }
      assert (filter (fun x => x = k) xs = []) as ->.
      { clear -Hk. induction xs as [|y xs IH]; [done|].
        apply not_elem_of_cons in Hk as [? ?].
        rewrite filter_cons_False by done. by apply IH. }
      unfold counter_get. simpl. lia.
  - rewrite lookup_insert_ne by done.
    apply elem_of_cons in Hin as [->|Hin]; [done|]. by apply IH.
Qed.

Lemma counter_update_lookup_out c xs k :
  k ∉ xs -> counter_update c xs !! k = c !! k.
Proof.
  induction xs as [|y xs IH]; [done|].
  intros [? ?]%not_elem_of_cons. simpl. unfold counter_incr at 1.
  rewrite lookup_insert_ne by done. by apply IH.
Qed.

Lemma counter_get_update c xs k :
  counter_get (counter_update c xs) k
    = counter_get c k + length (filter (fun x => x = k) xs).
Proof.
  destruct (decide (k ∈ xs)) as [Hk|Hk].
  - unfold counter_get at 1. by rewrite (counter_update_lookup_in _ _ _ Hk).
  - unfold counter_get at 1 2. rewrite (counter_update_lookup_out _ _ _ Hk).
    assert (filter (fun x => x = k) xs = []) as ->; [|simpl; lia].
    clear -Hk. induction xs as [|y xs IH]; [done|].
    apply not_elem_of_cons in Hk as [? ?].
    rewrite filter_cons_False by done. by apply IH.
Qed.
End counter_facts.

Lemma tally_lookup_in (names : list string) (s : string) :
  s ∈ names -> tally names !! s = Some (length (filter (fun x => x = s) names)).
Proof.
  intros Hs. unfold tally. rewrite (counter_update_lookup_in _ _ _ Hs).
  unfold counter_get. by rewrite lookup_empty.
Qed.

Lemma filter_eq_pos (names : list string) (s : string) :
  s ∈ names -> 0 < length (filter (fun x => x = s) names).
Proof.
  induction names as [|y names IH]; [by intros ?%elem_of_nil|].
  rewrite filter_cons. destruct (decide (y = s)); simpl; [lia|].
  intros [->|Hin]%elem_of_cons; [done|]. by apply IH.
Qed.

(** ** Script 12: the HMRG abundance report *)

Lemma elem_of_value_counts (names : list string) (s : string) (n : nat) :
  Abundance.mk_abundance s n ∈ Abundance.value_counts names <->
  tally names !! s = Some n.
Proof.
  unfold Abundance.value_counts.
  rewrite (sort_values_Permutation Nat.leb), list_elem_of_fmap.
  split.
  - intros ([k c] & [= -> ->] & Hin). by apply elem_of_map_to_list in Hin.
  - intros Hin. exists (s, n). split; [done|]. by apply elem_of_map_to_list.
Qed.

Lemma value_counts_sorted (names : list string) :
  StronglySorted (fun x y => Abundance.abundance_count y <= Abundance.abundance_count x)
    (Abundance.value_counts names).
Proof.
  unfold Abundance.value_counts.
  eapply StronglySorted_weaken;
    [|apply (sort_values_desc_sorted Nat.leb)].
  - intros x y _ _. unfold desc_by. by intros ?%Nat.leb_le.
  - intros x y. destruct (Nat.leb_spec x y); [by left|right].
    apply Nat.leb_le. lia.
  - intros x y z ?%Nat.leb_le ?%Nat.leb_le. apply Nat.leb_le. lia.
Qed.

Lemma hmrg_gene_names_return (hmrg_map : gmap string cell) (df_bacmet : list hit) :
  exists names,
    Abundance.hmrg_gene_names hmrg_map df_bacmet = Return names /\
    Forall2 (fun h name => Abundance.hmrg_gene_name_of hmrg_map h = Return name)
            df_bacmet names.
Proof.
  apply mapM_result_returns. intros h _. unfold Abundance.hmrg_gene_name_of.
  destruct (abundance_parse_returns (h_sseqid h)) as [acc ->]. simpl. by eauto.
Qed.

(** C10. Some sample has the sentinels unknown_accession and parse_error
    in the [hmrg_gene_name] column of its HMRG abundance report.  In
    general a raw hit whose accession is [s], with [s] absent from the
    translation table, is counted under [s] in the report that is written:
    the row of [s] is there, and its count is the number of hits that
    resolve to [s]. *)
Theorem sentinels_reach_hmrg_abundance_report :
  (exists (hmrg_map : gmap string cell) (df_bacmet : list hit) report,
     Abundance.process_hmrg_abundance "S1" hmrg_map (Some df_bacmet)
       = Return [Print MsgProcessing;
                 WriteFile "S1_hmrg_abundance.tsv" report;
                 Print MsgSuccess] /\
     Abundance.mk_abundance "unknown_accession" 1 ∈ report /\
     Abundance.mk_abundance "parse_error" 1 ∈ report) /\
  (forall (sample_name : string) (hmrg_map : gmap string cell)
          (df_bacmet : list hit) (h : hit) (s : string),
     h ∈ df_bacmet ->
     Abundance.parse_hmrg_accession (h_sseqid h) = Return s ->
     hmrg_map !! s = None ->
     exists names,
       Abundance.hmrg_gene_names hmrg_map df_bacmet = Return names /\
       Abundance.process_hmrg_abundance sample_name hmrg_map (Some df_bacmet)
         = Return [Print MsgProcessing;
                   WriteFile (sample_name +:+ "_hmrg_abundance.tsv")
                             (Abundance.value_counts names);
                   Print MsgSuccess] /\
       Abundance.mk_abundance s (length (filter (fun x => x = s) names))
         ∈ Abundance.value_counts names /\
       0 < length (filter (fun x => x = s) names)).
Proof.
  split.
  - exists ∅, [mk_hit (Some "k141_1_1") (Some "BAC0001|abeM") None None None;
              mk_hit (Some "k141_1_2") (Some "gi|123|ref") None None None].
    eexists. split; [reflexivity|]. split.
    + apply elem_of_value_counts. reflexivity.
    + apply elem_of_value_counts. reflexivity.
  - intros sample_name hmrg_map df_bacmet h s Hh Hparse Hmiss.
    destruct (hmrg_gene_names_return hmrg_map df_bacmet) as (names & Hnames & Hall).
    exists names. split; [done|].
    assert (s ∈ names) as Hs.
    { apply list_elem_of_lookup in Hh as [i Hi].
      destruct (Forall2_lookup_l _ _ _ _ _ Hall Hi) as (name & Hname & Hres).
      unfold Abundance.hmrg_gene_name_of in Hres. rewrite Hparse in Hres.
      cbn [mbind result_bind] in Hres.
      assert (map_fillna hmrg_map s = s) as Hfill
        by (unfold map_fillna; by rewrite Hmiss).
      rewrite Hfill in Hres.
      injection Hres as <-. by eapply list_elem_of_lookup_2. }
    split; [|split].
    + unfold Abundance.process_hmrg_abundance, Abundance.hmrg_abundance_body.
      by rewrite Hnames.
    + apply elem_of_value_counts. by apply tally_lookup_in.
    + by apply filter_eq_pos.
Qed.

(** ** Script 14: the density ranking *)

Lemma wrap64_small (z : Z) : (- 2 ^ 63 <= z < 2 ^ 63)%Z -> wrap64 z = z.
Proof.
  intros Hz. unfold wrap64.
  rewrite Z.mod_small by lia. lia.
Qed.

Lemma size_of_group (ty c : string) (df : list detail_row) :
  TopClusters.size_of ty
    (filter (fun r => contig_id r = Some c)
            (filter (fun r => gene_type r ≠ None) df))
  = Z.of_nat (hits_on ty c df).
Proof.
  unfold TopClusters.size_of, hits_on. f_equal.
  induction df as [|r df IH]; [done|].
  rewrite (filter_cons (fun r => gene_type r ≠ None)).
  rewrite (filter_cons (fun r => contig_id r = Some c /\ gene_type r = Some ty)).
  destruct (decide (gene_type r ≠ None)) as [Hgt|Hgt].
  - rewrite (filter_cons (fun r => contig_id r = Some c)).
    destruct (decide (contig_id r = Some c)) as [Hc|Hc].
    + rewrite (filter_cons (fun r => gene_type r = Some ty)).
      destruct (decide (gene_type r = Some ty)) as [Ht|Ht].
      * rewrite decide_True by done. simpl. by rewrite IH.
      * rewrite decide_False by (by intros [_ ?]). done.
    + rewrite decide_False by (by intros [? _]). done.
  - rewrite decide_False; [done|].
    intros [_ Ht]. apply Hgt. by rewrite Ht.
Qed.

Lemma elem_of_gene_counts (df : list detail_row) (cr : TopClusters.count_row) :
  cr ∈ TopClusters.gene_counts df <->
  TopClusters.cr_contig cr
    ∈ group_keys contig_id (filter (fun r => gene_type r ≠ None) df) /\
  TopClusters.cr_ARG cr = Z.of_nat (hits_on "ARG" (TopClusters.cr_contig cr) df) /\
  TopClusters.cr_HMRG cr = Z.of_nat (hits_on "HMRG" (TopClusters.cr_contig cr) df) /\
  TopClusters.density_score cr
    = wrap64 (TopClusters.cr_ARG cr * TopClusters.cr_HMRG cr).
Proof.
  unfold TopClusters.gene_counts. rewrite list_elem_of_fmap.
  setoid_rewrite elem_of_groupby. split.
  - intros ([c rows] & -> & Hc & Hrows). simpl in *. subst rows.
    by rewrite !size_of_group.
  - intros (Hc & Ha & Hh & Hd). destruct cr as [c a h d]; simpl in *.
    exists (c, filter (fun r => contig_id r = Some c)
                      (filter (fun r => gene_type r ≠ None) df)).
    split; [|done]. simpl. rewrite !size_of_group. by subst.
Qed.

Lemma hits_on_sum_le (c : string) (df : list detail_row) :
  hits_on "ARG" c df + hits_on "HMRG" c df <= length df.
Proof.
  unfold hits_on. induction df as [|r df IH]; [done|].
  rewrite !filter_cons. simpl.
  destruct (decide (contig_id r = Some c /\ gene_type r = Some "ARG")) as [[_ Ha]|_];
  destruct (decide (contig_id r = Some c /\ gene_type r = Some "HMRG")) as [[_ Hh]|_];
    simpl; try lia.
  rewrite Ha in Hh. discriminate.
Qed.

Lemma density_score_exact (df : list detail_row) (cr : TopClusters.count_row) :
  (Z.of_nat (length df) < 2 ^ 32)%Z -> cr ∈ TopClusters.gene_counts df ->
  TopClusters.density_score cr
    = (Z.of_nat (hits_on "ARG" (TopClusters.cr_contig cr) df)
       * Z.of_nat (hits_on "HMRG" (TopClusters.cr_contig cr) df))%Z.
Proof.
  intros Hlen (_ & Ha & Hh & ->)%elem_of_gene_counts. rewrite Ha, Hh.
  pose proof (hits_on_sum_le (TopClusters.cr_contig cr) df) as Hsum.
  apply wrap64_small.
  apply Nat2Z.inj_le in Hsum. rewrite Nat2Z.inj_add in Hsum.
  set (a := Z.of_nat (hits_on "ARG" (TopClusters.cr_contig cr) df)) in *.
  set (h := Z.of_nat (hits_on "HMRG" (TopClusters.cr_contig cr) df)) in *.
  assert (0 <= a)%Z by (subst a; lia). assert (0 <= h)%Z by (subst h; lia).
  assert (a < 2 ^ 32)%Z by lia. assert (h < 2 ^ 32)%Z by lia.
  assert (a + h < 2 ^ 32)%Z as Hah by lia.
  change (2 ^ 32)%Z with 4294967296%Z in *.
  change (2 ^ 63)%Z with 9223372036854775808%Z.
  split; [nia|]. nia.
Qed.

Lemma elem_of_top_contigs_df (df : list detail_row) (cr : TopClusters.count_row) :
  cr ∈ TopClusters.top_contigs_df df <->
  cr ∈ TopClusters.gene_counts df /\ (0 < TopClusters.density_score cr)%Z.
Proof.
  unfold TopClusters.top_contigs_df.
  rewrite list_elem_of_filter, (sort_values_Permutation Z.leb). tauto.
Qed.

Lemma Z_leb_total (x y : Z) : (x <=? y)%Z = true \/ (y <=? x)%Z = true.
Proof. destruct (Z.leb_spec x y); [by left|right]. apply Z.leb_le. lia. Qed.

Lemma Z_leb_trans (x y z : Z) :
  (x <=? y)%Z = true -> (y <=? z)%Z = true -> (x <=? z)%Z = true.
Proof. intros ?%Z.leb_le ?%Z.leb_le. apply Z.leb_le. lia. Qed.

Lemma StronglySorted_filter {A} (R : relation A) (P : A -> Prop)
    `{forall x, Decision (P x)} (l : list A) :
  StronglySorted R l -> StronglySorted R (filter P l).
Proof.
  induction 1 as [|x l Hl IH Hx]; [constructor|].
  rewrite filter_cons. destruct (decide (P x)); [|done].
  constructor; [done|]. rewrite Forall_forall in *.
  intros y [_ Hy]%list_elem_of_filter. by apply Hx.
Qed.

Lemma top_contigs_df_sorted (df : list detail_row) :
  StronglySorted
    (fun x y => (TopClusters.density_score y <= TopClusters.density_score x)%Z)
    (TopClusters.top_contigs_df df).
Proof.
  unfold TopClusters.top_contigs_df. apply StronglySorted_filter.
  eapply StronglySorted_weaken;
    [|apply (sort_values_desc_sorted Z.leb _ Z_leb_total Z_leb_trans)].
  intros x y _ _. unfold desc_by. by intros ?%Z.leb_le.
Qed.

Lemma ranked_contigs_length (k : nat) (df : list detail_row) :
  length (TopClusters.ranked_contigs k df) <= k.
Proof.
  unfold TopClusters.ranked_contigs. rewrite length_fmap, length_take. lia.
Qed.

Lemma ranked_contigs_have_both (k : nat) (df : list detail_row) (c : string) :
  c ∈ TopClusters.ranked_contigs k df ->
  0 < hits_on "ARG" c df /\ 0 < hits_on "HMRG" c df.
Proof.
  unfold TopClusters.ranked_contigs.
  intros (cr & -> & Hcr%subseteq_take)%list_elem_of_fmap.
  apply elem_of_top_contigs_df in Hcr as [(_ & Ha & Hh & Hd)%elem_of_gene_counts Hpos].
  rewrite Hd, Ha, Hh in Hpos.
  destruct (hits_on "ARG" _ df) as [|a]; [by rewrite Z.mul_0_l in Hpos|].
  destruct (hits_on "HMRG" _ df) as [|h]; [by rewrite Z.mul_0_r in Hpos|].
  lia.
Qed.

Lemma top_contigs_df_complete (df : list detail_row) (c : string) :
  (Z.of_nat (length df) < 2 ^ 32)%Z ->
  0 < hits_on "ARG" c df -> 0 < hits_on "HMRG" c df ->
  c ∈ TopClusters.cr_contig <$> TopClusters.top_contigs_df df.
Proof.
  intros Hlen Ha Hh.
  set (a := Z.of_nat (hits_on "ARG" c df)).
  set (h := Z.of_nat (hits_on "HMRG" c df)).
  assert (TopClusters.mk_count c a h (wrap64 (a * h)) ∈ TopClusters.gene_counts df)
    as Hin.
  { apply elem_of_gene_counts. simpl. split; [|done].
    apply elem_of_group_keys. unfold hits_on in Ha.
    destruct (filter _ df) as [|r rs] eqn:Hf; [simpl in Ha; lia|].
    assert (r ∈ filter (fun r => contig_id r = Some c /\ gene_type r = Some "ARG") df)
      as [[Hc Ht] Hr]%list_elem_of_filter by (rewrite Hf; by left).
    exists r. split; [|done]. apply list_elem_of_filter. split; [|done].
    by rewrite Ht. }
  apply list_elem_of_fmap.
  exists (TopClusters.mk_count c a h (wrap64 (a * h))). split; [done|].
  apply elem_of_top_contigs_df.
  split; [done|]. rewrite (density_score_exact df _ Hlen Hin). simpl. lia.
Qed.

(** C7. Under the bound that keeps the int64 product from wrapping (fewer
    than 2^32 rows), every contig of the tally scores the number of its
    ARG rows times the number of its HMRG rows, so 3 ARG rows and 2 HMRG
    rows score 6.  The ranking keeps exactly the contigs whose score is
    positive, in descending order of score, and selects the first [k] of
    them ([k] is 10 in the script): at most [k] contigs, none without an
    HMRG row, and every contig with rows of both kinds is ranked. *)
Theorem density_ranker_ranks_by_product (df : list detail_row) (k : nat) :
  (Z.of_nat (length df) < 2 ^ 32)%Z ->
  (forall cr, cr ∈ TopClusters.gene_counts df ->
     TopClusters.density_score cr
       = (Z.of_nat (hits_on "ARG" (TopClusters.cr_contig cr) df)
          * Z.of_nat (hits_on "HMRG" (TopClusters.cr_contig cr) df))%Z) /\
  (forall cr, cr ∈ TopClusters.gene_counts df ->
     hits_on "ARG" (TopClusters.cr_contig cr) df = 3 ->
     hits_on "HMRG" (TopClusters.cr_contig cr) df = 2 ->
     TopClusters.density_score cr = 6%Z) /\
  (forall cr, cr ∈ TopClusters.top_contigs_df df <->
     cr ∈ TopClusters.gene_counts df /\ (0 < TopClusters.density_score cr)%Z) /\
  StronglySorted
    (fun x y => (TopClusters.density_score y <= TopClusters.density_score x)%Z)
    (TopClusters.top_contigs_df df) /\
  TopClusters.ranked_contigs k df
    = TopClusters.cr_contig <$> take k (TopClusters.top_contigs_df df) /\
  length (TopClusters.ranked_contigs k df) <= k /\
  (forall c, hits_on "HMRG" c df = 0 -> c ∉ TopClusters.ranked_contigs k df) /\
  (forall c, 0 < hits_on "ARG" c df -> 0 < hits_on "HMRG" c df ->
     c ∈ TopClusters.cr_contig <$> TopClusters.top_contigs_df df) /\
  TopClusters.target_contigs df
    = list_to_set (TopClusters.ranked_contigs 10 df).
Proof.
  intros Hlen. split_and!.
  - intros cr Hcr. by apply density_score_exact.
  - intros cr Hcr Ha Hh. rewrite (density_score_exact df cr Hlen Hcr), Ha, Hh.
    reflexivity.
  - apply elem_of_top_contigs_df.
  - apply top_contigs_df_sorted.
  - reflexivity.
  - apply ranked_contigs_length.
  - intros c Hzero Hin. apply ranked_contigs_have_both in Hin as [_ Hh]. lia.
  - intros c. by apply top_contigs_df_complete.
  - reflexivity.
Qed.

Lemma density_ranker_ranks_by_product_witness :
  let row := fun c p ty =>
    mk_detail (Some c) (Some p) 1 90 (Some "+") (Some ty) (Some "g") None None None in
  let df := [row "k141_1" "k141_1_1" "ARG"; row "k141_1" "k141_1_2" "ARG";
             row "k141_1" "k141_1_3" "ARG"; row "k141_1" "k141_1_4" "HMRG";
             row "k141_1" "k141_1_5" "HMRG"; row "k141_2" "k141_2_1" "ARG"] in
  (Z.of_nat (length df) < 2 ^ 32)%Z /\
  TopClusters.top_contigs_df df = [TopClusters.mk_count "k141_1" 3 2 6] /\
  "k141_2" ∉ TopClusters.ranked_contigs 10 df.
Proof.
  intros row df. split; [reflexivity|]. split; [reflexivity|].
  apply (density_ranker_ranks_by_product df 10); reflexivity.
Defined.

(** ** Script 12: the pair abundance counter *)

Lemma filter_eq_NoDup_length `{EqDecision A} (xs : list A) (k : A) :
  NoDup xs ->
  length (filter (fun x => x = k) xs) = if decide (k ∈ xs) then 1 else 0.
Proof.
  induction 1 as [|x xs Hx Hnd IH]; [done|].
  rewrite filter_cons. destruct (decide (x = k)) as [->|Hne].
  - rewrite decide_True by (by left). simpl. rewrite IH.
    by rewrite decide_False.
  - rewrite IH. destruct (decide (k ∈ xs)) as [Hk|Hk].
    + by rewrite decide_True by (by right).
    + rewrite decide_False; [done|]. by intros [->|?]%elem_of_cons.
Qed.

Lemma dict_get_Some {V} (d : list (string * V)) (k : string) (v : V) :
  NoDup d.*1 -> dict_get k d = Some v <-> (k, v) ∈ d.
Proof.
  induction d as [|[k' v'] d IH]; simpl.
  - intros _. split; [done|by intros ?%elem_of_nil].
  - intros [Hk' Hnd]%NoDup_cons. destruct (String.eqb_spec k k') as [->|Hne].
    + split; [intros [= ->]; by left|].
      intros [[= ->]|Hin]%elem_of_cons; [done|].
      destruct Hk'. apply list_elem_of_fmap. by exists (k', v).
    + rewrite (IH Hnd). split; [by right|].
      intros [[= -> ->]|Hin]%elem_of_cons; done.
Qed.

Lemma count_pairs_get (hs : list (string * list string))
    (pc : gmap (string * string) nat) (args : list (string * list string))
    (k : string * string) :
  counter_get (Abundance.count_pairs hs pc args) k
    = counter_get pc k + length (filter (counted_at hs k) args).
Proof.
  revert pc. induction args as [|[c al] args IH]; intros pc; simpl; [lia|].
  rewrite filter_cons.
  destruct (decide (counted_at hs k (c, al))) as [Hc|Hc];
    unfold counted_at in Hc; simpl in Hc;
    destruct (dict_get c hs) as [hl|] eqn:Hget; try done.
  - rewrite IH, counter_get_update.
    rewrite (filter_eq_NoDup_length _ _ (NoDup_elements _)).
    unfold Abundance.all_pairs_on_contig.
    rewrite decide_True by (by apply elem_of_elements, elem_of_list_to_set).
    simpl. lia.
  - rewrite IH, counter_get_update.
    rewrite (filter_eq_NoDup_length _ _ (NoDup_elements _)).
    unfold Abundance.all_pairs_on_contig.
    rewrite decide_False; [lia|].
    by rewrite elem_of_elements, elem_of_list_to_set.
Qed.

Lemma count_pairs_positive (hs : list (string * list string))
    (pc : gmap (string * string) nat) (args : list (string * list string)) :
  (forall k n, pc !! k = Some n -> 0 < n) ->
  forall k n, Abundance.count_pairs hs pc args !! k = Some n -> 0 < n.
Proof.
  revert pc. induction args as [|[c al] args IH]; intros pc Hpc; simpl; [done|].
  destruct (dict_get c hs) as [hl|]; [|by apply IH].
  apply IH. clear IH. intros k n.
  induction (elements (Abundance.all_pairs_on_contig al hl)) as [|x xs IHx];
    simpl; [by apply Hpc|].
  unfold counter_incr at 1. destruct (decide (x = k)) as [->|Hne].
  - rewrite lookup_insert_eq. intros [= <-]. lia.
  - by rewrite lookup_insert_ne.
Qed.

Lemma pair_counter_lookup (df : list detail_row) (k : string * string) (n : nat) :
  Abundance.pair_counter df !! k = Some n <->
  0 < n /\ counter_get (Abundance.pair_counter df) k = n.
Proof.
  split.
  - intros Hk. split; [|by unfold counter_get; rewrite Hk].
    eapply (count_pairs_positive _ ∅); [|exact Hk].
    intros ? ?. by rewrite lookup_empty.
  - unfold counter_get. intros [Hpos Hget].
    destruct (Abundance.pair_counter df !! k) as [m|]; simpl in *; [by subst|lia].
Qed.

Lemma names_per_contig_keys (ty : string) (df : list detail_row) :
  (Abundance.names_per_contig ty df).*1
  = group_keys contig_id (filter (fun r => gene_type r = Some ty) df).
Proof.
  unfold Abundance.names_per_contig. rewrite <- groupby_keys.
  generalize (groupby contig_id (filter (fun r => gene_type r = Some ty) df)).
  intros l. induction l as [|g l IH]; [done|]. rewrite !fmap_cons. simpl.
  by rewrite IH.
Qed.

Lemma elem_of_names_on (ty c x : string) (df : list detail_row) :
  x ∈ names_on ty c df <->
  exists r, r ∈ df /\ contig_id r = Some c /\ gene_type r = Some ty
            /\ gene_name r = Some x.
Proof.
  unfold names_on. rewrite list_elem_of_omap.
  setoid_rewrite list_elem_of_filter. naive_solver.
Qed.

Lemma names_per_contig_elem (ty : string) (df : list detail_row)
    (c : string) (l : list string) :
  ty = "ARG" \/ ty = "HMRG" ->
  (c, l) ∈ Abundance.names_per_contig ty (Abundance.annotated df) ->
  forall x, x ∈ l <-> x ∈ names_on ty c df.
Proof.
  intros Hty Hin x. unfold Abundance.names_per_contig in Hin.
  apply list_elem_of_fmap in Hin as ([c' rows] & [= -> ->] & Hg).
  apply elem_of_groupby in Hg as [_ Hrows]. simpl in *. subst rows.
  rewrite elem_of_unique, list_elem_of_omap, elem_of_names_on.
  unfold Abundance.annotated.
  setoid_rewrite list_elem_of_filter. setoid_rewrite list_elem_of_filter.
  setoid_rewrite list_elem_of_filter. split.
  - intros (r & (Hc & Ht & _ & Hr) & Hn). by exists r.
  - intros (r & Hr & Hc & Ht & Hn). exists r. split; [|done].
    split; [done|]. split; [done|]. split; [|done].
    split; [|by rewrite Hn]. destruct Hty; subst ty; [by left|by right].
Qed.

Lemma names_per_contig_has (ty : string) (df : list detail_row) (c x : string) :
  ty = "ARG" \/ ty = "HMRG" ->
  x ∈ names_on ty c df ->
  exists l, (c, l) ∈ Abundance.names_per_contig ty (Abundance.annotated df).
Proof.
  intros Hty (r & Hr & Hc & Ht & Hn)%elem_of_names_on.
  assert (c ∈ (Abundance.names_per_contig ty (Abundance.annotated df)).*1) as Hk.
  { rewrite names_per_contig_keys. apply elem_of_group_keys.
    exists r. split; [|done]. apply list_elem_of_filter. split; [done|].
    apply list_elem_of_filter. split; [|done].
    split; [|by rewrite Hn]. destruct Hty; subst ty; [by left|by right]. }
  apply list_elem_of_fmap in Hk as ([c' l] & -> & Hin). by exists l.
Qed.

Lemma names_per_contig_NoDup (ty : string) (df : list detail_row) :
  NoDup (Abundance.names_per_contig ty df).*1.
Proof. rewrite names_per_contig_keys. apply NoDup_group_keys. Qed.

Lemma elem_of_list_prod_iff (a h : string) (al hl : list string) :
  (a, h) ∈ list_prod al hl <-> a ∈ al /\ h ∈ hl.
Proof. rewrite !list_elem_of_In. apply in_prod_iff. Qed.

Lemma counted_at_co_occur (df : list detail_row) (a h c : string) (al : list string) :
  (c, al) ∈ Abundance.names_per_contig "ARG" (Abundance.annotated df) ->
  counted_at (Abundance.names_per_contig "HMRG" (Abundance.annotated df))
             (a, h) (c, al)
  <-> co_occur df a h c.
Proof.
  intros Hal. unfold counted_at, co_occur. simpl.
  pose proof (names_per_contig_elem "ARG" df c al (or_introl eq_refl) Hal) as Ha.
  destruct (dict_get c _) as [hl|] eqn:Hget.
  - apply dict_get_Some in Hget; [|apply names_per_contig_NoDup].
    pose proof (names_per_contig_elem "HMRG" df c hl (or_intror eq_refl) Hget) as Hh.
    by rewrite elem_of_list_prod_iff, Ha, Hh.
  - split; [done|]. intros [_ Hh].
    destruct (names_per_contig_has "HMRG" df c h (or_intror eq_refl) Hh) as [hl Hhl].
    apply dict_get_Some in Hhl; [|apply names_per_contig_NoDup]. congruence.
Qed.

Lemma NoDup_fst_filter {A B} (P : A * B -> Prop) `{forall x, Decision (P x)}
    (l : list (A * B)) :
  NoDup l.*1 -> NoDup (filter P l).*1.
Proof.
  induction l as [|x l IH]; [done|].
  rewrite fmap_cons. intros [Hx Hnd]%NoDup_cons.
  rewrite filter_cons. destruct (decide (P x)); [|by apply IH].
  rewrite fmap_cons. apply NoDup_cons. split; [|by apply IH].
  intros (y & Hy & [_ Hin]%list_elem_of_filter)%list_elem_of_fmap.
  apply Hx. apply list_elem_of_fmap. by exists y.
Qed.

Lemma pair_counter_get (df : list detail_row) (a h : string) :
  counter_get (Abundance.pair_counter df) (a, h) = size (shared_contigs df a h).
Proof.
  unfold Abundance.pair_counter. rewrite count_pairs_get.
  unfold counter_get at 1. rewrite lookup_empty. simpl.
  set (hs := Abundance.names_per_contig "HMRG" (Abundance.annotated df)).
  set (args := Abundance.names_per_contig "ARG" (Abundance.annotated df)).
  assert (NoDup (filter (counted_at hs (a, h)) args).*1) as Hnd.
  { apply NoDup_fst_filter, names_per_contig_NoDup. }
  rewrite <- (length_fmap fst), <- (size_list_to_set (C:=gset string)) by done.
  f_equal. apply set_eq. intros c.
  unfold shared_contigs.
  rewrite elem_of_list_to_set, elem_of_filter, elem_of_list_to_set, list_elem_of_fmap.
  setoid_rewrite list_elem_of_filter. split.
  - intros ([c' al] & -> & Hcount & Hin). simpl.
    apply (counted_at_co_occur df a h c' al Hin) in Hcount.
    split; [done|]. destruct Hcount as [(r & Hr & Hc & _)%elem_of_names_on _].
    apply list_elem_of_omap. by exists r.
  - intros [Hco _]. pose proof Hco as [Ha _].
    destruct (names_per_contig_has "ARG" df c a (or_introl eq_refl) Ha) as [al Hal].
    exists (c, al). split; [done|]. split; [|done].
    by apply (counted_at_co_occur df a h c al Hal).
Qed.

Lemma elem_of_abundance_df (pc : gmap (string * string) nat) (a h : string) (n : nat) :
  Abundance.mk_pair a h n ∈ Abundance.abundance_df pc <-> pc !! (a, h) = Some n.
Proof.
  unfold Abundance.abundance_df.
  rewrite (sort_values_Permutation Nat.leb), list_elem_of_fmap. split.
  - intros ([[a' h'] c] & [= -> -> ->] & Hin). by apply elem_of_map_to_list in Hin.
  - intros Hin. exists ((a, h), n). split; [done|]. by apply elem_of_map_to_list.
Qed.

Lemma abundance_df_sorted (pc : gmap (string * string) nat) :
  StronglySorted
    (fun x y => Abundance.shared_contig_count y <= Abundance.shared_contig_count x)
    (Abundance.abundance_df pc).
Proof.
  unfold Abundance.abundance_df.
  eapply StronglySorted_weaken;
    [|apply (sort_values_desc_sorted Nat.leb)].
  - intros x y _ _. unfold desc_by. by intros ?%Nat.leb_le.
  - intros x y. destruct (Nat.leb_spec x y); [by left|right].
    apply Nat.leb_le. lia.
  - intros x y z ?%Nat.leb_le ?%Nat.leb_le. apply Nat.leb_le. lia.
Qed.

(** C5. For every detailed report, the count the pair counter holds for an
    (ARG name, HMRG name) pair is the number of distinct contigs on which
    the two names co-occur, so a contig adds at most 1 to a pair however
    often a name repeats on it.  The report has one row for each pair with
    a positive count, carrying that count, and its rows are in descending
    order of [shared_contig_count]; it is the table written when some pair
    was counted.  On a contig with ARG names A1 (twice) and A2 and HMRG
    name H1, the pairs (A1,H1) and (A2,H1) each count 1. *)
Theorem pair_abundance_counts_distinct_contigs (df : list detail_row) :
  (forall a h,
     counter_get (Abundance.pair_counter df) (a, h) = size (shared_contigs df a h)) /\
  (forall a h n,
     Abundance.mk_pair a h n ∈ Abundance.abundance_df (Abundance.pair_counter df)
     <-> 0 < n /\ n = size (shared_contigs df a h)) /\
  StronglySorted
    (fun x y => Abundance.shared_contig_count y <= Abundance.shared_contig_count x)
    (Abundance.abundance_df (Abundance.pair_counter df)) /\
  (forall sample_name,
     Abundance.pair_counter df ≠ ∅ ->
     Abundance.process_pair_abundance sample_name (Some df)
       = Return [Print MsgProcessing;
                 WriteFile (sample_name +:+ "_pair_abundance.tsv")
                           (Abundance.abundance_df (Abundance.pair_counter df));
                 Print MsgSuccess]) /\
  (let row := fun p ty name =>
     mk_detail (Some "k141_1") (Some p) 1 90 (Some "+") (Some ty) (Some name)
               None None None in
   let pc := Abundance.pair_counter
               [row "k141_1_1" "ARG" "A1"; row "k141_1_2" "ARG" "A1";
                row "k141_1_3" "ARG" "A2"; row "k141_1_4" "HMRG" "H1"] in
   pc !! ("A1", "H1") = Some 1 /\ pc !! ("A2", "H1") = Some 1 /\ size pc = 2).
Proof.
  split_and!.
  - intros a h. apply pair_counter_get.
  - intros a h n. rewrite elem_of_abundance_df, pair_counter_lookup, pair_counter_get.
    split; intros [? ?]; by split.
  - apply abundance_df_sorted.
  - intros sample_name Hne. unfold Abundance.process_pair_abundance.
    by destruct (decide (Abundance.pair_counter df = ∅)).
  - vm_compute. done.
Qed.

(** ** Scripts 13 and 14: merging the rows of one protein *)

(** [unique] keeps the values in the order in which they are first seen:
    what it gives for the beginning of a list is the beginning of what it
    gives for the whole list. *)
Lemma unique_prefix `{EqDecision A} (l1 l2 : list A) :
  unique l1 `prefix_of` unique (l1 ++ l2).
Proof.
  induction l1 as [|x l1 IH]; simpl; [apply prefix_nil|].
  destruct IH as [k Hk]. rewrite Hk, filter_app.
  apply prefix_cons, prefix_app_r. done.
Qed.

Lemma unique_fmap_inj `{EqDecision A, EqDecision B} (f : A -> B) (l : list A) :
  (forall x y, x ∈ l -> y ∈ l -> f x = f y -> x = y) ->
  unique (f <$> l) = f <$> unique l.
Proof.
  induction l as [|x l IH]; intros Hinj; [done|].
  rewrite fmap_cons. simpl. f_equal.
  rewrite IH by (intros a b Ha Hb; apply Hinj; by right).
  assert (forall k : list A, (forall y, y ∈ k -> y ∈ l) ->
            filter (fun y => y ≠ f x) (f <$> k) = f <$> filter (fun y => y ≠ x) k)
    as Hf.
  { intros k. induction k as [|y k IHk]; intros Hsub; [done|].
    rewrite fmap_cons, !filter_cons.
    rewrite IHk by (intros z Hz; apply Hsub; by right).
    destruct (decide (y ≠ x)) as [Hne|Heq].
    - rewrite decide_True; [done|]. intros Hfy. apply Hne.
      apply Hinj; [right; apply Hsub; by left|by left|done].
    - rewrite decide_False; [done|]. intros Hfy. apply Hfy.
      destruct (decide (y = x)) as [->|Hn]; [done|by destruct Heq]. }
  apply Hf. intros y Hy. exact (proj1 (elem_of_unique l y) Hy).
Qed.

Lemma stable_sort_sorted_strings (l : list string) :
  StronglySorted (fun x y => String.leb x y = true) (stable_sort String.leb l).
Proof. apply stable_sort_StronglySorted; [apply string_leb_total|apply string_leb_trans]. Qed.

(** The merged [gene_type]: the distinct values of the group, sorted. *)
Lemma merged_gene_type_spec (group : list detail_row) :
  exists tys,
    ClusterData.merged_gene_type group = join "/" tys /\
    StronglySorted (fun x y => String.leb x y = true) tys /\
    NoDup tys /\
    forall t, t ∈ tys <-> exists r, r ∈ group /\ str (gene_type r) = t.
Proof.
  exists (stable_sort String.leb (unique (str ∘ gene_type <$> group))).
  split; [done|]. split; [apply stable_sort_sorted_strings|]. split.
  - rewrite (stable_sort_Permutation String.leb). apply NoDup_unique.
  - intros t. rewrite (stable_sort_Permutation String.leb), elem_of_unique,
      list_elem_of_fmap. naive_solver.
Qed.

(** The merged [gene_name]: the distinct non-null names of the group, in
    the order in which they are first seen. *)
Lemma merged_gene_name_spec (group : list detail_row) :
  exists names,
    ClusterData.merged_gene_name group = join " / " names /\
    NoDup names /\
    (forall x, x ∈ names <-> exists r, r ∈ group /\ gene_name r = Some x) /\
    forall g1 g2, group = g1 ++ g2 -> unique (omap gene_name g1) `prefix_of` names.
Proof.
  exists (unique (omap gene_name group)).
  split; [done|]. split; [apply NoDup_unique|]. split.
  - intros x. by rewrite elem_of_unique, list_elem_of_omap.
  - intros g1 g2 ->. rewrite omap_app. apply unique_prefix.
Qed.

Lemma aggregate_duplicates_single (r : detail_row) :
  ClusterData.aggregate_duplicates [r] = Return r.
Proof. reflexivity. Qed.

Lemma aggregate_duplicates_many (r1 r2 : detail_row) (rest : list detail_row) :
  exists m,
    ClusterData.aggregate_duplicates (r1 :: r2 :: rest) = Return m /\
    gene_type m = Some (ClusterData.merged_gene_type (r1 :: r2 :: rest)) /\
    gene_name m = Some (ClusterData.merged_gene_name (r1 :: r2 :: rest)) /\
    contig_id m = contig_id r1 /\ protein_id m = protein_id r1 /\
    start m = start r1 /\ end_ m = end_ r1 /\ strand m = strand r1.
Proof. eexists. split; [reflexivity|]. by repeat split. Qed.

Lemma aggregate_duplicates_key (group : list detail_row) (m : detail_row) (p : string) :
  (forall r, r ∈ group -> protein_id r = Some p) ->
  ClusterData.aggregate_duplicates group = Return m ->
  protein_id m = Some p.
Proof.
  intros Hkey. destruct group as [|r1 [|r2 rest]]; simpl; [done| |].
  - intros [= <-]. apply Hkey. by left.
  - intros [= <-]. simpl. apply Hkey. by left.
Qed.

Lemma aggregate_duplicates_returns (group : list detail_row) :
  group ≠ [] -> exists m, ClusterData.aggregate_duplicates group = Return m.
Proof. destruct group as [|r1 [|r2 rest]]; [done|by eauto|by eauto]. Qed.

Lemma group_nonempty {A} (key : A -> cell) (rows : list A) (k : string) :
  k ∈ group_keys key rows -> filter (fun r => key r = Some k) rows ≠ [].
Proof.
  intros (r & Hr & Hk)%elem_of_group_keys Hnil.
  assert (r ∈ filter (fun r => key r = Some k) rows) as Hin
    by (by apply list_elem_of_filter).
  rewrite Hnil in Hin. by apply elem_of_nil in Hin.
Qed.

Lemma filter_by_absent_key {B} (key : B -> cell) (ks : list string) (ms : list B)
    (p : string) :
  Forall2 (fun k m => key m = Some k) ks ms -> p ∉ ks ->
  filter (fun r => key r = Some p) ms = [].
Proof.
  induction 1 as [|k m ks ms Hkm Hall IH]; [done|].
  intros [Hne Hp]%not_elem_of_cons.
  rewrite filter_cons, decide_False by congruence. by apply IH.
Qed.

(** One row of [ms] per key of [ks], each carrying its key: filtering by a
    key gives the one row at the position of that key. *)
Lemma filter_by_unique_key {B} (key : B -> cell) (ks : list string) (ms : list B)
    (p : string) :
  NoDup ks -> Forall2 (fun k m => key m = Some k) ks ms -> p ∈ ks ->
  exists i m, ks !! i = Some p /\ ms !! i = Some m /\
              filter (fun r => key r = Some p) ms = [m].
Proof.
  intros Hnd Hall. revert Hnd.
  induction Hall as [|k m ks ms Hkm Hall IH]; intros Hnd Hp; [by apply elem_of_nil in Hp|].
  apply NoDup_cons in Hnd as [Hk Hnd]. rewrite filter_cons.
  destruct (decide (k = p)) as [->|Hne].
  - exists 0, m. split; [done|]. split; [done|].
    rewrite decide_True by done. f_equal.
    by eapply filter_by_absent_key.
  - apply elem_of_cons in Hp as [->|Hp]; [done|].
    destruct (IH Hnd Hp) as (i & m' & Hi & Hm & Hf).
    exists (S i), m'. split; [done|]. split; [done|].
    rewrite decide_False by congruence. done.
Qed.

Lemma deduplicate_merged (df_details : list detail_row) :
  exists merged,
    mapM (fun g => ClusterData.aggregate_duplicates g.2)
         (groupby protein_id (ClusterData.df_annotated df_details)) = Return merged /\
    Forall2 (fun k m =>
               ClusterData.aggregate_duplicates
                 (filter (fun r => protein_id r = Some k)
                         (ClusterData.df_annotated df_details)) = Return m)
            (group_keys protein_id (ClusterData.df_annotated df_details)) merged.
Proof.
  destruct (mapM_result_returns (fun g => ClusterData.aggregate_duplicates g.2)
              (groupby protein_id (ClusterData.df_annotated df_details)))
    as (merged & Hm & Hall).
  { intros g [Hk ->]%elem_of_groupby.
    by apply aggregate_duplicates_returns, group_nonempty. }
  exists merged. split; [done|].
  unfold groupby in Hall. by apply Forall2_fmap_l in Hall.
Qed.

Lemma deduplicate_group (df_details merged : list detail_row) (p : string) :
  Forall2 (fun k m =>
             ClusterData.aggregate_duplicates
               (filter (fun r => protein_id r = Some k)
                       (ClusterData.df_annotated df_details)) = Return m)
          (group_keys protein_id (ClusterData.df_annotated df_details)) merged ->
  filter (fun r => protein_id r = Some p) (ClusterData.df_annotated df_details) ≠ [] ->
  exists m,
    filter (fun r => protein_id r = Some p) merged = [m] /\
    ClusterData.aggregate_duplicates
      (filter (fun r => protein_id r = Some p)
              (ClusterData.df_annotated df_details)) = Return m.
Proof.
  intros Hall Hne.
  set (D := ClusterData.df_annotated df_details) in *.
  assert (p ∈ group_keys protein_id D) as Hp.
  { apply elem_of_group_keys.
    destruct (filter (fun r => protein_id r = Some p) D) as [|r rs] eqn:Hf; [done|].
    assert (r ∈ filter (fun r => protein_id r = Some p) D) as [Hk Hr]%list_elem_of_filter
      by (rewrite Hf; by left).
    by exists r. }
  assert (Forall2 (fun k m => protein_id m = Some k) (group_keys protein_id D) merged)
    as Hkeys.
  { eapply Forall2_impl; [exact Hall|]. intros k m Hagg. simpl in Hagg.
    eapply aggregate_duplicates_key; [|exact Hagg].
    by intros r [? _]%list_elem_of_filter. }
  destruct (filter_by_unique_key protein_id _ _ p (NoDup_group_keys _ _) Hkeys Hp)
    as (i & m & Hi & Hm & Hf).
  exists m. split; [done|].
  by destruct (Forall2_lookup_lr _ _ _ _ _ _ Hall Hi Hm).
Qed.

Lemma mapM_unwrap (l : list (option string)) :
  (forall c, c ∈ l -> c ≠ None) ->
  mapM (fun c : option string =>
          match c with
          | Some s => Return s
          | None => Raise TypeError
          end) l = Return (str <$> l).
Proof.
  induction l as [|c l IH]; intros Hl; [done|].
  simpl. destruct c as [s|]; [|by destruct (Hl None); [left|]].
  simpl. rewrite IH by (intros c Hc; apply Hl; by right). done.
Qed.

(** On a group without a NaN [gene_type], script 14's merge gives the row
    that script 13's merge gives. *)
Lemma top_aggregate_agrees (r1 r2 : detail_row) (rest : list detail_row) (m : detail_row) :
  (forall r, r ∈ r1 :: r2 :: rest -> gene_type r ≠ None) ->
  ClusterData.aggregate_duplicates (r1 :: r2 :: rest) = Return m ->
  TopClusters.aggregate_duplicates (r1 :: r2 :: rest) = Return [m].
Proof.
  intros Hsome [= <-].
  set (group := r1 :: r2 :: rest) in *.
  unfold TopClusters.aggregate_duplicates. fold group.
  rewrite mapM_unwrap.
  2:{ intros c Hc. apply (proj1 (elem_of_unique _ c)) in Hc.
      apply list_elem_of_fmap in Hc as (r & -> & Hr). by apply Hsome. }
  cbn [mbind result_bind group]. do 3 f_equal.
  unfold ClusterData.merged_gene_type. fold group. do 2 f_equal.
  rewrite list_fmap_compose. f_equal. symmetry. apply unique_fmap_inj.
  intros x y Hx Hy Heq.
  apply list_elem_of_fmap in Hx as (rx & -> & Hrx).
  apply list_elem_of_fmap in Hy as (ry & -> & Hry).
  pose proof (Hsome rx Hrx). pose proof (Hsome ry Hry).
  destruct (gene_type rx), (gene_type ry); simpl in *; congruence.
Qed.

Lemma df_other_of_annotated (df_details : list detail_row) :
  ClusterData.df_other (ClusterData.df_annotated df_details) = [].
Proof.
  unfold ClusterData.df_other, ClusterData.df_annotated.
  rewrite list_filter_filter.
  induction df_details as [|r l IH]; [done|].
  rewrite filter_cons, decide_False by tauto. apply IH.
Qed.

(** Script 13's merger returns the merged annotated rows followed by
    the rows whose [gene_type] is Other, those unchanged and taking no
    part in the merge.  The merged rows are one row for each distinct
    [protein_id] of the annotated rows.  For every protein with two or
    more annotated rows that one row is the merged row: its [gene_type] is the
    "/"-join of the sorted distinct [gene_type] values of the group, its
    [gene_name] the " / "-join of the distinct non-null names in the
    order in which they are first seen, and its [contig_id], [start],
    [end] and [strand] are those of the first row of the group; script
    14's merge gives the same row when no [gene_type] of the group is
    NaN.  A protein with one annotated row keeps that row.  An ARG row
    named ceoB and an HMRG row named acrF of one protein merge to
    [gene_type] ARG/HMRG and [gene_name] ceoB / acrF in both scripts. *)
Theorem merger_collapses_rows_of_one_protein (df_details : list detail_row) :
  exists merged,
    ClusterData.deduplicate df_details
      = Return (merged ++ ClusterData.df_other df_details) /\
    ClusterData.deduplicate (ClusterData.df_annotated df_details)
      = Return (merged ++ []) /\
    Forall2 (fun p m => protein_id m = Some p)
            (group_keys protein_id (ClusterData.df_annotated df_details)) merged /\
    (forall p first second rest,
       filter (fun r => protein_id r = Some p) (ClusterData.df_annotated df_details)
         = first :: second :: rest ->
       exists m tys names,
         filter (fun r => protein_id r = Some p) merged = [m] /\
         gene_type m = Some (join "/" tys) /\
         StronglySorted (fun x y => String.leb x y = true) tys /\
         NoDup tys /\
         (forall t, t ∈ tys <->
            exists r, r ∈ first :: second :: rest /\ str (gene_type r) = t) /\
         gene_name m = Some (join " / " names) /\
         NoDup names /\
         (forall x, x ∈ names <->
            exists r, r ∈ first :: second :: rest /\ gene_name r = Some x) /\
         (forall g1 g2, first :: second :: rest = g1 ++ g2 ->
            unique (omap gene_name g1) `prefix_of` names) /\
         contig_id m = contig_id first /\ start m = start first /\
         end_ m = end_ first /\ strand m = strand first /\
         ((forall r, r ∈ first :: second :: rest -> gene_type r ≠ None) ->
          TopClusters.aggregate_duplicates (first :: second :: rest) = Return [m])) /\
    (forall p r,
       filter (fun r => protein_id r = Some p) (ClusterData.df_annotated df_details)
         = [r] ->
       filter (fun r => protein_id r = Some p) merged = [r]) /\
    (let row := fun ty name =>
       mk_detail (Some "k141_7") (Some "k141_7_2") 120 980 (Some "+") (Some ty)
                 name (Some "91.2") (Some "1e-50") (Some "310") in
     let other := mk_detail (Some "k141_7") (Some "k141_7_1") 1 100 (Some "-")
                            (Some "Other") None None None None in
     let m := mk_detail (Some "k141_7") (Some "k141_7_2") 120 980 (Some "+")
                        (Some "ARG/HMRG") (Some "ceoB / acrF")
                        (Some "91.2") (Some "1e-50") (Some "310") in
     ClusterData.deduplicate [other; row "ARG" (Some "ceoB"); row "HMRG" (Some "acrF")]
       = Return [m; other] /\
     TopClusters.deduplicate [row "ARG" (Some "ceoB"); row "HMRG" (Some "acrF")]
       = Return [m]).
Proof.
  destruct (deduplicate_merged df_details) as (merged & Hm & Hall).
  exists merged. split_and!.
  - unfold ClusterData.deduplicate. by rewrite Hm.
  - unfold ClusterData.deduplicate.
    assert (ClusterData.df_annotated (ClusterData.df_annotated df_details)
            = ClusterData.df_annotated df_details) as ->.
    { unfold ClusterData.df_annotated. rewrite list_filter_filter.
      apply list_filter_iff. tauto. }
    rewrite Hm. cbn [mbind result_bind]. do 2 f_equal.
    apply df_other_of_annotated.
  - eapply Forall2_impl; [exact Hall|]. intros k m Hagg. simpl in Hagg.
    eapply aggregate_duplicates_key; [|exact Hagg].
    by intros r [? _]%list_elem_of_filter.
  - intros p first second rest Hgroup.
    destruct (deduplicate_group df_details merged p Hall) as (m & Hf & Hagg).
    { by rewrite Hgroup. }
    rewrite Hgroup in Hagg.
    destruct (aggregate_duplicates_many first second rest)
      as (m' & Hm' & Hty & Hname & Hc & _ & Hs & He & Hst).
    rewrite Hagg in Hm'. injection Hm' as <-.
    destruct (merged_gene_type_spec (first :: second :: rest))
      as (tys & Htys & Hsorted & Hnd & Helem).
    destruct (merged_gene_name_spec (first :: second :: rest))
      as (names & Hnames & Hnd' & Helem' & Hpre).
    exists m, tys, names. rewrite Hty, Hname, Htys, Hnames.
    split_and!; try done.
    intros Hsome. by apply top_aggregate_agrees.
  - intros p r Hgroup.
    destruct (deduplicate_group df_details merged p Hall) as (m & Hf & Hagg).
    { by rewrite Hgroup. }
    rewrite Hgroup in Hagg. by injection Hagg as <-.
  - split; reflexivity.
Qed.

(** Script 14 groups every row of the selected contigs, so two Other rows
    of one protein are merged there, where script 13 leaves them as they
    are. *)
Example top_clusters_groups_other_rows :
  let other := mk_detail (Some "k141_7") (Some "k141_7_1") 1 100 (Some "-")
                         (Some "Other") None None None None in
  TopClusters.deduplicate [other; other]
    = Return [mk_detail (Some "k141_7") (Some "k141_7_1") 1 100 (Some "-")
                        (Some "Other") (Some "") None None None] /\
  ClusterData.deduplicate [other; other] = Return [other; other].
Proof. split; reflexivity. Qed.

(** ** Splitting and stripping strings built by concatenation *)

Lemma lacks_app (c : ascii) (s t : string) :
  lacks c (s +:+ t) = lacks c s && lacks c t.
Proof.
  induction s as [|a s IH]; simpl; [done|].
  rewrite IH. by rewrite andb_assoc.
Qed.

Lemma split_lacks (sep : ascii) (s : string) :
  lacks sep s = true -> split sep s = [s].
Proof.
  induction s as [|a s IH]; simpl; [done|].
  intros [Ha Hs]%andb_true_iff. apply negb_true_iff in Ha.
  by rewrite Ha, (IH Hs).
Qed.

Lemma split_app_sep (sep : ascii) (s t : string) :
  lacks sep s = true -> split sep (s +:+ String sep t) = s :: split sep t.
Proof.
  induction s as [|a s IH]; simpl.
  - intros _. by rewrite Ascii.eqb_refl.
  - intros [Ha Hs]%andb_true_iff. apply negb_true_iff in Ha.
    by rewrite Ha, (IH Hs).
Qed.

Lemma split_0_lacks (sep : ascii) (s t : string) :
  getitem (split sep s) 0 = Return t -> lacks sep t = true.
Proof.
  revert t. induction s as [|a s IH]; simpl; intros t.
  - by intros [= <-].
  - destruct (Ascii.eqb a sep) eqn:Ha; [by intros [= <-]|].
    destruct (split_cons sep s) as (u & us & Hu). rewrite Hu in *.
    intros [= <-]. simpl. rewrite Ha. simpl. by apply IH.
Qed.

Lemma lstrip_app_keep (p : ascii -> bool) (s1 : string) (c : ascii) (s2 : string) :
  p c = false ->
  lstrip p (s1 +:+ String c s2) = lstrip p s1 +:+ String c s2.
Proof.
  intros Hc. induction s1 as [|a s1 IH]; simpl; [by rewrite Hc|].
  by destruct (p a).
Qed.

Lemma rstrip_cons_keep (p : ascii -> bool) (c : ascii) (s : string) :
  p c = false -> rstrip p (String c s) = String c (rstrip p s).
Proof. intros Hc. simpl. rewrite Hc. by destruct (rstrip p s). Qed.

Lemma rstrip_app (p : ascii -> bool) (s1 s2 : string) :
  rstrip p s2 ≠ "" -> rstrip p (s1 +:+ s2) = s1 +:+ rstrip p s2.
Proof.
  intros Hne. induction s1 as [|a s1 IH]; [done|].
  change (String a s1 +:+ s2) with (String a (s1 +:+ s2)).
  change (String a s1 +:+ rstrip p s2) with (String a (s1 +:+ rstrip p s2)).
  cbn [rstrip]. rewrite IH.
  destruct (s1 +:+ rstrip p s2) eqn:Happ; [|done].
  destruct s1; simpl in Happ; [by destruct Hne|discriminate].
Qed.

Lemma rstrip_all (p : ascii -> bool) (s : string) :
  MapBuilder.all_chars p s = true -> rstrip p s = "".
Proof.
  induction s as [|a s IH]; simpl; [done|].
  intros [Ha Hs]%andb_true_iff. by rewrite (IH Hs), Ha.
Qed.

Lemma append_nonempty_r (s : string) (c : ascii) (t : string) :
  s +:+ String c t ≠ "".
Proof. by destruct s. Qed.

Lemma string_neq_app (s : string) (c : ascii) (t : string) :
  s ≠ s +:+ String c t.
Proof.
  induction s as [|a s IH]; simpl; [done|]. intros [= H]. by apply IH.
Qed.

(** ** Script 10.5: the header parser never raises *)

Lemma builder_scan_codes_returns (parts codes : list string) :
  exists r, MapBuilder.scan_codes parts codes = Return r.
Proof.
  induction codes as [|code rest IH]; simpl; [by eauto|].
  destruct (contains code parts) eqn:Hin; [|done].
  destruct (contains_index _ _ Hin) as (idx & -> & _).
  destruct (Nat.ltb_spec (idx + 1) (length parts)) as [Hlt|]; [|done].
  destruct (getitem_lt _ _ Hlt) as (tok & -> & _); simpl. by eauto.
Qed.

Lemma used_group1_script_patterns (h : string) :
  used_group1 MapBuilder.bracket_pattern (Some MapBuilder.gn_pattern) h
  = Return (match MapBuilder.bracket_search h with
            | Some g => Some g
            | None => MapBuilder.gn_search h
            end).
Proof.
  unfold used_group1, MapBuilder.bracket_pattern, MapBuilder.gn_pattern.
  destruct (MapBuilder.bracket_search h); simpl; [done|].
  by destruct (MapBuilder.gn_search h).
Qed.

(** [process_header] evaluates one [group(1)] and goes on with a part
    that raises nothing. *)
Lemma process_header_shape (header : string) (bp : MapBuilder.pattern)
    (gp : option MapBuilder.pattern) :
  exists k,
    MapBuilder.process_header header bp gp
      = used_group1 bp gp (strip_char ">" (strip header)) ≫= k /\
    forall gene_name, exists r, k gene_name = Return r.
Proof.
  eexists. split; [reflexivity|]. intros gene_name. cbv beta zeta.
  set (h := strip_char ">" (strip header)).
  destruct (builder_scan_codes_returns (split "|" h) db_codes) as [accession ->].
  cbn [mbind result_bind].
  assert (exists a g,
    (if negb (truthy accession) && (3 <? length (split "|" h))
     then acc ← getitem (split "|" h) 3;
          (if negb (truthy gene_name)
           then g ← getitem (split "|" h) 1; Return (Some acc, Some g)
           else Return (Some acc, gene_name))
     else Return (accession, gene_name)) = Return (a, g)) as (a & g & ->).
  { destruct (negb (truthy accession)); simpl; [|by eauto].
    destruct (Nat.ltb_spec 3 (length (split "|" h))) as [Hlt|]; [|by eauto].
    destruct (getitem_lt _ _ Hlt) as (acc & -> & _); simpl.
    destruct (negb (truthy gene_name)); [|by eauto].
    destruct (getitem_lt (split "|" h) 1) as (g1 & -> & _); [lia|]. simpl. by eauto. }
  cbn [mbind result_bind].
  destruct (negb (truthy g) && truthy a); [|by eauto].
  destruct (getitem_split_0 "." (default "" a)) as [g0 ->]. simpl. by eauto.
Qed.

Lemma process_header_returns (header : string) :
  exists r,
    MapBuilder.process_header header MapBuilder.bracket_pattern
      (Some MapBuilder.gn_pattern) = Return r.
Proof.
  destruct (process_header_shape header MapBuilder.bracket_pattern
              (Some MapBuilder.gn_pattern)) as (k & -> & Hk).
  rewrite used_group1_script_patterns. cbn [mbind result_bind]. apply Hk.
Qed.

(** With the two patterns of [main], [process_header] is what follows
    its gene-name step, run on the group 1 of the leftmost bracket match
    or else of the leftmost [GN=] match. *)
Lemma process_header_script_patterns (header : string) :
  MapBuilder.process_header header MapBuilder.bracket_pattern
    (Some MapBuilder.gn_pattern)
  = let header := strip_char ">" (strip header) in
    let gene_name := match MapBuilder.bracket_search header with
                     | Some g => Some g
                     | None => MapBuilder.gn_search header
                     end in
    let parts := split "|" header in
    accession ← MapBuilder.scan_codes parts db_codes;
    '(accession, gene_name) ←
      (if negb (truthy accession) && (3 <? length parts) then
         acc ← getitem parts 3;
         if negb (truthy gene_name) then
           g ← getitem parts 1;
           Return (Some acc, Some g)
         else Return (Some acc, gene_name)
       else Return (accession, gene_name));
    if negb (truthy gene_name) && truthy accession then
      g ← getitem (split "." (default "" accession)) 0;
      Return (accession, Some g)
    else Return (accession, gene_name).
Proof.
  unfold MapBuilder.process_header.
  change (match MapBuilder.bracket_pattern ?h with
          | Some group1 => group1
          | None => _
          end)
    with (used_group1 MapBuilder.bracket_pattern (Some MapBuilder.gn_pattern) h).
  by rewrite used_group1_script_patterns.
Qed.

(** ** Headers of the form [>gi|num|ref|acc.ver|rest] *)

Section ncbi_form.
Variables num acc ver : string.
Hypothesis num_field : lacks "|" num = true.
Hypothesis num_not_ref : num ≠ "ref".
Hypothesis acc_nonempty : acc ≠ "".
Hypothesis acc_field : lacks "|" acc = true.
Hypothesis acc_plain : lacks "." acc = true.
Hypothesis ver_field : lacks "|" ver = true.

Lemma tok_field : lacks "|" (versioned acc ver) = true.
Proof.
  unfold versioned. rewrite lacks_app, acc_field. simpl. exact ver_field.
Qed.

Lemma tok_truthy : truthy (Some (versioned acc ver)) = true.
Proof. unfold versioned. destruct acc; [done|reflexivity]. Qed.

Lemma tok_version_stripped : getitem (split "." (versioned acc ver)) 0 = Return acc.
Proof.
  unfold versioned. change (acc +:+ "." +:+ ver) with (acc +:+ String "." ver).
  by rewrite split_app_sep.
Qed.

Lemma rstrip_ncbi_subject (p : ascii -> bool) (rest : string) :
  p "|"%char = false ->
  rstrip p (ncbi_subject num acc ver rest)
    = ncbi_subject num acc ver (rstrip p rest).
Proof.
  intros Hp. unfold ncbi_subject.
  assert (rstrip p ("|" +:+ rest) = "|" +:+ rstrip p rest) as H0
    by (apply rstrip_cons_keep, Hp).
  assert (rstrip p ((versioned acc ver) +:+ "|" +:+ rest) = (versioned acc ver) +:+ "|" +:+ rstrip p rest) as H1.
  { rewrite rstrip_app; rewrite H0; [done|discriminate]. }
  assert (rstrip p ("|ref|" +:+ (versioned acc ver) +:+ "|" +:+ rest)
          = "|ref|" +:+ (versioned acc ver) +:+ "|" +:+ rstrip p rest) as H2.
  { rewrite rstrip_app; rewrite H1; [done|]. apply append_nonempty_r. }
  assert (rstrip p (num +:+ "|ref|" +:+ (versioned acc ver) +:+ "|" +:+ rest)
          = num +:+ "|ref|" +:+ (versioned acc ver) +:+ "|" +:+ rstrip p rest) as H3.
  { rewrite rstrip_app; rewrite H2; [done|discriminate]. }
  rewrite rstrip_app; rewrite H3; [done|].
  change (num +:+ "|ref|" +:+ (versioned acc ver) +:+ "|" +:+ rstrip p rest)
    with (num +:+ String "|" ("ref|" +:+ (versioned acc ver) +:+ "|" +:+ rstrip p rest)).
  apply append_nonempty_r.
Qed.

Lemma strip_ncbi_subject (rest : string) :
  strip (ncbi_subject num acc ver rest)
    = ncbi_subject num acc ver (rstrip isspace rest).
Proof.
  unfold strip, strip_by.
  change (lstrip isspace (ncbi_subject num acc ver rest))
    with (ncbi_subject num acc ver rest).
  by apply rstrip_ncbi_subject.
Qed.

Lemma strip_ncbi_header (rest : string) :
  strip_char ">" (strip (ncbi_header num acc ver rest))
    = ncbi_subject num acc ver
        (rstrip (Ascii.eqb ">") (rstrip isspace rest)).
Proof.
  unfold strip, strip_char, strip_by.
  change (lstrip isspace (ncbi_header num acc ver rest))
    with (String ">" (ncbi_subject num acc ver rest)).
  rewrite rstrip_cons_keep by done.
  rewrite rstrip_ncbi_subject by done.
  change (lstrip (Ascii.eqb ">")
            (String ">" (ncbi_subject num acc ver (rstrip isspace rest))))
    with (ncbi_subject num acc ver (rstrip isspace rest)).
  by apply rstrip_ncbi_subject.
Qed.

Lemma split_ncbi_subject (rest : string) :
  split "|" (ncbi_subject num acc ver rest)
    = "gi" :: num :: "ref" :: (versioned acc ver) :: split "|" rest.
Proof.
  change (ncbi_subject num acc ver rest)
    with ("gi" +:+ String "|" (num +:+ String "|"
            ("ref" +:+ String "|" ((versioned acc ver) +:+ String "|" rest)))).
  rewrite (split_app_sep "|" "gi") by done.
  rewrite (split_app_sep "|" num) by done.
  rewrite (split_app_sep "|" "ref") by done.
  by rewrite (split_app_sep "|" (versioned acc ver)) by apply tok_field.
Qed.

Lemma ref_not_num : String.eqb "ref" num = false.
Proof. apply String.eqb_neq. congruence. Qed.

Lemma contains_ref (more : list string) :
  contains "ref" ("gi" :: num :: "ref" :: (versioned acc ver) :: more) = true.
Proof.
  unfold contains. cbn [existsb]. rewrite ref_not_num. reflexivity.
Qed.

Lemma index_ref (more : list string) :
  index "ref" ("gi" :: num :: "ref" :: (versioned acc ver) :: more) = Return 2.
Proof.
  unfold index. cbn [find_index]. rewrite ref_not_num. reflexivity.
Qed.

Lemma coloc_scan_ncbi (more : list string) :
  Coloc.scan_codes ("gi" :: num :: "ref" :: (versioned acc ver) :: more) db_codes
    = Return (Some acc).
Proof.
  unfold db_codes. cbn [Coloc.scan_codes].
  rewrite contains_ref, index_ref. cbn [mbind result_bind].
  change (getitem ("gi" :: num :: "ref" :: (versioned acc ver) :: more) (2 + 1))
    with (Return (A:=string) (versioned acc ver)).
  replace (2 + 1 <? length ("gi" :: num :: "ref" :: (versioned acc ver) :: more)) with true
    by (symmetry; apply Nat.ltb_lt; simpl; lia).
  cbn [mbind result_bind]. by rewrite tok_version_stripped.
Qed.

Lemma abundance_scan_ncbi (more : list string) :
  Abundance.scan_codes ("gi" :: num :: "ref" :: (versioned acc ver) :: more) db_codes
    = Return (Some acc).
Proof.
  unfold db_codes. cbn [Abundance.scan_codes].
  rewrite contains_ref, index_ref. cbn [mbind result_bind].
  change (getitem ("gi" :: num :: "ref" :: (versioned acc ver) :: more) (2 + 1))
    with (Return (A:=string) (versioned acc ver)).
  cbn [mbind result_bind]. by rewrite tok_version_stripped.
Qed.

Lemma builder_scan_ncbi (more : list string) :
  MapBuilder.scan_codes ("gi" :: num :: "ref" :: (versioned acc ver) :: more) db_codes
    = Return (Some (versioned acc ver)).
Proof.
  unfold db_codes. cbn [MapBuilder.scan_codes].
  rewrite contains_ref, index_ref.
  replace (2 + 1 <? length ("gi" :: num :: "ref" :: (versioned acc ver) :: more)) with true
    by (symmetry; apply Nat.ltb_lt; simpl; lia).
  reflexivity.
Qed.

Lemma coloc_parse_ncbi (rest : string) :
  Coloc.parse_hmrg_accession (Some (ncbi_subject num acc ver rest)) = Return acc.
Proof.
  unfold Coloc.parse_hmrg_accession, Coloc.parse_hmrg_accession_body.
  cbn [str]. rewrite strip_ncbi_subject, split_ncbi_subject, coloc_scan_ncbi.
  reflexivity.
Qed.

Lemma abundance_parse_ncbi (rest : string) :
  Abundance.parse_hmrg_accession (Some (ncbi_subject num acc ver rest)) = Return acc.
Proof.
  unfold Abundance.parse_hmrg_accession, Abundance.parse_hmrg_accession_body.
  cbn [str]. rewrite strip_ncbi_subject, split_ncbi_subject, abundance_scan_ncbi.
  reflexivity.
Qed.

(** The header parser gives the accession as written and a gene name
    that is not empty. *)
Lemma process_header_ncbi (rest : string) :
  exists name,
    truthy (Some name) = true /\
    MapBuilder.process_header (ncbi_header num acc ver rest)
      MapBuilder.bracket_pattern (Some MapBuilder.gn_pattern)
    = Return (Some (versioned acc ver), Some name).
Proof.
  rewrite process_header_script_patterns. cbv zeta.
  rewrite strip_ncbi_header, split_ncbi_subject, builder_scan_ncbi.
  cbn [mbind result_bind]. rewrite tok_truthy. cbn [negb andb].
  cbn [mbind result_bind]. rewrite tok_truthy, andb_true_r.
  set (g := match MapBuilder.bracket_search _ with
            | Some g => Some g
            | None => MapBuilder.gn_search _
            end).
  destruct (truthy g) eqn:Hg; cbn [negb].
  - destruct g as [name|]; [|done]. by exists name.
  - cbn [from_option id]. rewrite tok_version_stripped. cbn [mbind result_bind].
    exists acc. split; [|done]. by destruct acc.
Qed.
End ncbi_form.

(** ** Script 10.5: the table that is written *)

Lemma dict_set_keys {V} (k : string) (v : V) (d : list (string * V)) (k' : string) :
  k' ∈ (dict_set k v d).*1 <-> k' = k \/ k' ∈ d.*1.
Proof.
  induction d as [|[k0 v0] d IH]; simpl.
  - rewrite list_elem_of_singleton. split; [by left|]. intros [?|?%elem_of_nil]; done.
  - destruct (String.eqb_spec k k0) as [->|Hne]; rewrite !fmap_cons; simpl.
    + rewrite !elem_of_cons. tauto.
    + rewrite !elem_of_cons, IH. tauto.
Qed.

Lemma register_returns (m : list (string * string)) (line : string) :
  exists m', MapBuilder.register m line = Return m' /\
             forall k, k ∈ m.*1 -> k ∈ m'.*1.
Proof.
  unfold MapBuilder.register. destruct (startswith ">" line); [|by eauto].
  destruct (process_header_returns line) as [[a g] ->].
  cbn [mbind result_bind]. destruct a as [acc|], g as [name|]; try by eauto.
  destruct (truthy (Some acc) && truthy (Some name)); [|by eauto].
  destruct (getitem_split_0 "." acc) as [acc0 ->]. cbn [mbind result_bind].
  eexists. split; [done|]. intros k Hk. rewrite !dict_set_keys. auto.
Qed.

Lemma build_annotation_map_returns (m : list (string * string)) (lines : list string) :
  exists m', MapBuilder.build_annotation_map m lines = Return m' /\
             forall k, k ∈ m.*1 -> k ∈ m'.*1.
Proof.
  revert m. induction lines as [|line lines IH]; intros m; simpl; [by eauto|].
  destruct (register_returns m line) as (m1 & -> & H1). cbn [mbind result_bind].
  destruct (IH m1) as (m2 & -> & H2). eauto.
Qed.

Lemma build_annotation_map_registers (m : list (string * string))
    (lines : list string) (header a g : string) :
  header ∈ lines -> startswith ">" header = true ->
  MapBuilder.process_header header MapBuilder.bracket_pattern
    (Some MapBuilder.gn_pattern) = Return (Some a, Some g) ->
  truthy (Some a) = true -> truthy (Some g) = true ->
  exists m', MapBuilder.build_annotation_map m lines = Return m' /\ a ∈ m'.*1.
Proof.
  intros Hin Hstart Hproc Ha Hg. revert m.
  induction lines as [|line lines IH]; intros m; [by apply elem_of_nil in Hin|].
  simpl. apply elem_of_cons in Hin as [<-|Hin].
  - unfold MapBuilder.register at 1. rewrite Hstart, Hproc. cbn [mbind result_bind].
    rewrite Ha, Hg. cbn [andb].
    destruct (getitem_split_0 "." a) as [acc0 ->]. cbn [mbind result_bind].
    destruct (build_annotation_map_returns
                (dict_set acc0 g (dict_set a g m)) lines) as (m' & -> & Hkeys).
    exists m'. split; [done|]. apply Hkeys. rewrite !dict_set_keys. auto.
  - destruct (register_returns m line) as (m1 & -> & _). cbn [mbind result_bind].
    apply (IH Hin).
Qed.

Lemma unique_map_go_returns (d items : list (string * string)) :
  exists t, MapBuilder.unique_map_go d items = Return t /\
    forall k, k ∈ t.*1 <->
      k ∈ d.*1 \/ exists a, a ∈ items.*1 /\ getitem (split "." a) 0 = Return k.
Proof.
  revert d. induction items as [|[a name] items IH]; intros d; simpl.
  - exists d. split; [done|]. intros k. split; [by left|].
    intros [?|(a & Ha%elem_of_nil & _)]; done.
  - destruct (getitem_split_0 "." a) as [a0 Ha0]. rewrite Ha0.
    cbn [mbind result_bind].
    destruct (IH (dict_set a0 name d)) as (t & -> & Ht).
    exists t. split; [done|]. intros k. rewrite Ht, dict_set_keys. split.
    + intros [[->|Hd]|(b & Hb & Hk)]; [right|by left|right].
      * exists a. split; [by left|done].
      * exists b. split; [by right|done].
    + intros [Hd|(b & [->|Hb]%elem_of_cons & Hk)].
      * by left; right.
      * left; left. rewrite Ha0 in Hk. by injection Hk.
      * right. by exists b.
Qed.

Lemma main_returns (lines : list string) :
  exists m table,
    MapBuilder.build_annotation_map [] lines = Return m /\
    MapBuilder.main (Some lines) = Return (Some table) /\
    forall k, k ∈ table.*1 <->
      exists a, a ∈ m.*1 /\ getitem (split "." a) 0 = Return k.
Proof.
  destruct (build_annotation_map_returns [] lines) as (m & Hm & _).
  destruct (unique_map_go_returns [] m) as (table & Ht & Hkeys).
  exists m, table. split; [done|]. split.
  - unfold MapBuilder.main, MapBuilder.unique_map. rewrite Hm.
    cbn [mbind result_bind]. by rewrite Ht.
  - intros k. rewrite Hkeys. split; [|by right].
    intros [?%elem_of_nil|?]; done.
Qed.

(** C6. For a header [>gi|num|ref|acc.ver|rest], where [num], [acc] and
    [ver] hold no bar, [num] is not the word ref and the accession proper
    [acc] is not empty and holds no point, the header parser gives the
    accession as written and a non-empty gene name; the table built from
    this header alone is the one row [(acc, name)]; in the table built
    from any stream of lines with this header, [acc] is a key and no key
    holds a point; and the accession parsers of scripts 11 and 12 give
    [acc] on the subject identifier [gi|num|ref|acc.ver|rest'].  So the
    builder and the translator agree on the version-stripped key. *)
Theorem builder_and_translator_agree_on_key (num acc ver rest rest' : string) :
  lacks "|" num = true -> num ≠ "ref" -> acc ≠ "" ->
  lacks "|" acc = true -> lacks "." acc = true -> lacks "|" ver = true ->
  (exists name,
     name ≠ "" /\
     MapBuilder.process_header (ncbi_header num acc ver rest)
       MapBuilder.bracket_pattern (Some MapBuilder.gn_pattern)
       = Return (Some (acc +:+ "." +:+ ver), Some name) /\
     MapBuilder.main (Some [ncbi_header num acc ver rest])
       = Return (Some [(acc, name)])) /\
  (forall lines, ncbi_header num acc ver rest ∈ lines ->
     exists table,
       MapBuilder.main (Some lines) = Return (Some table) /\
       acc ∈ table.*1 /\
       forall k, k ∈ table.*1 -> lacks "." k = true) /\
  Coloc.parse_hmrg_accession (Some (ncbi_subject num acc ver rest')) = Return acc /\
  Abundance.parse_hmrg_accession (Some (ncbi_subject num acc ver rest')) = Return acc.
Proof.
  intros Hnum Hnref Hacc Hfield Hplain Hver.
  change (acc +:+ "." +:+ ver) with (versioned acc ver).
  destruct (process_header_ncbi num acc ver Hnum Hnref Hacc Hfield Hplain Hver rest)
    as (name & Hname & Hproc).
  pose proof (tok_version_stripped acc ver Hplain) as Hstrip.
  pose proof (tok_truthy acc ver Hacc Hfield Hplain) as Htok.
  split_and!.
  - exists name. split; [by destruct name|]. split; [done|].
    unfold MapBuilder.main. cbn [MapBuilder.build_annotation_map].
    unfold MapBuilder.register.
    change (startswith ">" (ncbi_header num acc ver rest)) with true.
    cbv iota. rewrite Hproc. cbn [mbind result_bind].
    rewrite Htok, Hname. cbn [andb]. rewrite Hstrip. cbn [mbind result_bind].
    unfold MapBuilder.unique_map. cbn [dict_set].
    replace (String.eqb acc (versioned acc ver)) with false
      by (symmetry; apply String.eqb_neq, string_neq_app).
    cbn [MapBuilder.unique_map_go]. rewrite Hstrip. cbn [mbind result_bind dict_set].
    assert (getitem (split "." acc) 0 = Return acc) as ->
      by (by rewrite split_lacks).
    cbn [mbind result_bind dict_set]. by rewrite String.eqb_refl.
  - intros lines Hin.
    destruct (main_returns lines) as (m & table & Hm & Hmain & Hkeys).
    exists table. split; [done|]. split.
    + apply Hkeys. exists (versioned acc ver). split; [|done].
      destruct (build_annotation_map_registers [] lines _ _ _ Hin eq_refl
                  Hproc Htok Hname) as (m' & Hm' & Ha).
      rewrite Hm in Hm'. by injection Hm' as <-.
    + intros k (a & _ & Hk)%Hkeys. by apply split_0_lacks in Hk.
  - by apply coloc_parse_ncbi.
  - by apply abundance_parse_ncbi.
Qed.

Lemma builder_and_translator_agree_on_key_witness :
  MapBuilder.main (Some [">gi|123|ref|WP_999.1| efflux pump [acrF/envD]
"])
    = Return (Some [("WP_999", "acrF/envD")]) /\
  Coloc.parse_hmrg_accession (Some "gi|123|ref|WP_999.1|") = Return "WP_999" /\
  Abundance.parse_hmrg_accession (Some "gi|123|ref|WP_999.1|") = Return "WP_999".
Proof.
  split; [reflexivity|].
  apply (builder_and_translator_agree_on_key "123" "WP_999" "1" "" "");
    (reflexivity || discriminate).
Defined.

(** ** Script 10.5: the trailing bracketed token *)

Lemma rstrip_bracketed (p : ascii -> bool) (pre X ws : string) :
  p "["%char = false -> p "]"%char = false ->
  MapBuilder.all_chars p ws = true ->
  rstrip p (pre +:+ String "[" (X +:+ String "]" ws))
    = pre +:+ String "[" (X +:+ String "]" "").
Proof.
  intros Hl Hr Hws.
  assert (rstrip p (String "]" ws) = String "]" "") as H0
    by (by rewrite rstrip_cons_keep, rstrip_all).
  assert (rstrip p (X +:+ String "]" ws) = X +:+ String "]" "") as H1
    by (rewrite rstrip_app; rewrite H0; done).
  assert (rstrip p (String "[" (X +:+ String "]" ws))
          = String "[" (X +:+ String "]" "")) as H2
    by (by rewrite rstrip_cons_keep, H1).
  rewrite rstrip_app; rewrite H2; done.
Qed.

Lemma strip_bracketed_header (pre X ws : string) :
  MapBuilder.all_chars isspace ws = true ->
  strip_char ">" (strip (bracketed_header pre X ws))
    = lstrip (Ascii.eqb ">") (lstrip isspace pre) +:+ String "[" (X +:+ String "]" "").
Proof.
  intros Hws. unfold strip, strip_char, strip_by, bracketed_header.
  change (pre +:+ "[" +:+ X +:+ "]" +:+ ws)
    with (pre +:+ String "[" (X +:+ String "]" ws)).
  rewrite lstrip_app_keep by done.
  rewrite rstrip_bracketed by done.
  rewrite lstrip_app_keep by done.
  by rewrite rstrip_bracketed.
Qed.

Lemma open_bracket_after_lstrip (p : ascii -> bool) (s : string) :
  p "["%char = false -> p "]"%char = false ->
  open_bracket false s = false -> open_bracket false (lstrip p s) = false.
Proof.
  intros Hl Hr. induction s as [|a s IH]; simpl; [done|].
  destruct (p a) eqn:Hpa; [|done].
  destruct (Ascii.eqb_spec a "[") as [->|_]; [congruence|].
  destruct (Ascii.eqb_spec a "]") as [->|_]; [congruence|]. exact IH.
Qed.

Lemma open_bracket_true_lacks (s : string) :
  lacks "]" s = true -> open_bracket true s = true.
Proof.
  induction s as [|a s IH]; simpl; [done|].
  intros [Ha Hs]%andb_true_iff. apply negb_true_iff in Ha. rewrite Ha.
  destruct (Ascii.eqb a "["); by apply IH.
Qed.

Lemma open_bracket_mono (s : string) :
  open_bracket true s = false -> open_bracket false s = false.
Proof.
  induction s as [|a s IH]; simpl; [done|].
  destruct (Ascii.eqb a "["); [done|]. destruct (Ascii.eqb a "]"); [done|]. exact IH.
Qed.

Lemma first_rbracket (s : string) :
  lacks "]" s = false ->
  exists u v, s = u +:+ String "]" v /\ lacks "]" u = true.
Proof.
  induction s as [|a s IH]; simpl; [done|].
  destruct (Ascii.eqb_spec a "]") as [->|Hne]; simpl.
  - intros _. by exists "", s.
  - intros (u & v & -> & Hu)%IH. exists (String a u), v. split; [done|].
    simpl. rewrite Hu. by apply Ascii.eqb_neq in Hne as ->.
Qed.

Lemma take_while_not_rbracket (u v : string) :
  lacks "]" u = true ->
  MapBuilder.take_while MapBuilder.not_rbracket (u +:+ String "]" v) = u /\
  MapBuilder.drop_while MapBuilder.not_rbracket (u +:+ String "]" v) = String "]" v.
Proof.
  induction u as [|a u IH]; simpl; [done|].
  intros [Ha Hu]%andb_true_iff. unfold MapBuilder.not_rbracket at 1 3.
  rewrite Ha. by destruct (IH Hu) as [-> ->].
Qed.

Lemma all_chars_app_lbracket (v w : string) :
  MapBuilder.all_chars isspace (v +:+ String "[" w) = false.
Proof.
  induction v as [|a v IH]; simpl; [done|]. rewrite IH. apply andb_false_r.
Qed.

Lemma bracket_match_here_other (c : ascii) (s : string) :
  c ≠ "["%char -> MapBuilder.bracket_match_here (String c s) = None.
Proof.
  intros Hc. destruct c as [[] [] [] [] [] [] [] []]; done.
Qed.

(** An opening bracket that a closing bracket follows before the token
    starts no match: the text after that closing bracket is not white
    space. *)
Lemma bracket_match_here_closed (s X : string) :
  open_bracket true s = false ->
  MapBuilder.bracket_match_here (String "[" (s +:+ String "[" X)) = None.
Proof.
  intros Hopen.
  destruct (lacks "]" s) eqn:Hs.
  { apply open_bracket_true_lacks in Hs. congruence. }
  apply first_rbracket in Hs as (u & v & -> & Hu).
  assert ((u +:+ String "]" v) +:+ String "[" X
          = u +:+ String "]" (v +:+ String "[" X)) as ->.
  { clear. induction u as [|a u IH]; [done|].
    change (String a (((u +:+ String "]" v)) +:+ String "[" X)
            = String a (u +:+ String "]" (v +:+ String "[" X))).
    by rewrite IH. }
  cbn [MapBuilder.bracket_match_here].
  destruct (take_while_not_rbracket u (v +:+ String "[" X) Hu) as [-> ->].
  destruct u as [|c tok]; [done|].
  by rewrite all_chars_app_lbracket.
Qed.

Lemma bracket_search_trailing (pre X : string) :
  X ≠ "" -> lacks "]" X = true -> open_bracket false pre = false ->
  MapBuilder.bracket_search (pre +:+ String "[" (X +:+ String "]" "")) = Some X.
Proof.
  intros HX HXr. induction pre as [|a pre IH]; intros Hopen.
  - change ("" +:+ String "[" (X +:+ String "]" ""))
      with (String "[" (X +:+ String "]" "")).
    cbn [MapBuilder.bracket_search MapBuilder.bracket_match_here].
    destruct (take_while_not_rbracket X "" HXr) as [-> ->].
    destruct X as [|c tok]; [done|]. reflexivity.
  - change (String a pre +:+ String "[" (X +:+ String "]" ""))
      with (String a (pre +:+ String "[" (X +:+ String "]" ""))).
    cbn [MapBuilder.bracket_search]. simpl in Hopen.
    destruct (Ascii.eqb_spec a "[") as [->|Hne].
    + rewrite bracket_match_here_closed by done.
      apply IH. by apply open_bracket_mono.
    + rewrite bracket_match_here_other by done. apply IH.
      by destruct (Ascii.eqb a "]").
Qed.

(** C8, as amended. For every header that ends with a bracketed token
    [[X]], optionally followed by white space, where [X] is not empty and
    holds no closing bracket and every opening bracket before the token
    is followed by a closing bracket before it, the header parser returns
    [X] verbatim as the gene name, whatever the text before the token
    holds, a [GN=] field included. *)
Theorem trailing_bracket_takes_priority (pre X ws : string) :
  X ≠ "" -> lacks "]" X = true -> open_bracket false pre = false ->
  MapBuilder.all_chars isspace ws = true ->
  exists accession,
    MapBuilder.process_header (bracketed_header pre X ws)
      MapBuilder.bracket_pattern (Some MapBuilder.gn_pattern)
    = Return (accession, Some X).
Proof.
  intros HX HXr Hopen Hws. rewrite process_header_script_patterns. cbv zeta.
  rewrite strip_bracketed_header by done.
  rewrite bracket_search_trailing;
    [|done|done|by do 2 (apply open_bracket_after_lstrip; [done|done|])].
  set (h := lstrip _ _ +:+ _).
  destruct (builder_scan_codes_returns (split "|" h) db_codes) as [accession ->].
  cbn [mbind result_bind].
  assert (truthy (Some X) = true) as HtX by (by destruct X).
  rewrite HtX. cbn [negb].
  destruct (negb (truthy accession) && (3 <? length (split "|" h))) eqn:Hbr.
  - apply andb_true_iff in Hbr as [_ Hlt%Nat.ltb_lt].
    destruct (getitem_lt _ _ Hlt) as (acc & -> & _).
    cbn [mbind result_bind negb andb]. rewrite HtX. cbn [negb andb]. by eauto.
  - cbn [mbind result_bind]. rewrite HtX. cbn [negb andb]. by eauto.
Qed.

Lemma trailing_bracket_takes_priority_witness :
  MapBuilder.process_header
    (bracketed_header ">BAC0001|abeM|tr|Q5FAM9|Q5FAM9_ACIBA pump GN=abeM "
                      "acrF/envD" "
")
    MapBuilder.bracket_pattern (Some MapBuilder.gn_pattern)
  = Return (Some "Q5FAM9", Some "acrF/envD").
Proof.
  destruct (trailing_bracket_takes_priority
              ">BAC0001|abeM|tr|Q5FAM9|Q5FAM9_ACIBA pump GN=abeM "
              "acrF/envD" "
") as [accession Hacc]; [discriminate|reflexivity|reflexivity|reflexivity|].
  rewrite Hacc. vm_compute in Hacc. by injection Hacc as <-.
Defined.

(** C8, as stated, fails: this header ends with the bracketed token
    [[K-12]], and the gene name returned is the text from the earlier
    opening bracket on. *)
Lemma trailing_bracket_counterexample :
  "BAC0002|czcA|tr|Q1LKV8|efflux pump [strain [K-12]"
    = bracketed_header "BAC0002|czcA|tr|Q1LKV8|efflux pump [strain " "K-12" "" /\
  MapBuilder.process_header "BAC0002|czcA|tr|Q1LKV8|efflux pump [strain [K-12]"
    MapBuilder.bracket_pattern (Some MapBuilder.gn_pattern)
    = Return (Some "Q1LKV8", Some "strain [K-12") /\
  "strain [K-12" ≠ "K-12".
Proof. split; [reflexivity|]. split; [reflexivity|discriminate]. Qed.

(** ** Further properties of the loader, the parsers and the header parser *)

(** The best-hit loader keeps rows of its input, one per query, and every
    query keeps a row; the row kept has the greatest [bit_score] field of
    the query in the order of strings, a NaN field counting as least. *)
Theorem best_hits_keeps_text_greatest (rows : list hit) :
  NoDup (h_protein_id <$> Coloc.best_hits rows) /\
  (forall kept, kept ∈ Coloc.best_hits rows -> kept ∈ rows) /\
  (forall r, r ∈ rows ->
     exists kept, kept ∈ Coloc.best_hits rows /\ h_protein_id kept = h_protein_id r) /\
  (forall kept r, kept ∈ Coloc.best_hits rows -> r ∈ rows ->
     h_protein_id r = h_protein_id kept ->
     desc_by String.leb h_bitscore kept r).
Proof.
  split_and!.
  - apply best_hits_one_per_query.
  - apply best_hits_from_input.
  - apply best_hits_covers.
  - apply best_hits_text_greatest.
Qed.

(** Whenever the copy of [parse_hmrg_accession] in script 12 returns from
    its [try] block, the copy in script 11 returns the same accession: the
    two differ only where script 12 reads past the last field. *)
Theorem parse_copies_agree_unless_code_is_last (sseqid : cell) (r : string) :
  Abundance.parse_hmrg_accession_body sseqid = Return r ->
  Coloc.parse_hmrg_accession sseqid = Return r /\
  Abundance.parse_hmrg_accession sseqid = Return r.
Proof.
  intros Hbody. split; [by apply parse_copies_agree_on_return|].
  unfold Abundance.parse_hmrg_accession. by rewrite Hbody.
Qed.

Lemma parse_copies_agree_unless_code_is_last_witness :
  Coloc.parse_hmrg_accession (Some "BAC0001|abeM|tr|Q5FAM9|Q5FAM9_ACIBA")
    = Return "Q5FAM9" /\
  Abundance.parse_hmrg_accession (Some "BAC0001|abeM|tr|Q5FAM9|Q5FAM9_ACIBA")
    = Return "Q5FAM9".
Proof.
  apply (parse_copies_agree_unless_code_is_last
           (Some "BAC0001|abeM|tr|Q5FAM9|Q5FAM9_ACIBA") "Q5FAM9").
  reflexivity.
Defined.


(** The table the map builder writes is keyed by version-stripped
    accessions only: on every stream of lines it returns a table, and no
    key of the table holds a point. *)
Theorem table_keys_are_version_stripped (lines : list string) :
  exists table,
    MapBuilder.main (Some lines) = Return (Some table) /\
    forall k, k ∈ table.*1 -> lacks "." k = true.
Proof.
  destruct (main_returns lines) as (m & table & _ & Hmain & Hkeys).
  exists table. split; [done|].
  intros k (a & _ & Hk)%Hkeys. by apply split_0_lacks in Hk.
Qed.

(** End to end: a sample with one CDS record, one ARG hit and one HMRG hit
    on it has one colocalized contig, a detailed report with the two rows
    of that protein, and a pair abundance report with the one pair at
    count 1. *)
Example end_to_end_one_contig :
  let card := [mk_hit (Some "k141_1_1") (Some "gb|AAC43969.1|ARO:3003010|ceoB")
                      (Some "88.1") (Some "1e-90") (Some "512")] in
  let bacmet := [mk_hit (Some "k141_1_1") (Some "BAC0003|acrF|sp|P24181|ACRF_ECOLI")
                        (Some "70.2") (Some "1e-80") (Some "498")] in
  let gff := [mk_gff (Some (Str "k141_1")) (Some "Prodigal_v2.6.3") (Some "CDS") 3 1100
                     (Some "95.2") (Some "+") (Some "0")
                     (Some "ID=1_1;partial=10;start_type=Edge")] in
  let hmrg_map : gmap string (option string) := {[ "P24181" := Some "acrF" ]} in
  let row := fun ty name pid ev bits =>
    mk_detail (Some "k141_1") (Some "k141_1_1") 3 1100 (Some "+") (Some ty)
              (Some name) (Some pid) (Some ev) (Some bits) in
  let details := [row "ARG" "ceoB" "88.1" "1e-90" "512";
                  row "HMRG" "acrF" "70.2" "1e-80" "498"] in
  (exists df, Coloc.annotations hmrg_map card bacmet = Return df /\
              Coloc.colocalized_contigs df = {["k141_1"]}) /\
  Coloc.analyze_sample "S1" hmrg_map (Some card) (Some bacmet) (Some gff)
    = Return [Print MsgProcessing;
              WriteFile "S1_colocalization_full_details_annotated.tsv" details;
              Print MsgSuccess] /\
  Abundance.process_pair_abundance "S1" (Some details)
    = Return [Print MsgProcessing;
              WriteFile "S1_pair_abundance.tsv" [Abundance.mk_pair "ceoB" "acrF" 1];
              Print MsgSuccess].
Proof.
  split; [|split].
  - eexists. split; [reflexivity|]. vm_compute. reflexivity.
  - vm_compute. reflexivity.
  - vm_compute. reflexivity.
Qed.

(** ** Script 11: the protein identifier of a coordinate record *)

Lemma last_split_lacks (sep : ascii) (s t : string) :
  last (split sep s) = Some t -> lacks sep t = true.
Proof.
  revert t. induction s as [|a s IH]; intros t; simpl.
  - by intros [= <-].
  - destruct (split_cons sep s) as (u & us & Hu). rewrite Hu in *.
    destruct (Ascii.eqb a sep) eqn:Ha.
    + change (last ("" :: u :: us)) with (last (u :: us)). apply IH.
    + destruct us as [|v vs].
      * intros [= <-]. simpl. rewrite Ha. simpl. by apply IH.
      * change (last (String a u :: v :: vs)) with (last (u :: v :: vs)). apply IH.
Qed.

Lemma getitem_last_split (sep : ascii) (s : string) :
  exists t, getitem_last (split sep s) = Return t /\ lacks sep t = true.
Proof.
  unfold getitem_last. destruct (last (split sep s)) as [t|] eqn:Hlast.
  - exists t. split; [done|]. by eapply last_split_lacks.
  - destruct (split_cons sep s) as (u & us & Hu). rewrite Hu in Hlast.
    by apply last_None in Hlast.
Qed.

Lemma rsplit1_head_lacks (sep : ascii) (t : string) :
  lacks sep t = true -> rsplit1_head sep t = None.
Proof.
  induction t as [|a t IH]; simpl; [done|].
  intros [Ha Ht]%andb_true_iff. apply negb_true_iff in Ha.
  by rewrite (IH Ht), Ha.
Qed.

Lemma rsplit1_app_sep (sep : ascii) (c t : string) :
  lacks sep t = true -> rsplit1 sep (c +:+ String sep t) = c.
Proof.
  intros Ht. unfold rsplit1.
  assert (rsplit1_head sep (c +:+ String sep t) = Some c) as ->; [|done].
  induction c as [|a c IH]; simpl.
  - by rewrite (rsplit1_head_lacks _ _ Ht), Ascii.eqb_refl.
  - by rewrite IH.
Qed.

Lemma parse_gff_attributes_suffix (attr_string : cell) :
  exists suffix,
    Coloc.parse_gff_attributes attr_string = Return suffix /\
    lacks "_" suffix = true.
Proof.
  unfold Coloc.parse_gff_attributes, try_except.
  destruct attr_string as [s|]; [|by exists ""].
  destruct (getitem (split_str "ID=" s) 1) as [a|e]; cbn [mbind result_bind];
    [|by exists ""].
  destruct (getitem_split_0 ";" a) as [b ->]. cbn [mbind result_bind].
  destruct (getitem_last_split "_" b) as (t & -> & Ht). by exists t.
Qed.

Lemma append_assoc (a b c : string) : (a +:+ b) +:+ c = a +:+ (b +:+ c).
Proof.
  induction a as [|x a IH]; [done|].
  change (String x ((a +:+ b) +:+ c) = String x (a +:+ (b +:+ c))).
  by rewrite IH.
Qed.

Lemma gff_protein_id_text (g : gff_row) (c : string) :
  g_contig_id g = Some (Str c) ->
  exists suffix,
    lacks "_" suffix = true /\
    Coloc.gff_protein_id g = Return (Some (c +:+ "_" +:+ suffix)) /\
    Coloc.contig_of (Some (c +:+ "_" +:+ suffix)) = Some c.
Proof.
  intros Hc.
  destruct (parse_gff_attributes_suffix (g_attributes g)) as (suffix & Hs & Hl).
  exists suffix. split; [done|]. split.
  - unfold Coloc.gff_protein_id. rewrite Hc, Hs.
    cbn [Coloc.add_str mbind result_bind fmap option_fmap option_map].
    by rewrite append_assoc.
  - unfold Coloc.contig_of. simpl. f_equal. by apply rsplit1_app_sep.
Qed.

Lemma gff_protein_id_nan (g : gff_row) :
  g_contig_id g = None -> Coloc.gff_protein_id g = Return None.
Proof.
  intros Hc.
  destruct (parse_gff_attributes_suffix (g_attributes g)) as (suffix & Hs & _).
  unfold Coloc.gff_protein_id. by rewrite Hc, Hs.
Qed.

Lemma gff_protein_id_num (g : gff_row) (x : Q) :
  g_contig_id g = Some (Num x) -> Coloc.gff_protein_id g = Raise TypeError.
Proof. intros Hc. unfold Coloc.gff_protein_id. by rewrite Hc. Qed.

Lemma mapM_type_error {A B} (f : A -> result B) (l : list A) :
  (forall x, x ∈ l -> (exists y, f x = Return y) \/ f x = Raise TypeError) ->
  (exists x, x ∈ l /\ f x = Raise TypeError) ->
  mapM f l = Raise TypeError.
Proof.
  induction l as [|x l IH]; intros Hall (z & Hz & Hfz); [by apply elem_of_nil in Hz|].
  simpl. destruct (Hall x) as [[y Hy]| ->]; [by left| |done].
  rewrite Hy. cbn [mbind result_bind]. rewrite IH; [done| |].
  - intros w Hw. apply Hall. by right.
  - apply elem_of_cons in Hz as [->|Hz]; [congruence|]. by exists z.
Qed.

Lemma forallb_false {A} (f : A -> bool) (l : list A) :
  forallb f l = false -> exists x, x ∈ l /\ f x = false.
Proof.
  induction l as [|x l IH]; simpl; [done|].
  destruct (f x) eqn:Hx; simpl.
  - intros (z & Hz & Hfz)%IH. exists z. split; [by right|done].
  - intros _. exists x. split; [by left|done].
Qed.

(** The [protein_id] column is built exactly when the contig column
    takes text. *)
Lemma protein_id_column_spec (gff : list gff_row) :
  if contigs_are_text gff then
    exists pids,
      Coloc.protein_id_column gff
        (List.filter (fun g => bool_decide (g_type g = Some "CDS")) gff)
        = Return pids /\
      Forall2 (fun g pid => Coloc.gff_protein_id g = Return pid)
        (List.filter (fun g => bool_decide (g_type g = Some "CDS")) gff) pids
  else
    Coloc.protein_id_column gff
      (List.filter (fun g => bool_decide (g_type g = Some "CDS")) gff)
      = Raise TypeError.
Proof.
  unfold contigs_are_text, Coloc.protein_id_column.
  set (cds := List.filter (fun g => bool_decide (g_type g = Some "CDS")) gff).
  destruct (Coloc.numeric_dtype (g_contig_id <$> gff)); [done|]. cbn [negb andb].
  destruct (forallb _ cds) eqn:Hall.
  - apply mapM_result_returns. intros g Hg.
    rewrite forallb_forall in Hall. apply list_elem_of_In, Hall in Hg.
    destruct (g_contig_id g) as [[c|x]|] eqn:Hc; [|done|].
    + destruct (gff_protein_id_text g c Hc) as (suffix & _ & -> & _). by eauto.
    + rewrite (gff_protein_id_nan g Hc). by eauto.
  - apply mapM_type_error.
    + intros g _. destruct (g_contig_id g) as [[c|x]|] eqn:Hc.
      * destruct (gff_protein_id_text g c Hc) as (suffix & _ & -> & _). by eauto.
      * right. by eapply gff_protein_id_num.
      * rewrite (gff_protein_id_nan g Hc). by eauto.
    + apply forallb_false in Hall as (g & Hg & Hnum). exists g. split; [done|].
      destruct (g_contig_id g) as [[c|x]|] eqn:Hc; [done| |done].
      by eapply gff_protein_id_num.
Qed.

(** The join key and the contig agree.  For a record of the coordinate
    frame whose contig is text, the [protein_id] is the contig, an
    underscore and a suffix that holds no underscore, so the contig that
    the annotation side derives from such a [protein_id] is the record's
    own; a NaN contig gives a NaN [protein_id]; a number cannot take the
    underscore.  The column of the CDS rows is built exactly when the
    contig column takes text: when it is of numeric dtype, as one that
    holds the number 7 alone is, line 104 raises a TypeError. *)
Theorem gff_protein_id_gives_back_contig :
  (forall g,
     match g_contig_id g with
     | Some (Str c) =>
         exists suffix,
           lacks "_" suffix = true /\
           Coloc.gff_protein_id g = Return (Some (c +:+ "_" +:+ suffix)) /\
           Coloc.contig_of (Some (c +:+ "_" +:+ suffix)) = Some c
     | Some (Num _) => Coloc.gff_protein_id g = Raise TypeError
     | None => Coloc.gff_protein_id g = Return None
     end) /\
  (forall gff,
     if contigs_are_text gff then
       exists pids,
         Coloc.protein_id_column gff
           (List.filter (fun g => bool_decide (g_type g = Some "CDS")) gff)
           = Return pids /\
         Forall2 (fun g pid => Coloc.gff_protein_id g = Return pid)
           (List.filter (fun g => bool_decide (g_type g = Some "CDS")) gff) pids
     else
       Coloc.protein_id_column gff
         (List.filter (fun g => bool_decide (g_type g = Some "CDS")) gff)
         = Raise TypeError) /\
  contigs_are_text
    [mk_gff (Some (Num 7)) (Some "Prodigal_v2.6.3") (Some "CDS") 3 1100
            (Some "95.2") (Some "+") (Some "0") (Some "ID=1_1;partial=10")]
  = false.
Proof.
  split_and!.
  - intros g. destruct (g_contig_id g) as [[c|x]|] eqn:Hc.
    + by apply gff_protein_id_text.
    + by eapply gff_protein_id_num.
    + by apply gff_protein_id_nan.
  - apply protein_id_column_spec.
  - reflexivity.
Qed.

(** ** Script 11: the gene names of ARG hits *)

(** [parse_card_gene_name] returns on every cell.  For a text it gives
    the last bar-separated field of the stripped subject, which holds no
    bar, and never falls back; the sentinel unknown_arg is what a NaN
    subject gives. *)
Theorem card_gene_name_is_last_field (sseqid : cell) :
  exists name,
    Coloc.parse_card_gene_name sseqid = Return name /\
    lacks "|" name = true /\
    (sseqid = None -> name = "unknown_arg") /\
    (forall s, sseqid = Some s -> last (split "|" (strip s)) = Some name).
Proof.
  unfold Coloc.parse_card_gene_name, try_except.
  destruct sseqid as [s|].
  - destruct (getitem_last_split "|" (strip s)) as (t & Ht & Hl).
    rewrite Ht. exists t. split_and!; [done|done|done|].
    intros s' [= <-]. unfold getitem_last in Ht.
    by destruct (last (split "|" (strip s))); [injection Ht as ->|].
  - exists "unknown_arg". by split_and!.
Qed.

(** ** Scripts 11 and 12: where the sentinels come from *)

Lemma version_stripped_getitem (a : string) :
  getitem (split "." a) 0 = Return (version_stripped a).
Proof.
  unfold version_stripped. by destruct (split_cons "." a) as (t & ts & ->).
Qed.

Lemma coloc_scan_codes_field (parts codes : list string) (acc : string) :
  Coloc.scan_codes parts codes = Return (Some acc) ->
  exists f, f ∈ parts /\ acc = version_stripped f.
Proof.
  induction codes as [|code rest IH]; simpl; [done|].
  destruct (contains code parts) eqn:Hin; [|done].
  destruct (contains_index _ _ Hin) as (idx & -> & _). cbn [mbind result_bind].
  destruct (Nat.ltb_spec (idx + 1) (length parts)) as [Hlt|]; [|done].
  destruct (getitem_lt _ _ Hlt) as (tok & -> & Htok). cbn [mbind result_bind].
  rewrite version_stripped_getitem. cbn [mbind result_bind]. intros [= <-].
  exists tok. split; [|done]. by eapply list_elem_of_lookup_2.
Qed.

(** Script 11's copy of [parse_hmrg_accession] never takes its [except]
    branch: what it returns is what the body of the [try] returns, and
    that is the sentinel unknown_accession, a field of the subject, or a
    field of the subject without its version.  It does not make up the
    sentinel parse_error. *)
Theorem coloc_parse_never_falls_back (sseqid : cell) :
  ~ raises (Coloc.parse_hmrg_accession_body sseqid) /\
  exists r,
    Coloc.parse_hmrg_accession_body sseqid = Return r /\
    Coloc.parse_hmrg_accession sseqid = Return r /\
    (r = "unknown_accession" \/
     exists f, f ∈ split "|" (strip (str sseqid)) /\
               (r = f \/ r = version_stripped f)).
Proof.
  destruct (coloc_body_returns sseqid) as [r Hr]. split.
  { intros [e He]. congruence. }
  exists r. split; [done|]. split.
  { unfold Coloc.parse_hmrg_accession. by rewrite Hr. }
  unfold Coloc.parse_hmrg_accession_body in Hr.
  set (parts := split "|" (strip (str sseqid))) in *.
  destruct (Coloc.scan_codes parts db_codes) as [[acc|]|e] eqn:Hscan;
    cbn [mbind result_bind] in Hr; [| |done].
  - injection Hr as <-. right.
    destruct (coloc_scan_codes_field _ _ _ Hscan) as (f & Hf & ->).
    exists f. auto.
  - destruct (3 <? length parts); [|injection Hr as <-; by left].
    right. exists r. split; [|by left].
    apply getitem_Return in Hr. by eapply list_elem_of_lookup_2.
Qed.

Lemma abundance_scan_codes_spec (parts codes : list string) :
  Abundance.scan_codes parts codes
  = match first_code parts codes with
    | None => Return None
    | Some code =>
        match find_index code parts with
        | Some idx =>
            match parts !! (idx + 1) with
            | Some tok => Return (Some (version_stripped tok))
            | None => Raise IndexError
            end
        | None => Raise ValueError
        end
    end.
Proof.
  induction codes as [|code rest IH]; simpl; [done|].
  destruct (contains code parts) eqn:Hin; [|done].
  unfold index. destruct (find_index code parts) as [idx|]; [|done].
  cbn [mbind result_bind]. unfold getitem.
  destruct (parts !! (idx + 1)) as [tok|]; cbn [mbind result_bind]; [|done].
  pose proof (version_stripped_getitem tok) as Hv. unfold getitem in Hv.
  by rewrite Hv.
Qed.

(** Script 12's copy of [parse_hmrg_accession] takes its [except] branch
    exactly when the first database code that is among the fields, in the
    order ref, gb, emb, sp, tr, has its first occurrence in the last
    field. *)
Theorem abundance_parse_falls_back_iff (sseqid : cell) :
  raises (Abundance.parse_hmrg_accession_body sseqid) <->
  exists code,
    first_code (split "|" (strip (str sseqid))) db_codes = Some code /\
    find_index code (split "|" (strip (str sseqid)))
      = Some (length (split "|" (strip (str sseqid))) - 1).
Proof.
  unfold Abundance.parse_hmrg_accession_body.
  set (parts := split "|" (strip (str sseqid))).
  rewrite abundance_scan_codes_spec.
  destruct (first_code parts db_codes) as [code|] eqn:Hfirst.
  - assert (contains code parts = true) as Hin.
    { clear -Hfirst. induction db_codes as [|c cs IH]; simpl in Hfirst; [done|].
      destruct (contains c parts) eqn:Hc; [by injection Hfirst as <-|by apply IH]. }
    destruct (contains_find_index _ _ Hin) as [idx Hidx]. rewrite Hidx.
    pose proof (find_index_lookup _ _ _ Hidx) as Hlt%lookup_lt_Some.
    destruct (parts !! (idx + 1)) as [tok|] eqn:Htok; cbn [mbind result_bind].
    + apply lookup_lt_Some in Htok. split.
      * intros [e He]. done.
      * intros (code' & [= <-] & Hlast). rewrite Hidx in Hlast.
        injection Hlast as ->. lia.
    + apply lookup_ge_None in Htok. split.
      * intros _. exists code. split; [done|]. rewrite Hidx. f_equal. lia.
      * intros _. by exists IndexError.
  - cbn [mbind result_bind]. split.
    + intros [e He]. destruct (Nat.ltb_spec 3 (length parts)) as [Hlt|]; [|done].
      destruct (getitem_lt _ _ Hlt) as (a & Ha & _). congruence.
    + by intros (code & ? & _).
Qed.

(** ** Script 15: the contig labels of the final table *)

Lemma cdict_get_set_eq (k : cell) (v : string) (d : list (cell * string)) :
  PlotExport.cdict_get k (PlotExport.cdict_set k v d) = Some v.
Proof.
  induction d as [|[k' v'] d IH]; simpl.
  - by rewrite decide_True.
  - destruct (decide (k = k')) as [<-|Hne]; simpl.
    + by rewrite decide_True.
    + by rewrite decide_False.
Qed.

Lemma cdict_get_set_ne (k k' : cell) (v : string) (d : list (cell * string)) :
  k <> k' ->
  PlotExport.cdict_get k' (PlotExport.cdict_set k v d) = PlotExport.cdict_get k' d.
Proof.
  intros Hne. induction d as [|[k0 v0] d IH]; simpl.
  - by rewrite decide_False.
  - destruct (decide (k = k0)) as [<-|Hne0]; simpl.
    + by rewrite !decide_False.
    + destruct (decide (k' = k0)); [done|apply IH].
Qed.

Lemma contig_map_go_other (c : cell) (cs : list cell) (d : list (cell * string))
    (i : nat) :
  c ∉ cs ->
  PlotExport.cdict_get c (PlotExport.contig_map_go d i cs) = PlotExport.cdict_get c d.
Proof.
  revert d i. induction cs as [|c0 cs IH]; intros d i Hc; simpl; [done|].
  apply not_elem_of_cons in Hc as [Hne Hc].
  rewrite IH by done. by apply cdict_get_set_ne.
Qed.

Lemma contig_map_go_lookup (cs : list cell) (d : list (cell * string))
    (i j : nat) (c : cell) :
  NoDup cs -> cs !! j = Some c ->
  PlotExport.cdict_get c (PlotExport.contig_map_go d i cs)
  = Some (PlotExport.contig_label (i + j)).
Proof.
  revert d i j. induction cs as [|c0 cs IH]; intros d i j Hnd Hj; [done|].
  apply NoDup_cons in Hnd as [Hc0 Hnd]. destruct j as [|j]; simpl in *.
  - injection Hj as ->. rewrite contig_map_go_other by done.
    by rewrite cdict_get_set_eq, Nat.add_0_r.
  - rewrite (IH _ (S i) j) by done. by rewrite Nat.add_succ_r.
Qed.

Lemma contig_label_inj (i j : nat) :
  PlotExport.contig_label i = PlotExport.contig_label j -> i = j.
Proof.
  unfold PlotExport.contig_label. simpl. intros [= H].
  simpl in H. apply pretty_nat_inj in H. lia.
Qed.

Lemma relabel_inj (cs : list cell) (r1 r2 : PlotExport.final_row) :
  NoDup cs ->
  PlotExport.f_source r1 ∈ cs -> PlotExport.f_source r2 ∈ cs ->
  PlotExport.relabel (PlotExport.contig_map cs) r1
    = PlotExport.relabel (PlotExport.contig_map cs) r2 ->
  r1 = r2.
Proof.
  intros Hnd [j1 H1]%list_elem_of_lookup [j2 H2]%list_elem_of_lookup.
  unfold PlotExport.relabel, PlotExport.contig_map.
  rewrite (contig_map_go_lookup _ _ 0 j1 _ Hnd H1).
  rewrite (contig_map_go_lookup _ _ 0 j2 _ Hnd H2).
  intros Heq. pose proof (f_equal PlotExport.f_source Heq) as Hlabel.
  cbn [PlotExport.f_source] in Hlabel.
  apply (inj Some), contig_label_inj in Hlabel.
  assert (j1 = j2) as -> by lia.
  destruct r1, r2; simpl in *. congruence.
Qed.

(** The labels of script 15 follow the first appearance of the contigs:
    the contig that is the [j]-th distinct value of the source column,
    counted from 0, is renamed Contig_(j+1).  Renaming merges no two rows
    of the input that differ, so the table that is written is the renamed
    table of the distinct input rows, and it holds no row twice. *)
Theorem plot_export_labels_by_first_appearance (df : list plot_row) :
  (forall j c,
     PlotExport.unique_contigs (PlotExport.df_formatted df) !! j = Some c ->
     PlotExport.cdict_get c
       (PlotExport.contig_map (PlotExport.unique_contigs (PlotExport.df_formatted df)))
     = Some (PlotExport.contig_label j)) /\
  (forall i j, PlotExport.contig_label i = PlotExport.contig_label j -> i = j) /\
  PlotExport.format_rows df
  = PlotExport.relabel
      (PlotExport.contig_map (PlotExport.unique_contigs (PlotExport.df_formatted df)))
    <$> unique (PlotExport.df_formatted df) /\
  NoDup (PlotExport.format_rows df) /\
  length (PlotExport.format_rows df) = length (unique (PlotExport.df_formatted df)).
Proof.
  set (rows := PlotExport.df_formatted df).
  set (cs := PlotExport.unique_contigs rows).
  assert (NoDup cs) as Hnd by apply NoDup_unique.
  assert (forall r, r ∈ rows -> PlotExport.f_source r ∈ cs) as Hcs.
  { intros r Hr. apply elem_of_unique, list_elem_of_fmap. by exists r. }
  assert (PlotExport.format_rows df
          = PlotExport.relabel (PlotExport.contig_map cs) <$> unique rows) as Heq.
  { unfold PlotExport.format_rows. fold rows. fold cs.
    apply unique_fmap_inj. intros r1 r2 H1 H2.
    apply (relabel_inj cs); auto. }
  split_and!.
  - intros j c Hj. by apply (contig_map_go_lookup cs [] 0 j c).
  - apply contig_label_inj.
  - done.
  - unfold PlotExport.format_rows. apply NoDup_unique.
  - by rewrite Heq, length_fmap.
Qed.

(** ** Scripts 13 and 14: the table that is written *)

Lemma contig_start_leb_total (c1 : cell) (s1 : Z) (c2 : cell) (s2 : Z) :
  contig_start_leb c1 s1 c2 s2 = true \/ contig_start_leb c2 s2 c1 s1 = true.
Proof.
  destruct c1 as [a|], c2 as [b|]; simpl; auto using Z_leb_total.
  destruct (String.eqb_spec a b) as [->|Hne].
  - rewrite String.eqb_refl. apply Z_leb_total.
  - destruct (String.eqb_spec b a); [congruence|]. apply string_leb_total.
Qed.

Lemma contig_start_leb_trans (c1 : cell) (s1 : Z) (c2 : cell) (s2 : Z)
    (c3 : cell) (s3 : Z) :
  contig_start_leb c1 s1 c2 s2 = true -> contig_start_leb c2 s2 c3 s3 = true ->
  contig_start_leb c1 s1 c3 s3 = true.
Proof.
  destruct c1 as [a|], c2 as [b|], c3 as [c|]; simpl; try done;
    [|apply Z_leb_trans].
  destruct (String.eqb_spec a b) as [->|Hab].
  - destruct (String.eqb_spec b c) as [->|Hbc]; [apply Z_leb_trans|done].
  - destruct (String.eqb_spec b c) as [->|Hbc].
    + by destruct (String.eqb_spec a c).
    + intros H1 H2. destruct (String.eqb_spec a c) as [->|Hac].
      * destruct Hab. by apply String.leb_antisym.
      * by eapply string_leb_trans.
Qed.








(** ** Script 14: the merge of the selected rows *)

Lemma mapM_result_raises {A B} (f : A -> result B) (l : list A) (x : A) :
  x ∈ l -> raises (f x) -> raises (mapM f l).
Proof.
  intros Hx [e He]. induction l as [|y l IH]; [by apply elem_of_nil in Hx|].
  simpl. apply elem_of_cons in Hx as [<-|Hx].
  - rewrite He. by exists e.
  - destruct (f y) as [b|e']; [|by exists e'].
    destruct (IH Hx) as [e' ->]. by exists e'.
Qed.

Lemma mapM_result_Forall2 {A B} (f : A -> result B) (l : list A) (ys : list B) :
  Forall2 (fun x y => f x = Return y) l ys -> mapM f l = Return ys.
Proof.
  induction 1 as [|x y l ys Hxy Hall IH]; [done|].
  simpl. rewrite Hxy. simpl. by rewrite IH.
Qed.

Lemma mapM_result_inv {A B} (f : A -> result B) (l : list A) (ys : list B) :
  mapM f l = Return ys -> Forall2 (fun x y => f x = Return y) l ys.
Proof.
  revert ys. induction l as [|x l IH]; intros ys; simpl.
  - intros [= <-]. constructor.
  - destruct (f x) as [y|e] eqn:Hx; [|done]. simpl.
    destruct (mapM f l) as [ys'|e]; [|done]. simpl.
    intros [= <-]. constructor; [done|by apply IH].
Qed.

Lemma top_aggregate_raises (group : list detail_row) (r : detail_row) :
  2 <= length group -> r ∈ group -> gene_type r = None ->
  raises (TopClusters.aggregate_duplicates group).
Proof.
  intros Hlen Hr Hnan.
  destruct group as [|r1 [|r2 rest]]; simpl in Hlen; [lia|lia|].
  set (group := r1 :: r2 :: rest) in *.
  unfold TopClusters.aggregate_duplicates. fold group.
  destruct (mapM_result_raises
              (fun c : option string =>
                 match c with Some s => Return s | None => Raise TypeError end)
              (unique (gene_type <$> group)) None) as [e He].
  - apply elem_of_unique, list_elem_of_fmap. by exists r.
  - by exists TypeError.
  - cbn [group]. rewrite He. by exists e.
Qed.

Lemma top_aggregate_returns (group : list detail_row) :
  group <> [] ->
  (2 <= length group -> forall r, r ∈ group -> gene_type r <> None) ->
  exists m, ClusterData.aggregate_duplicates group = Return m /\
            TopClusters.aggregate_duplicates group = Return [m].
Proof.
  intros Hne Hsome. destruct group as [|r1 [|r2 rest]]; [done| |].
  - by exists r1.
  - destruct (aggregate_duplicates_many r1 r2 rest) as (m & Hm & _).
    exists m. split; [done|]. apply top_aggregate_agrees; [|done].
    apply Hsome. simpl. lia.
Qed.

Lemma concat_singletons {A B} (P : A -> B -> Prop) (ks : list A)
    (frames : list (list B)) :
  Forall2 (fun k fr => exists m, P k m /\ fr = [m]) ks frames ->
  Forall2 P ks (concat frames).
Proof.
  induction 1 as [|k fr ks frames (m & Hm & ->) Hall IH]; simpl; [constructor|].
  by constructor.
Qed.

Lemma filter_group_elem (rows : list detail_row) (p : string) (r : detail_row) :
  r ∈ filter (fun x => protein_id x = Some p) rows <->
  r ∈ rows /\ protein_id r = Some p.
Proof. rewrite list_elem_of_filter. tauto. Qed.

Lemma top_deduplicate_returns (rows : list detail_row) :
  ~ nan_type_in_group rows ->
  exists final,
    TopClusters.deduplicate rows = Return final /\
    Forall2 (fun p m =>
               ClusterData.aggregate_duplicates
                 (filter (fun r => protein_id r = Some p) rows) = Return m)
            (group_keys protein_id rows) final.
Proof.
  intros Hnan.
  assert (forall p, p ∈ group_keys protein_id rows ->
            exists m,
              ClusterData.aggregate_duplicates
                (filter (fun r => protein_id r = Some p) rows) = Return m /\
              TopClusters.aggregate_duplicates
                (filter (fun r => protein_id r = Some p) rows) = Return [m])
    as Hgroup.
  { intros p Hp. apply top_aggregate_returns; [by apply group_nonempty|].
    intros Hlen r [Hr Hk]%filter_group_elem Hnone.
    apply Hnan. by exists p, r. }
  destruct (mapM_result_returns (fun g => TopClusters.aggregate_duplicates g.2)
              (groupby protein_id rows)) as (frames & Hframes & Hall).
  { intros g [Hk ->]%elem_of_groupby.
    destruct (Hgroup _ Hk) as (m & _ & Hm). by exists [m]. }
  exists (concat frames). split.
  { unfold TopClusters.deduplicate. by rewrite Hframes. }
  apply concat_singletons.
  unfold groupby in Hall. apply Forall2_fmap_l in Hall.
  apply Forall2_same_length_lookup. split; [by eapply Forall2_length|].
  intros i p fr Hp Hfr.
  pose proof (Forall2_lookup_lr _ _ _ _ _ _ Hall Hp Hfr) as Hagg. simpl in Hagg.
  destruct (Hgroup p) as (m & Hm13 & Hm14); [by eapply list_elem_of_lookup_2|].
  exists m. split; [done|]. congruence.
Qed.

Lemma top_deduplicate_raises (rows : list detail_row) :
  nan_type_in_group rows -> raises (TopClusters.deduplicate rows).
Proof.
  intros (p & r & Hlen & Hr & Hp & Hnan).
  destruct (mapM_result_raises (fun g => TopClusters.aggregate_duplicates g.2)
              (groupby protein_id rows)
              (p, filter (fun x => protein_id x = Some p) rows)) as [e He].
  - apply elem_of_groupby. split; [|done]. simpl.
    apply elem_of_group_keys. by exists r.
  - simpl. apply (top_aggregate_raises _ r); [done| |done].
    by apply filter_group_elem.
  - unfold TopClusters.deduplicate. rewrite He. by exists e.
Qed.

Lemma mapM_result_raises_inv {A B} (f : A -> result B) (l : list A) :
  raises (mapM f l) -> exists x, x ∈ l /\ raises (f x).
Proof.
  induction l as [|x l IH]; simpl; [by intros [e He]|].
  destruct (f x) as [y|e] eqn:Hx.
  - simpl. intros Hr. destruct IH as (z & Hz & Hfz).
    { destruct (mapM f l) as [ys|e]; [by destruct Hr|by exists e]. }
    exists z. split; [by right|done].
  - intros _. exists x. split; [by left|]. rewrite Hx. by exists e.
Qed.

Lemma top_aggregate_raises_inv (group : list detail_row) :
  group <> [] -> raises (TopClusters.aggregate_duplicates group) ->
  (2 <= length group) /\ exists r, r ∈ group /\ gene_type r = None.
Proof.
  intros Hne Hr. destruct group as [|r1 [|r2 rest]]; [done|by destruct Hr|].
  split; [simpl; lia|].
  set (group := r1 :: r2 :: rest) in *.
  unfold TopClusters.aggregate_duplicates in Hr. fold group in Hr. cbn [group] in Hr.
  fold group in Hr.
  destruct (mapM_result_raises_inv
              (fun c : option string =>
                 match c with Some s => Return s | None => Raise TypeError end)
              (unique (gene_type <$> group))) as (c & Hc & Hfc).
  { destruct (mapM _ (unique (gene_type <$> group))) as [tys|e];
      [by destruct Hr|by exists e]. }
  destruct c as [s|]; [by destruct Hfc|].
  apply (proj1 (elem_of_unique _ _)) in Hc.
  apply list_elem_of_fmap in Hc as (r & Hnone & Hin). by exists r.
Qed.

Lemma top_deduplicate_raises_inv (rows : list detail_row) :
  raises (TopClusters.deduplicate rows) -> nan_type_in_group rows.
Proof.
  intros Hr.
  destruct (mapM_result_raises_inv (fun g => TopClusters.aggregate_duplicates g.2)
              (groupby protein_id rows)) as ([p group] & Hg & Hfg).
  { unfold TopClusters.deduplicate in Hr.
    destruct (mapM _ (groupby protein_id rows)) as [frames|e];
      [by destruct Hr|by exists e]. }
  apply elem_of_groupby in Hg as [Hp Hgroup]. simpl in *. subst group.
  destruct (top_aggregate_raises_inv _ (group_nonempty _ _ _ Hp) Hfg)
    as (Hlen & r & [Hin Hk]%filter_group_elem & Hnone).
  by exists p, r.
Qed.

(** Script 14 merges every row of the selected contigs, the Other rows
    too.  When no protein with two or more rows has a row without a
    [gene_type], the merge returns, for the distinct [protein_id] values
    in ascending order, one row each: the row that script 13's merge
    gives for all the rows of that protein. *)
Theorem top_clusters_merges_every_protein (rows : list detail_row) :
  ~ nan_type_in_group rows ->
  exists final,
    TopClusters.deduplicate rows = Return final /\
    length final = length (group_keys protein_id rows) /\
    Forall2 (fun p m =>
               protein_id m = Some p /\
               ClusterData.aggregate_duplicates
                 (filter (fun r => protein_id r = Some p) rows) = Return m)
            (group_keys protein_id rows) final.
Proof.
  intros Hnan. destruct (top_deduplicate_returns rows Hnan) as (final & Hf & Hall).
  exists final. split; [done|]. split; [symmetry; by eapply Forall2_length|].
  eapply Forall2_impl; [exact Hall|]. intros p m Hagg. simpl in Hagg.
  split; [|done]. eapply aggregate_duplicates_key; [|exact Hagg].
  by intros r [? _]%list_elem_of_filter.
Qed.

Lemma not_nan_type_in_group_example :
  ~ nan_type_in_group
      [mk_detail (Some "k141_7") (Some "k141_7_1") 1 100 (Some "-")
                 (Some "Other") None None None None;
       mk_detail (Some "k141_7") (Some "k141_7_1") 1 100 (Some "-")
                 (Some "Other") None None None None].
Proof.
  intros (p & r & _ & Hr & _ & Hnan).
  apply elem_of_cons in Hr as [->|Hr]; [done|].
  apply elem_of_cons in Hr as [->|Hr]; [done|].
  by apply elem_of_nil in Hr.
Defined.

Lemma top_clusters_merges_every_protein_witness :
  let other := mk_detail (Some "k141_7") (Some "k141_7_1") 1 100 (Some "-")
                         (Some "Other") None None None None in
  ~ nan_type_in_group [other; other] /\
  exists final,
    TopClusters.deduplicate [other; other] = Return final /\ length final = 1.
Proof.
  intros other. split; [exact not_nan_type_in_group_example|].
  destruct (top_clusters_merges_every_protein [other; other]
              not_nan_type_in_group_example) as (final & Hf & Hl & _).
  exists final. split; [exact Hf|exact Hl].
Defined.

(** Script 14 ends in its error branch, and writes nothing, exactly when
    some protein of the selected contigs has two or more rows and one of
    them has no [gene_type]; otherwise it writes its table. *)
Theorem top_clusters_error_iff_nan_type (sample_name : string)
    (df_details : list detail_row) :
  TopClusters.top_contigs_df df_details <> [] ->
  (TopClusters.process_sample sample_name (Some df_details)
     = Return [Print MsgProcessing; Print MsgError]
   <-> nan_type_in_group (df_plot_data df_details)) /\
  (~ nan_type_in_group (df_plot_data df_details) ->
   exists final,
     TopClusters.deduplicate (df_plot_data df_details) = Return final /\
     TopClusters.process_sample sample_name (Some df_details)
       = Return [Print MsgProcessing;
                 WriteFile (sample_name +:+ "_top_10_contigs_plot_data.tsv")
                           (output_df final);
                 Print MsgSuccess]).
Proof.
  intros Htop.
  assert (forall final,
            TopClusters.deduplicate (df_plot_data df_details) = Return final ->
            TopClusters.process_sample sample_name (Some df_details)
            = Return [Print MsgProcessing;
                      WriteFile (sample_name +:+ "_top_10_contigs_plot_data.tsv")
                                (output_df final);
                      Print MsgSuccess]) as Hok.
  { intros final Hf.
    unfold TopClusters.process_sample, TopClusters.process_body.
    destruct df_details as [|r l]; [done|].
    destruct (TopClusters.top_contigs_df (r :: l)); [done|].
    unfold df_plot_data in Hf. cbv zeta. by rewrite Hf. }
  split; [split|].
  - intros Herr. apply top_deduplicate_raises_inv.
    destruct (TopClusters.deduplicate (df_plot_data df_details)) as [final|e] eqn:Hd.
    + rewrite (Hok final eq_refl) in Herr. discriminate.
    + by exists e.
  - intros [e He]%top_deduplicate_raises.
    unfold TopClusters.process_sample, TopClusters.process_body.
    destruct df_details as [|r l]; [done|].
    destruct (TopClusters.top_contigs_df (r :: l)); [done|].
    unfold df_plot_data in He. cbv zeta. by rewrite He.
  - intros Hnot. destruct (top_deduplicate_returns _ Hnot) as (final & Hf & _).
    exists final. split; [done|by apply Hok].
Qed.

Lemma top_clusters_error_iff_nan_type_witness :
  let row := fun p ty =>
    mk_detail (Some "k141_7") (Some p) 120 980 (Some "+") ty (Some "g")
              None None None in
  let df := [row "k141_7_1" (Some "ARG"); row "k141_7_2" (Some "HMRG");
             row "k141_7_2" None] in
  TopClusters.top_contigs_df df <> [] /\
  TopClusters.process_sample "S1" (Some df)
    = Return [Print MsgProcessing; Print MsgError].
Proof.
  intros row df. split; [done|].
  apply (top_clusters_error_iff_nan_type "S1" df); [done|].
  exists "k141_7_2", (row "k141_7_2" None).
  split; [vm_compute; lia|]. split; [|done].
  do 2 right. left.
Defined.






(** ** Script 13: merging twice *)

Lemma filter_all {A} (P : A -> Prop) `{forall x, Decision (P x)} (l : list A) :
  (forall x, x ∈ l -> P x) -> filter P l = l.
Proof.
  induction l as [|x l IH]; intros Hall; [done|].
  rewrite filter_cons, decide_True by (apply Hall; by left).
  f_equal. apply IH. intros y Hy. apply Hall. by right.
Qed.

Lemma filter_none {A} (P : A -> Prop) `{forall x, Decision (P x)} (l : list A) :
  (forall x, x ∈ l -> ~ P x) -> filter P l = [].
Proof.
  induction l as [|x l IH]; intros Hall; [done|].
  rewrite filter_cons, decide_False by (apply Hall; by left).
  apply IH. intros y Hy. apply Hall. by right.
Qed.

Lemma unique_NoDup `{EqDecision A} (l : list A) : NoDup l -> unique l = l.
Proof.
  induction 1 as [|x l Hx Hnd IH]; simpl; [done|].
  rewrite IH. f_equal. apply filter_all. intros y Hy ->. done.
Qed.

Lemma stable_sort_sorted_id {A} (leb : A -> A -> bool) (l : list A) :
  StronglySorted (fun a b => leb a b = true) l -> stable_sort leb l = l.
Proof.
  induction 1 as [|x l Hl IH Hx]; [done|].
  unfold stable_sort in *. simpl. rewrite IH.
  destruct l as [|y l']; [done|]. simpl.
  apply Forall_cons in Hx as [Hxy _]. by rewrite Hxy.
Qed.

Lemma omap_keyed_rows {B} (key : B -> cell) (ks : list string) (ms : list B) :
  Forall2 (fun k m => key m = Some k) ks ms -> omap key ms = ks.
Proof.
  induction 1 as [|k m ks ms Hkm Hall IH]; [done|].
  simpl. rewrite Hkm. simpl. f_equal. exact IH.
Qed.

Lemma join_slash_not_other (tys : list string) :
  "Other" ∉ tys -> tys <> [] -> join "/" tys <> "Other".
Proof.
  intros Hnot Hne. destruct tys as [|x [|y l]]; [done| |].
  - simpl. intros ->. apply Hnot. by left.
  - intros Heq. assert (lacks "/" (join "/" (x :: y :: l)) = true) as Hl
      by (by rewrite Heq).
    change (join "/" (x :: y :: l)) with (x +:+ "/" +:+ join "/" (y :: l)) in Hl.
    rewrite !lacks_app in Hl. simpl in Hl.
    by rewrite andb_false_r in Hl.
Qed.

Lemma aggregate_duplicates_not_other (group : list detail_row) (m : detail_row) :
  (forall r, r ∈ group -> gene_type r <> Some "Other") ->
  ClusterData.aggregate_duplicates group = Return m ->
  gene_type m <> Some "Other".
Proof.
  intros Hgroup. destruct group as [|r1 [|r2 rest]]; simpl; [done| |].
  - intros [= <-]. apply Hgroup. by left.
  - intros [= <-]. simpl. intros [= Heq]. revert Heq.
    destruct (merged_gene_type_spec (r1 :: r2 :: rest)) as (tys & -> & _ & _ & Htys).
    apply join_slash_not_other.
    + intros (r & Hr & Hstr)%Htys. apply (Hgroup r Hr).
      destruct (gene_type r); simpl in Hstr; [by subst|done].
    + intros ->. assert (str (gene_type r1) ∈ @nil string) as Hin
        by (apply Htys; exists r1; split; [by left|done]).
      by apply elem_of_nil in Hin.
Qed.

(** Script 13's merger changes nothing in a table that it has merged:
    run on its own result it returns that result. *)
Theorem merger_is_idempotent (df_details : list detail_row) :
  exists final,
    ClusterData.deduplicate df_details = Return final /\
    ClusterData.deduplicate final = Return final.
Proof.
  destruct (deduplicate_merged df_details) as (merged & Hm & Hall).
  set (D := ClusterData.df_annotated df_details) in *.
  set (others := ClusterData.df_other df_details).
  exists (merged ++ others). split.
  { unfold ClusterData.deduplicate. fold D. by rewrite Hm. }
  assert (Forall2 (fun k m => protein_id m = Some k) (group_keys protein_id D) merged)
    as Hkeys.
  { eapply Forall2_impl; [exact Hall|]. intros k m Hagg. simpl in Hagg.
    eapply aggregate_duplicates_key; [|exact Hagg].
    by intros r [? _]%list_elem_of_filter. }
  assert (forall m, m ∈ merged -> gene_type m <> Some "Other") as Hmerged.
  { intros m [i Hi]%list_elem_of_lookup.
    destruct (Forall2_lookup_r _ _ _ _ _ Hall Hi) as (p & Hp & Hagg).
    eapply aggregate_duplicates_not_other; [|exact Hagg].
    intros r [_ Hr]%list_elem_of_filter.
    by apply list_elem_of_filter in Hr as [Hr _]. }
  assert (forall r, r ∈ others -> gene_type r = Some "Other") as Hothers.
  { by intros r [Hr _]%list_elem_of_filter. }
  assert (ClusterData.df_annotated (merged ++ others) = merged) as Hann.
  { unfold ClusterData.df_annotated. rewrite filter_app.
    rewrite (filter_all _ merged) by done.
    rewrite (filter_none _ others); [by rewrite app_nil_r|].
    intros r Hr Hne. by apply Hne, Hothers. }
  assert (ClusterData.df_other (merged ++ others) = others) as Hoth.
  { unfold ClusterData.df_other. rewrite filter_app.
    rewrite (filter_none _ merged) by (intros m Hm'; by apply Hmerged).
    by rewrite (filter_all _ others). }
  assert (group_keys protein_id merged = group_keys protein_id D) as Hgk.
  { unfold group_keys at 1. rewrite (omap_keyed_rows _ _ _ Hkeys).
    rewrite unique_NoDup by apply NoDup_group_keys.
    apply stable_sort_sorted_id. apply stable_sort_sorted_strings. }
  unfold ClusterData.deduplicate. rewrite Hann, Hoth.
  assert (mapM (fun g => ClusterData.aggregate_duplicates g.2)
               (groupby protein_id merged) = Return merged) as ->; [|done].
  apply mapM_result_Forall2. unfold groupby. rewrite Hgk.
  apply Forall2_fmap_l.
  apply Forall2_same_length_lookup. split; [by eapply Forall2_length|].
  intros i p m Hp Hi. simpl.
  destruct (filter_by_unique_key protein_id _ _ p (NoDup_group_keys _ _) Hkeys)
    as (j & m' & Hj & Hm' & ->); [by eapply list_elem_of_lookup_2|].
  assert (i = j) as -> by (eapply NoDup_lookup; eauto using NoDup_group_keys).
  simpl. congruence.
Qed.

(** ** Script 11: the annotation table and the detailed report *)

Lemma annotate_spec (ty : string) (name_of : hit -> result string) (h : hit)
    (a : Coloc.annotation) :
  Coloc.annotate ty name_of h = Return a ->
  Coloc.a_protein_id a = h_protein_id h /\
  Coloc.a_sseqid a = h_sseqid h /\
  Coloc.a_gene_type a = ty /\
  Coloc.a_contig_id a = Coloc.contig_of (h_protein_id h) /\
  exists name, name_of h = Return name /\ Coloc.a_gene_name a = Some name.
Proof.
  unfold Coloc.annotate. destruct (name_of h) as [name|e]; [|done].
  cbn [mbind result_bind]. intros [= <-]. split_and!; try done. by exists name.
Qed.

Lemma annotations_inv (hmrg_map : gmap string cell) (card bacmet : list hit)
    (df : list Coloc.annotation) :
  Coloc.annotations hmrg_map card bacmet = Return df ->
  exists df_card df_bacmet,
    df = df_card ++ df_bacmet /\
    Forall2 (fun h a => Coloc.annotate "ARG" Coloc.card_name h = Return a)
            (Coloc.best_hits card) df_card /\
    Forall2 (fun h a =>
               Coloc.annotate "HMRG" (Coloc.bacmet_name hmrg_map) h = Return a)
            (Coloc.best_hits bacmet) df_bacmet.
Proof.
  unfold Coloc.annotations.
  destruct (mapM (Coloc.annotate "ARG" Coloc.card_name) (Coloc.best_hits card))
    as [dc|e] eqn:Hc; [|done].
  destruct (mapM (Coloc.annotate "HMRG" (Coloc.bacmet_name hmrg_map))
                 (Coloc.best_hits bacmet)) as [db|e] eqn:Hb; [|done].
  cbn [mbind result_bind]. intros [= <-].
  exists dc, db. split; [done|]. split; by apply mapM_result_inv.
Qed.

Lemma annotated_ids {ty : string} {name_of : hit -> result string}
    (hs : list hit) (ans : list Coloc.annotation) :
  Forall2 (fun h a => Coloc.annotate ty name_of h = Return a) hs ans ->
  Coloc.a_protein_id <$> ans = h_protein_id <$> hs /\
  filter (fun a => Coloc.a_gene_type a = ty) ans = ans /\
  forall ty', ty' <> ty -> filter (fun a => Coloc.a_gene_type a = ty') ans = [].
Proof.
  induction 1 as [|h a hs ans Ha Hall (IH1 & IH2 & IH3)]; [done|].
  apply annotate_spec in Ha as (Hp & _ & Ht & _). split_and!.
  - rewrite !fmap_cons. by rewrite Hp, IH1.
  - rewrite filter_cons, decide_True by done. by rewrite IH2.
  - intros ty' Hne. rewrite filter_cons, decide_False by congruence. by apply IH3.
Qed.

(** The annotation table of a sample is built on every pair of hit
    tables.  Each of its rows is an ARG or an HMRG row with a gene name,
    and its contig is its [protein_id] up to the last underscore.  No
    protein has two ARG rows or two HMRG rows, and every query of a hit
    table has its row of that type. *)
Theorem annotation_table_one_row_per_type (hmrg_map : gmap string cell)
    (card bacmet : list hit) :
  exists df,
    Coloc.annotations hmrg_map card bacmet = Return df /\
    (forall a, a ∈ df ->
       (Coloc.a_gene_type a = "ARG" \/ Coloc.a_gene_type a = "HMRG") /\
       is_Some (Coloc.a_gene_name a) /\
       Coloc.a_contig_id a = Coloc.contig_of (Coloc.a_protein_id a)) /\
    NoDup (Coloc.a_protein_id
             <$> filter (fun a => Coloc.a_gene_type a = "ARG") df) /\
    NoDup (Coloc.a_protein_id
             <$> filter (fun a => Coloc.a_gene_type a = "HMRG") df) /\
    (forall h, h ∈ card ->
       exists a, a ∈ df /\ Coloc.a_gene_type a = "ARG" /\
                 Coloc.a_protein_id a = h_protein_id h) /\
    (forall h, h ∈ bacmet ->
       exists a, a ∈ df /\ Coloc.a_gene_type a = "HMRG" /\
                 Coloc.a_protein_id a = h_protein_id h).
Proof.
  destruct (annotations_return hmrg_map card bacmet) as [df Hdf].
  exists df. split; [done|].
  destruct (annotations_inv _ _ _ _ Hdf) as (dc & db & -> & Hc & Hb).
  destruct (annotated_ids _ _ Hc) as (Hc1 & Hc2 & Hc3).
  destruct (annotated_ids _ _ Hb) as (Hb1 & Hb2 & Hb3).
  assert (forall ty name_of hs ans,
            Forall2 (fun h a => Coloc.annotate ty name_of h = Return a) hs ans ->
            forall a, a ∈ ans ->
              Coloc.a_gene_type a = ty /\ is_Some (Coloc.a_gene_name a) /\
              Coloc.a_contig_id a = Coloc.contig_of (Coloc.a_protein_id a)) as Hrow.
  { intros ty name_of hs ans Hall a [i Hi]%list_elem_of_lookup.
    destruct (Forall2_lookup_r _ _ _ _ _ Hall Hi) as (h & _ & Ha).
    apply annotate_spec in Ha as (Hp & _ & Ht & Hcg & name & _ & Hn).
    rewrite Hp, Hn. by eauto. }
  assert (forall ty name_of rows ans,
            Forall2 (fun h a => Coloc.annotate ty name_of h = Return a)
                    (Coloc.best_hits rows) ans ->
            forall h, h ∈ rows ->
              exists a, a ∈ ans /\ Coloc.a_gene_type a = ty /\
                        Coloc.a_protein_id a = h_protein_id h) as Hcov.
  { intros ty name_of rows ans Hall h Hh.
    destruct (best_hits_covers rows h Hh) as (h' & [i Hi]%list_elem_of_lookup & Hk).
    destruct (Forall2_lookup_l _ _ _ _ _ Hall Hi) as (a & Ha & Han).
    apply annotate_spec in Han as (Hp & _ & Ht & _).
    exists a. split; [by eapply list_elem_of_lookup_2|]. split; [done|congruence]. }
  split_and!.
  - intros a [Ha|Ha]%elem_of_app.
    + destruct (Hrow _ _ _ _ Hc a Ha) as (? & ? & ?). by auto.
    + destruct (Hrow _ _ _ _ Hb a Ha) as (? & ? & ?). by auto.
  - rewrite filter_app, Hc2, (Hb3 "ARG") by done.
    rewrite app_nil_r, Hc1. apply best_hits_one_per_query.
  - rewrite filter_app, Hb2, (Hc3 "HMRG") by done.
    simpl. rewrite Hb1. apply best_hits_one_per_query.
  - intros h Hh. destruct (Hcov _ _ _ _ Hc h Hh) as (a & Ha & ?).
    exists a. split; [|done]. apply elem_of_app. by left.
  - intros h Hh. destruct (Hcov _ _ _ _ Hb h Hh) as (a & Ha & ?).
    exists a. split; [|done]. apply elem_of_app. by right.
Qed.

Lemma merge_left_nonempty (df_annotations : list Coloc.annotation)
    (gp : gff_row * option string) :
  Coloc.merge_left df_annotations gp <> [].
Proof.
  unfold Coloc.merge_left.
  by destruct (filter _ df_annotations) as [|a l].
Qed.

Lemma merge_left_spec (df_annotations : list Coloc.annotation) (g : gff_row)
    (pid : option string) (r : detail_row) :
  r ∈ Coloc.merge_left df_annotations (g, pid) ->
  contig_id r = Coloc.contig_text (g_contig_id g) /\ protein_id r = pid /\
  start r = g_start g /\ end_ r = g_end g /\ strand r = g_strand g /\
  ((exists a, a ∈ df_annotations /\
              Coloc.a_protein_id a = pid /\
              gene_type r = Some (Coloc.a_gene_type a) /\
              gene_name r = Coloc.a_gene_name a) \/
   ((forall a, a ∈ df_annotations -> Coloc.a_protein_id a <> pid) /\
    gene_type r = Some "Other" /\ gene_name r = None)).
Proof.
  unfold Coloc.merge_left. cbn [fst snd].
  destruct (filter (fun a => Coloc.a_protein_id a = pid) df_annotations)
    as [|a matches] eqn:Hmatch.
  - intros ->%list_elem_of_singleton. simpl. split_and!; try done.
    right. split; [|done]. intros a Ha Heq.
    assert (a ∈ filter (fun a => Coloc.a_protein_id a = pid) df_annotations) as Hin
      by (by apply list_elem_of_filter).
    rewrite Hmatch in Hin. by apply elem_of_nil in Hin.
  - intros (a' & -> & Ha')%list_elem_of_fmap. simpl. split_and!; try done.
    left. rewrite <- Hmatch in Ha'.
    apply list_elem_of_filter in Ha' as [Hk Ha'].
    exists a'. by split_and!.
Qed.

Lemma elem_of_concat {A} (x : A) (ls : list (list A)) :
  x ∈ concat ls <-> exists l, l ∈ ls /\ x ∈ l.
Proof.
  induction ls as [|l ls IH]; simpl.
  - split; [by intros ?%elem_of_nil|by intros (l & ?%elem_of_nil & _)].
  - rewrite elem_of_app, IH. split.
    + intros [Hx|(l' & Hl' & Hx)]; [exists l; split; [by left|done]|].
      exists l'. split; [by right|done].
    + intros (l' & [->|Hl']%elem_of_cons & Hx); [by left|]. right. by exists l'.
Qed.

Lemma detail_leb_sorted (rows : list detail_row) :
  StronglySorted detail_le (stable_sort Coloc.detail_leb rows).
Proof.
  apply stable_sort_StronglySorted; unfold Coloc.detail_leb.
  - intros x y. apply contig_start_leb_total.
  - intros x y z. apply contig_start_leb_trans.
Qed.

(** The detailed report is built exactly when the contig column takes
    text. *)
Lemma report_spec (df_annotations : list Coloc.annotation)
    (colocalized : gset string) (gff : list gff_row) :
  if contigs_are_text gff then
    exists pids,
      Forall2 (fun g pid => Coloc.gff_protein_id g = Return pid)
        (List.filter (fun g => bool_decide (g_type g = Some "CDS")) gff) pids /\
      Coloc.report df_annotations colocalized gff
        = Return (stable_sort Coloc.detail_leb
                    (concat (Coloc.merge_left df_annotations
                               <$> List.filter
                                     (fun gp => Coloc.isin colocalized (g_contig_id gp.1))
                                     (zip (List.filter
                                             (fun g => bool_decide (g_type g = Some "CDS"))
                                             gff) pids))))
  else Coloc.report df_annotations colocalized gff = Raise TypeError.
Proof.
  pose proof (protein_id_column_spec gff) as H. unfold Coloc.report.
  destruct (contigs_are_text gff).
  - destruct H as (pids & -> & Hall). by exists pids.
  - by rewrite H.
Qed.

Lemma report_rows (df_annotations : list Coloc.annotation)
    (colocalized : gset string) (gff : list gff_row) (pids : list (option string))
    (r : detail_row) :
  Forall2 (fun g pid => Coloc.gff_protein_id g = Return pid)
    (List.filter (fun g => bool_decide (g_type g = Some "CDS")) gff) pids ->
  r ∈ stable_sort Coloc.detail_leb
        (concat (Coloc.merge_left df_annotations
                   <$> List.filter
                         (fun gp => Coloc.isin colocalized (g_contig_id gp.1))
                         (zip (List.filter
                                 (fun g => bool_decide (g_type g = Some "CDS"))
                                 gff) pids)))
  <-> exists g pid c,
        g ∈ gff /\ g_type g = Some "CDS" /\ g_contig_id g = Some (Str c) /\
        c ∈ colocalized /\ Coloc.gff_protein_id g = Return pid /\
        r ∈ Coloc.merge_left df_annotations (g, pid).
Proof.
  intros Hall.
  set (cds := List.filter (fun g => bool_decide (g_type g = Some "CDS")) gff) in *.
  assert (forall g, g ∈ cds <-> g ∈ gff /\ g_type g = Some "CDS") as Hcds.
  { intros g. unfold cds.
    by rewrite list_elem_of_In, filter_In, <- list_elem_of_In, bool_decide_eq_true. }
  rewrite (stable_sort_Permutation Coloc.detail_leb), elem_of_concat. split.
  - intros (l & ([g pid] & -> & Hgp)%list_elem_of_fmap & Hr).
    apply list_elem_of_In, filter_In in Hgp as [Hzip Hin].
    apply list_elem_of_In, list_elem_of_lookup in Hzip as [i Hi].
    apply lookup_zip_Some in Hi as [Hg Hp].
    pose proof (Forall2_lookup_lr _ _ _ _ _ _ Hall Hg Hp) as Hpid.
    apply list_elem_of_lookup_2, Hcds in Hg as [Hg Hty].
    cbn [fst] in Hin. unfold Coloc.isin in Hin.
    destruct (g_contig_id g) as [[c|x]|] eqn:Hc; [|done|done].
    apply bool_decide_eq_true in Hin.
    exists g, pid, c. by rewrite Hc.
  - intros (g & pid & c & Hg & Hty & Hc & Hcol & Hpid & Hr).
    exists (Coloc.merge_left df_annotations (g, pid)). split; [|done].
    apply list_elem_of_fmap. exists (g, pid). split; [done|].
    apply list_elem_of_In, filter_In. split.
    + assert (g ∈ cds) as [i Hi]%list_elem_of_lookup by (by apply Hcds).
      destruct (Forall2_lookup_l _ _ _ _ _ Hall Hi) as (pid' & Hp & Hpid').
      rewrite Hpid in Hpid'. injection Hpid' as <-.
      apply list_elem_of_In, list_elem_of_lookup. exists i.
      by apply lookup_zip_Some.
    + cbn [fst]. unfold Coloc.isin. rewrite Hc. by apply bool_decide_eq_true.
Qed.

(** The detailed report is built exactly when the contig column of the
    coordinate frame takes text; with a contig column of numeric dtype
    line 104 raises a TypeError and there is no report.  When it is
    built, it is ordered by contig and start.  Each of its rows is a CDS
    record of a colocalized contig with the coordinates of that record
    and a [protein_id] that leads back to the contig; it carries the
    type and name of an annotation of that protein, or the type Other
    and no name when the protein has no annotation.  Every CDS record of
    a colocalized contig has a row. *)
Theorem detailed_report_lists_cds_of_colocalized_contigs
    (df_annotations : list Coloc.annotation) (colocalized : gset string)
    (gff : list gff_row) :
  if contigs_are_text gff then
    exists rows,
      Coloc.report df_annotations colocalized gff = Return rows /\
      StronglySorted detail_le rows /\
      (forall r, r ∈ rows ->
         exists c g,
           g ∈ gff /\ g_type g = Some "CDS" /\ g_contig_id g = Some (Str c) /\
           c ∈ colocalized /\
           contig_id r = Some c /\ start r = g_start g /\ end_ r = g_end g /\
           strand r = g_strand g /\ Coloc.contig_of (protein_id r) = Some c /\
           ((exists a, a ∈ df_annotations /\
                       Coloc.a_protein_id a = protein_id r /\
                       gene_type r = Some (Coloc.a_gene_type a) /\
                       gene_name r = Coloc.a_gene_name a) \/
            ((forall a, a ∈ df_annotations ->
                Coloc.a_protein_id a <> protein_id r) /\
             gene_type r = Some "Other" /\ gene_name r = None))) /\
      (forall g c,
         g ∈ gff -> g_type g = Some "CDS" -> g_contig_id g = Some (Str c) ->
         c ∈ colocalized ->
         exists r, r ∈ rows /\ contig_id r = Some c /\ start r = g_start g /\
                   end_ r = g_end g /\ strand r = g_strand g)
  else Coloc.report df_annotations colocalized gff = Raise TypeError.
Proof.
  pose proof (report_spec df_annotations colocalized gff) as H.
  destruct (contigs_are_text gff); [|done].
  destruct H as (pids & Hall & Hrep).
  eexists. split; [exact Hrep|]. split; [apply detail_leb_sorted|]. split.
  - intros r (g & pid & c & Hg & Hty & Hc & Hcol & Hpid & Hr)%(report_rows _ _ _ _ _ Hall).
    destruct (merge_left_spec _ _ _ _ Hr) as (H1 & H2 & H3 & H4 & H5 & H6).
    destruct (gff_protein_id_text g c Hc) as (suffix & _ & Hpid' & Hcontig).
    rewrite Hpid in Hpid'. injection Hpid' as ->.
    exists c, g. rewrite H1, H2, Hc. by split_and!.
  - intros g c Hg Hty Hc Hcol.
    destruct (gff_protein_id_text g c Hc) as (suffix & _ & Hpid & _).
    pose proof (merge_left_nonempty df_annotations (g, Some (c +:+ "_" +:+ suffix)))
      as Hne.
    destruct (Coloc.merge_left df_annotations (g, Some (c +:+ "_" +:+ suffix)))
      as [|r l] eqn:Hm; [done|].
    assert (r ∈ Coloc.merge_left df_annotations (g, Some (c +:+ "_" +:+ suffix)))
      as Hr by (rewrite Hm; by left).
    destruct (merge_left_spec _ _ _ _ Hr) as (H1 & _ & H3 & H4 & H5 & _).
    exists r. split.
    + apply (report_rows _ _ _ _ _ Hall). by exists g, (Some (c +:+ "_" +:+ suffix)), c.
    + rewrite H1, Hc. by split_and!.
Qed.

(** Scripts 11 and 14 fit together.  Whenever script 11 builds a
    detailed report, which it does exactly when the contig column of the
    coordinate frame takes text, every row of the report has a
    [gene_type], so script 14 run on these rows never ends in its error
    branch. *)
Theorem top_clusters_accepts_detailed_report (sample_name : string)
    (df_annotations : list Coloc.annotation) (colocalized : gset string)
    (gff : list gff_row) :
  if contigs_are_text gff then
    exists rows evs,
      Coloc.report df_annotations colocalized gff = Return rows /\
      (forall r, r ∈ rows -> is_Some (gene_type r)) /\
      TopClusters.process_sample sample_name (Some rows)
        = Return (Print MsgProcessing :: evs) /\
      Print MsgError ∉ evs
  else Coloc.report df_annotations colocalized gff = Raise TypeError.
Proof.
  pose proof (report_spec df_annotations colocalized gff) as H.
  destruct (contigs_are_text gff); [|done].
  destruct H as (pids & Hall & Hrep).
  set (rows := stable_sort Coloc.detail_leb _) in *.
  assert (forall r, r ∈ rows -> is_Some (gene_type r)) as Hsome.
  { intros r (g & pid & c & _ & _ & _ & _ & _ & Hr)%(report_rows _ _ _ _ _ Hall).
    destruct (merge_left_spec _ _ _ _ Hr)
      as (_ & _ & _ & _ & _ & [(a & _ & _ & -> & _)|(_ & -> & _)]); by eauto. }
  assert (~ nan_type_in_group (df_plot_data rows)) as Hnan.
  { intros (p & r & _ & Hr & _ & Hnone).
    unfold df_plot_data in Hr. apply list_elem_of_In, filter_In in Hr as [Hr _].
    apply list_elem_of_In, Hsome in Hr as [ty Hty]. congruence. }
  destruct (top_deduplicate_returns _ Hnan) as (final & Hf & _).
  assert (exists evs,
            TopClusters.process_sample sample_name (Some rows)
              = Return (Print MsgProcessing :: evs) /\
            Print MsgError ∉ evs) as (evs & Hp & Hevs).
  { clear Hrep Hsome Hnan Hall. clearbody rows.
    unfold TopClusters.process_sample, TopClusters.process_body.
    destruct rows as [|r l].
    { exists [Print InfoEmptyReport]. split; [done|].
      by intros [=]%list_elem_of_singleton. }
    destruct (TopClusters.top_contigs_df (r :: l)).
    { exists [Print InfoNoColocalized]. split; [done|].
      by intros [=]%list_elem_of_singleton. }
    unfold df_plot_data in Hf. cbv zeta. rewrite Hf.
    cbn [mbind result_bind try_except].
    eexists. split; [done|].
    intros [[=]|[[=]|[]%elem_of_nil]%elem_of_cons]%elem_of_cons. }
  by exists rows, evs.
Qed.

(** ** Script 11: which contigs are flagged *)




(** ** Script 12: what the two reports hold *)

Lemma sum_list_Permutation (l k : list nat) : l ≡ₚ k -> sum_list l = sum_list k.
Proof. induction 1; simpl; lia. Qed.

Lemma counter_total_insert `{Countable K} (m : gmap K nat) (k : K) (v : nat) :
  sum_list ((map_to_list (<[k:=v]> m)).*2) + counter_get m k
  = v + sum_list ((map_to_list m).*2).
Proof.
  unfold counter_get. destruct (m !! k) as [w|] eqn:Hk; simpl.
  - rewrite <- (insert_delete_eq m k v).
    rewrite (sum_list_Permutation _ _
               (fmap_Permutation snd _ _
                  (map_to_list_insert (delete k m) k v (lookup_delete_eq m k)))).
    rewrite <- (insert_delete_id m k w Hk) at 2.
    rewrite (sum_list_Permutation _ _
               (fmap_Permutation snd _ _
                  (map_to_list_insert (delete k m) k w (lookup_delete_eq m k)))).
    simpl. rewrite <- Nat.add_assoc. f_equal. apply Nat.add_comm.
  - rewrite (sum_list_Permutation _ _
               (fmap_Permutation snd _ _ (map_to_list_insert m k v Hk))).
    simpl. apply Nat.add_0_r.
Qed.

Lemma tally_total (names : list string) :
  sum_list ((map_to_list (tally names)).*2) = length names.
Proof.
  induction names as [|x names IH]; [done|].
  unfold tally in *. simpl. unfold counter_incr at 1.
  pose proof (counter_total_insert (counter_update ∅ names) x
                (S (counter_get (counter_update ∅ names) x))) as Htot.
  lia.
Qed.

Lemma tally_lookup (names : list string) (s : string) (n : nat) :
  tally names !! s = Some n <->
  s ∈ names /\ n = length (filter (fun x => x = s) names).
Proof.
  destruct (decide (s ∈ names)) as [Hs|Hs].
  - rewrite (tally_lookup_in _ _ Hs). naive_solver.
  - unfold tally. rewrite (counter_update_lookup_out _ _ _ Hs), lookup_empty.
    naive_solver.
Qed.

(** The HMRG abundance task on a hit table that has a row never ends in
    its error branch: it writes a report.  The report has one row for
    every distinct name, with the number of hits that resolve to that
    name, most frequent first; the counts add up to the number of hits
    of the table, so every raw hit is counted once. *)
Theorem hmrg_abundance_counts_every_hit (sample_name : string)
    (hmrg_map : gmap string cell) (df_bacmet : list hit) :
  df_bacmet <> [] ->
  exists names report,
    Abundance.hmrg_gene_names hmrg_map df_bacmet = Return names /\
    length names = length df_bacmet /\
    Abundance.process_hmrg_abundance sample_name hmrg_map (Some df_bacmet)
      = Return [Print MsgProcessing;
                WriteFile (sample_name +:+ "_hmrg_abundance.tsv") report;
                Print MsgSuccess] /\
    (forall s n, Abundance.mk_abundance s n ∈ report <->
                 s ∈ names /\ n = length (filter (fun x => x = s) names)) /\
    NoDup (Abundance.hmrg_name <$> report) /\
    StronglySorted
      (fun x y => Abundance.abundance_count y <= Abundance.abundance_count x)
      report /\
    sum_list (Abundance.abundance_count <$> report) = length df_bacmet.
Proof.
  intros _.
  destruct (hmrg_gene_names_return hmrg_map df_bacmet) as (names & Hnames & Hall).
  exists names, (Abundance.value_counts names).
  assert (Abundance.value_counts names
          ≡ₚ (fun kc => Abundance.mk_abundance kc.1 kc.2)
               <$> map_to_list (tally names)) as Hperm
    by apply (sort_values_Permutation Nat.leb).
  split_and!.
  - done.
  - symmetry. by eapply Forall2_length.
  - unfold Abundance.process_hmrg_abundance, Abundance.hmrg_abundance_body.
    by rewrite Hnames.
  - intros s n. rewrite elem_of_value_counts. apply tally_lookup.
  - rewrite Hperm, <- list_fmap_compose.
    apply (NoDup_fst_map_to_list (tally names)).
  - apply value_counts_sorted.
  - rewrite (sum_list_Permutation _ _ (fmap_Permutation _ _ _ Hperm)).
    rewrite <- list_fmap_compose, (Forall2_length _ _ _ Hall).
    apply tally_total.
Qed.

Lemma hmrg_abundance_counts_every_hit_witness :
  let df := [mk_hit (Some "k141_1_1") (Some "BAC0001|abeM|tr|Q5FAM9|Q5FAM9_ACIBA")
                    None None None;
             mk_hit (Some "k141_1_2") (Some "BAC0001|abeM|tr|Q5FAM9|Q5FAM9_ACIBA")
                    None None None] in
  df <> [] /\
  exists report,
    Abundance.process_hmrg_abundance "S1" ∅ (Some df)
      = Return [Print MsgProcessing;
                WriteFile "S1_hmrg_abundance.tsv" report;
                Print MsgSuccess] /\
    sum_list (Abundance.abundance_count <$> report) = 2.
Proof.
  intros df. split; [done|].
  destruct (hmrg_abundance_counts_every_hit "S1" ∅ df)
    as (names & report & _ & _ & Hp & _ & _ & _ & Hsum); [done|].
  exists report. split; [exact Hp|exact Hsum].
Defined.

Lemma pair_counter_empty_iff (df : list detail_row) :
  Abundance.pair_counter df = ∅ <-> forall a h c, ~ co_occur df a h c.
Proof.
  split.
  - intros Hempty a h c Hco.
    pose proof (pair_counter_get df a h) as Hget.
    rewrite Hempty in Hget. unfold counter_get in Hget.
    rewrite lookup_empty in Hget. simpl in Hget.
    symmetry in Hget. apply size_empty_iff in Hget.
    assert (c ∈ shared_contigs df a h) as Hc; [|by rewrite Hget in Hc].
    unfold shared_contigs. apply elem_of_filter. split; [done|].
    apply elem_of_list_to_set, list_elem_of_omap.
    destruct Hco as [(r & Hr & Hc & _)%elem_of_names_on _]. by exists r.
  - intros Hnone. apply map_eq. intros [a h]. rewrite lookup_empty.
    destruct (Abundance.pair_counter df !! (a, h)) as [n|] eqn:Hk; [|done].
    apply pair_counter_lookup in Hk as [Hpos Hget].
    rewrite pair_counter_get in Hget.
    assert (shared_contigs df a h = ∅) as Hempty.
    { apply set_eq. intros c. unfold shared_contigs. rewrite elem_of_filter.
      split; [intros [Hco _]; by destruct (Hnone a h c)|set_solver]. }
    rewrite Hempty, size_empty in Hget. lia.
Qed.

(** The pair abundance report is written exactly when an ARG name and an
    HMRG name occur together on some contig of the detailed report; the
    report then has a row.  When no two names occur together the task
    prints its information line and writes nothing. *)
Theorem pair_report_written_iff_names_co_occur (sample_name : string)
    (df : list detail_row) :
  ((exists a h c, co_occur df a h c) <->
   exists rows,
     rows <> [] /\
     Abundance.process_pair_abundance sample_name (Some df)
       = Return [Print MsgProcessing;
                 WriteFile (sample_name +:+ "_pair_abundance.tsv") rows;
                 Print MsgSuccess]) /\
  ((forall a h c, ~ co_occur df a h c) <->
   Abundance.process_pair_abundance sample_name (Some df)
     = Return [Print MsgProcessing; Print InfoNoPairs]).
Proof.
  unfold Abundance.process_pair_abundance. cbv zeta.
  destruct (decide (Abundance.pair_counter df = ∅)) as [Hempty|Hne].
  - pose proof (proj1 (pair_counter_empty_iff df) Hempty) as Hnone. split.
    + split; [intros (a & h & c & Hco); by destruct (Hnone a h c)|].
      by intros (rows & _ & [=]).
    + by split.
  - split.
    + split; [|intros _].
      * intros _. eexists. split; [|done].
        intros Hnil. apply Hne. apply map_eq. intros [a h].
        rewrite lookup_empty.
        destruct (Abundance.pair_counter df !! (a, h)) as [n|] eqn:Hk; [|done].
        apply elem_of_abundance_df in Hk. rewrite Hnil in Hk.
        by apply elem_of_nil in Hk.
      * destruct (map_choose _ Hne) as ([a h] & n & Hk).
        apply pair_counter_lookup in Hk as [Hpos Hget].
        rewrite pair_counter_get in Hget.
        destruct (set_choose_L (shared_contigs df a h)) as [c Hc].
        { intros Hempty. rewrite Hempty, size_empty in Hget. lia. }
        unfold shared_contigs in Hc. apply elem_of_filter in Hc as [Hco _].
        by exists a, h, c.
    + split; [|done]. intros Hnone. by apply pair_counter_empty_iff in Hnone.
Qed.

(** ** Script 10.5: the rows of the translation table *)

Lemma dict_set_elem {V} (k : string) (v : V) (d : list (string * V))
    (kv : string * V) :
  kv ∈ dict_set k v d -> kv = (k, v) \/ kv ∈ d.
Proof.
  induction d as [|[k0 v0] d IH]; simpl.
  - intros ->%list_elem_of_singleton. by left.
  - destruct (String.eqb k k0).
    + intros [->|Hin]%elem_of_cons; [by left|]. right. by right.
    + intros [->|Hin]%elem_of_cons; [right; by left|].
      destruct (IH Hin) as [->|Hd]; [by left|]. right. by right.
Qed.

Lemma dict_set_NoDup {V} (k : string) (v : V) (d : list (string * V)) :
  NoDup d.*1 -> NoDup (dict_set k v d).*1.
Proof.
  induction d as [|[k0 v0] d IH]; simpl.
  - intros _. apply NoDup_singleton.
  - intros [Hk0 Hnd]%NoDup_cons.
    destruct (String.eqb_spec k k0) as [->|Hne]; simpl.
    + by apply NoDup_cons.
    + apply NoDup_cons. split; [|by apply IH].
      rewrite dict_set_keys. intros [?|?]; [congruence|done].
Qed.

Lemma dict_get_set_eq {V} (k : string) (v : V) (d : list (string * V)) :
  dict_get k (dict_set k v d) = Some v.
Proof.
  induction d as [|[k0 v0] d IH]; simpl.
  - by rewrite String.eqb_refl.
  - destruct (String.eqb_spec k k0) as [->|Hne]; simpl.
    + by rewrite String.eqb_refl.
    + destruct (String.eqb_spec k k0); [done|apply IH].
Qed.

Lemma dict_get_set_ne {V} (k k' : string) (v : V) (d : list (string * V)) :
  k <> k' -> dict_get k' (dict_set k v d) = dict_get k' d.
Proof.
  intros Hne. induction d as [|[k0 v0] d IH]; simpl.
  - destruct (String.eqb_spec k' k); [congruence|done].
  - destruct (String.eqb_spec k k0) as [->|Hne0]; simpl.
    + destruct (String.eqb_spec k' k0); [congruence|done].
    + destruct (String.eqb_spec k' k0); [done|apply IH].
Qed.

Lemma elem_of_header_lines (lines : list string) (h : string) :
  h ∈ header_lines lines <-> h ∈ lines /\ startswith ">" h = true.
Proof. unfold header_lines. rewrite list_elem_of_filter. tauto. Qed.

Lemma register_inv (m : list (string * string)) (line : string) :
  (MapBuilder.register m line = Return m /\
   (startswith ">" line = false \/ resolvable line = false)) \/
  (startswith ">" line = true /\ resolvable line = true /\
   exists acc name,
     MapBuilder.process_header line MapBuilder.bracket_pattern
       (Some MapBuilder.gn_pattern) = Return (Some acc, Some name) /\
     MapBuilder.register m line
       = Return (dict_set (version_stripped acc) name (dict_set acc name m))).
Proof.
  unfold MapBuilder.register, resolvable.
  destruct (startswith ">" line); [|by left; auto].
  destruct (process_header_returns line) as [[a g] ->].
  cbn [mbind result_bind].
  destruct a as [acc|]; [|by left; auto].
  destruct g as [name|]; [|left; split; [done|right; by rewrite andb_false_r]].
  destruct (truthy (Some acc) && truthy (Some name)) eqn:Ht; [|by left; auto].
  right. split; [done|]. split; [done|]. exists acc, name. split; [done|].
  by rewrite version_stripped_getitem.
Qed.

Lemma build_annotation_map_inv (m : list (string * string)) (lines : list string) :
  NoDup m.*1 ->
  exists m',
    MapBuilder.build_annotation_map m lines = Return m' /\
    NoDup m'.*1 /\
    (forall a name, (a, name) ∈ m' ->
       (a, name) ∈ m \/
       exists h acc,
         h ∈ header_lines lines /\ resolvable h = true /\
         MapBuilder.process_header h MapBuilder.bracket_pattern
           (Some MapBuilder.gn_pattern) = Return (Some acc, Some name) /\
         (a = acc \/ a = version_stripped acc)) /\
    (forall h, h ∈ header_lines lines -> resolvable h = true ->
       header_key h ∈ m'.*1).
Proof.
  revert m. induction lines as [|line lines IH]; intros m Hnd; simpl.
  { exists m. split_and!; [done|done|by left|].
    intros h [?%elem_of_nil _]%elem_of_header_lines. done. }
  destruct (register_inv m line) as [[Hreg Hskip]|(Hstart & Hres & acc & name & Hproc & Hreg)];
    rewrite Hreg; cbn [mbind result_bind].
  - destruct (IH m Hnd) as (m' & Hm' & Hnd' & Hsound & Hcompl).
    exists m'. split_and!; [done|done| |].
    + intros a name' Hin. destruct (Hsound a name' Hin) as [?|(h & acc & Hh & ?)];
        [by left|right].
      exists h, acc. split; [|done].
      apply elem_of_header_lines in Hh as [Hh Hs].
      apply elem_of_header_lines. split; [by right|done].
    + intros h [[->|Hh]%elem_of_cons Hs]%elem_of_header_lines Hr.
      * destruct Hskip; congruence.
      * apply Hcompl; [|done]. by apply elem_of_header_lines.
  - destruct (IH (dict_set (version_stripped acc) name (dict_set acc name m)))
      as (m' & Hm' & Hnd' & Hsound & Hcompl).
    { by do 2 apply dict_set_NoDup. }
    destruct (build_annotation_map_returns
                (dict_set (version_stripped acc) name (dict_set acc name m)) lines)
      as (m'' & Hm'' & Hmono).
    rewrite Hm' in Hm''. injection Hm'' as <-.
    exists m'. split_and!; [done|done| |].
    + intros a name' Hin.
      destruct (Hsound a name' Hin) as [Hd|(h & acc' & Hh & ?)].
      * apply dict_set_elem in Hd as [[= -> ->]|Hd].
        { right. exists line, acc. split_and!; [|done|done|by right].
          apply elem_of_header_lines. split; [by left|done]. }
        apply dict_set_elem in Hd as [[= -> ->]|Hd]; [|by left].
        right. exists line, acc. split_and!; [|done|done|by left].
        apply elem_of_header_lines. split; [by left|done].
      * right. exists h, acc'. split; [|done].
        apply elem_of_header_lines in Hh as [Hh Hs].
        apply elem_of_header_lines. split; [by right|done].
    + intros h [[->|Hh]%elem_of_cons Hs]%elem_of_header_lines Hr.
      * apply Hmono. unfold header_key. rewrite Hproc.
        apply dict_set_keys. by left.
      * apply Hcompl; [|done]. by apply elem_of_header_lines.
Qed.

Lemma unique_map_go_inv (d items : list (string * string)) :
  NoDup d.*1 ->
  exists t,
    MapBuilder.unique_map_go d items = Return t /\
    NoDup t.*1 /\
    (forall k name, (k, name) ∈ t ->
       (k, name) ∈ d \/ exists a, (a, name) ∈ items /\ version_stripped a = k) /\
    (forall k, k ∈ t.*1 <->
       k ∈ d.*1 \/ exists a, a ∈ items.*1 /\ version_stripped a = k) /\
    (forall k, dict_get k t
               = match last (filter (fun it => version_stripped it.1 = k) items) with
                 | Some it => Some it.2
                 | None => dict_get k d
                 end).
Proof.
  revert d. induction items as [|[a name] items IH]; intros d Hnd; simpl.
  { exists d. split_and!; [done|done|by left| |done].
    intros k. split; [by left|]. intros [?|(a & ?%elem_of_nil & _)]; done. }
  rewrite version_stripped_getitem. cbn [mbind result_bind].
  destruct (IH (dict_set (version_stripped a) name d)) as (t & Ht & Hnd' & Hs & Hk & Hg).
  { by apply dict_set_NoDup. }
  exists t. split_and!; [done|done| | |].
  - intros k name' Hin. destruct (Hs k name' Hin) as [Hd|(b & Hb & Hvb)].
    + apply dict_set_elem in Hd as [[= -> ->]|Hd]; [|by left].
      right. exists a. split; [by left|done].
    + right. exists b. split; [by right|done].
  - intros k. rewrite Hk, dict_set_keys. split.
    + intros [[->|Hd]|(b & Hb & Hvb)]; [right|by left|right].
      * exists a. split; [by left|done].
      * exists b. split; [by right|done].
    + intros [Hd|(b & [->|Hb]%elem_of_cons & Hvb)].
      * by left; right.
      * by left; left.
      * right. by exists b.
  - intros k. rewrite Hg, filter_cons. simpl.
    destruct (decide (version_stripped a = k)) as [<-|Hne].
    + rewrite last_cons.
      destruct (last (filter _ items)); [done|]. simpl.
      apply dict_get_set_eq.
    + destruct (last (filter _ items)); [done|].
      by apply dict_get_set_ne.
Qed.

Lemma version_stripped_idemp (a : string) :
  version_stripped (version_stripped a) = version_stripped a.
Proof.
  pose proof (version_stripped_getitem a) as Ha. apply split_0_lacks in Ha.
  pose proof (version_stripped_getitem (version_stripped a)) as Hv.
  rewrite (split_lacks "." _ Ha) in Hv. by injection Hv.
Qed.

Lemma main_spec (lines : list string) :
  exists m table,
    MapBuilder.build_annotation_map [] lines = Return m /\
    MapBuilder.unique_map_go [] m = Return table /\
    MapBuilder.main (Some lines) = Return (Some table).
Proof.
  destruct (build_annotation_map_returns [] lines) as (m & Hm & _).
  destruct (unique_map_go_returns [] m) as (table & Ht & _).
  exists m, table. split; [done|]. split; [done|].
  unfold MapBuilder.main, MapBuilder.unique_map. rewrite Hm.
  cbn [mbind result_bind]. by rewrite Ht.
Qed.

(** The translation table has exactly one row for every version-stripped
    accession of a header that gives both an accession and a gene name.
    The name of a row is the gene name of one of the headers with that
    accession, and the table has at most as many rows as there are such
    headers. *)
Theorem translation_table_rows_are_resolvable_headers (lines : list string) :
  exists table,
    MapBuilder.main (Some lines) = Return (Some table) /\
    NoDup table.*1 /\
    (forall k, k ∈ table.*1 <->
       exists h, h ∈ header_lines lines /\ resolvable h = true /\
                 header_key h = k) /\
    (forall k name, (k, name) ∈ table ->
       exists h, h ∈ header_lines lines /\ resolvable h = true /\
                 header_key h = k /\ header_name h = Some name) /\
    length table
      <= length (filter (fun h => resolvable h = true) (header_lines lines)).
Proof.
  destruct (main_spec lines) as (m & table & Hm & Ht & Hmain).
  destruct (build_annotation_map_inv [] lines) as (m' & Hm' & Hnd & Hsound & Hcompl);
    [apply NoDup_nil_2|].
  rewrite Hm in Hm'. injection Hm' as <-.
  destruct (unique_map_go_inv [] m) as (t' & Ht' & Hndt & Hts & Htk & _);
    [apply NoDup_nil_2|].
  rewrite Ht in Ht'. injection Ht' as <-.
  assert (forall k name, (k, name) ∈ table ->
            exists h, h ∈ header_lines lines /\ resolvable h = true /\
                      header_key h = k /\ header_name h = Some name) as Hrows.
  { intros k name Hin.
    destruct (Hts k name Hin) as [?%elem_of_nil|(a & Ha & Hk)]; [done|].
    destruct (Hsound a name Ha) as [?%elem_of_nil|(h & acc & Hh & Hr & Hp & Hacc)];
      [done|].
    exists h. split; [done|]. split; [done|].
    unfold header_key, header_name. rewrite Hp. split; [|done].
    destruct Hacc as [->| ->]; [done|]. by rewrite version_stripped_idemp in Hk. }
  assert (forall k, k ∈ table.*1 <->
            exists h, h ∈ header_lines lines /\ resolvable h = true /\
                      header_key h = k) as Hkeys.
  { intros k. split.
    - intros ([k' name] & -> & Hin)%list_elem_of_fmap.
      destruct (Hrows _ _ Hin) as (h & ? & ? & ? & _). by exists h.
    - intros (h & Hh & Hr & <-). apply Htk. right.
      exists (header_key h). split; [by apply Hcompl|].
      unfold header_key.
      destruct (MapBuilder.process_header h _ _) as [[[acc|] g]|e]; try done.
      apply version_stripped_idemp. }
  exists table. split_and!; [done|done|done|done|].
  rewrite <- (length_fmap fst table),
    <- (length_fmap header_key (filter _ (header_lines lines))).
  apply submseteq_length, NoDup_submseteq; [done|].
  intros k (h & Hh & Hr & <-)%Hkeys.
  apply list_elem_of_fmap. exists h. split; [done|].
  by apply list_elem_of_filter.
Qed.

(** Which name a row of the translation table carries when several
    accessions share a version-stripped form: the name that the last key
    of [annotation_map] with that stripped form holds, in the order in
    which the keys were first inserted.  That need not be the name of
    the last header read: of three headers with the accessions A.1, A.2
    and A.1 again, the table carries the name of the second. *)
Theorem translation_table_name_on_collision :
  (forall lines,
     exists m table,
       MapBuilder.build_annotation_map [] lines = Return m /\
       MapBuilder.main (Some lines) = Return (Some table) /\
       NoDup m.*1 /\
       forall k, dict_get k table = snd <$> last_with_stripped_key k m) /\
  MapBuilder.build_annotation_map []
    [">gi|1|ref|A.1| [n1]"; ">gi|2|ref|A.2| [n2]"; ">gi|3|ref|A.1| [n3]"]
  = Return [("A.1", "n3"); ("A", "n3"); ("A.2", "n2")] /\
  MapBuilder.main
    (Some [">gi|1|ref|A.1| [n1]"; ">gi|2|ref|A.2| [n2]"; ">gi|3|ref|A.1| [n3]"])
  = Return (Some [("A", "n2")]).
Proof.
  split; [|split; reflexivity].
  intros lines.
  destruct (main_spec lines) as (m & table & Hm & Ht & Hmain).
  destruct (build_annotation_map_inv [] lines) as (m' & Hm' & Hnd & _);
    [apply NoDup_nil_2|].
  rewrite Hm in Hm'. injection Hm' as <-.
  destruct (unique_map_go_inv [] m) as (t' & Ht' & _ & _ & _ & Hget);
    [apply NoDup_nil_2|].
  rewrite Ht in Ht'. injection Ht' as <-.
  exists m, table. split_and!; [done|done|done|].
  intros k. rewrite Hget. unfold last_with_stripped_key.
  by destruct (last (filter _ m)).
Qed.

Lemma process_header_names_accession (h acc : string) (g : option string) :
  MapBuilder.process_header h MapBuilder.bracket_pattern (Some MapBuilder.gn_pattern)
    = Return (Some acc, g) ->
  version_stripped acc <> "" ->
  truthy (Some acc) = true /\ truthy g = true.
Proof.
  intros Hp Hne.
  assert (truthy (Some acc) = true) as Hacc.
  { destruct acc; [by destruct Hne|done]. }
  split; [done|].
  rewrite process_header_script_patterns in Hp. cbv zeta in Hp.
  set (hd := strip_char ">" (strip h)) in *.
  set (gene_name := match MapBuilder.bracket_search hd with
                    | Some g => Some g
                    | None => MapBuilder.gn_search hd
                    end) in *.
  destruct (builder_scan_codes_returns (split "|" hd) db_codes) as [accession Hs].
  rewrite Hs in Hp. cbn [mbind result_bind] in Hp.
  assert (exists a g0,
    (if negb (truthy accession) && (3 <? length (split "|" hd))
     then acc ← getitem (split "|" hd) 3;
          (if negb (truthy gene_name)
           then g ← getitem (split "|" hd) 1; Return (Some acc, Some g)
           else Return (Some acc, gene_name))
     else Return (accession, gene_name)) = Return (a, g0)) as (a & g0 & Hmid).
  { destruct (negb (truthy accession)); simpl; [|by eauto].
    destruct (Nat.ltb_spec 3 (length (split "|" hd))) as [Hlt|]; [|by eauto].
    destruct (getitem_lt _ _ Hlt) as (acc' & -> & _); simpl.
    destruct (negb (truthy gene_name)); [|by eauto].
    destruct (getitem_lt (split "|" hd) 1) as (g1 & -> & _); [lia|]. simpl. by eauto. }
  rewrite Hmid in Hp. cbn [mbind result_bind] in Hp.
  destruct (negb (truthy g0) && truthy a) eqn:Hb.
  - destruct a as [acc'|]; [|by rewrite andb_false_r in Hb].
    cbn [default from_option id] in Hp. rewrite version_stripped_getitem in Hp.
    cbn [mbind result_bind] in Hp. injection Hp as -> <-.
    destruct (version_stripped acc); [by destruct Hne|done].
  - injection Hp as -> ->. rewrite Hacc, andb_true_r in Hb.
    by apply negb_false_iff in Hb.
Qed.

(** No accession is lost for want of a gene name: a header line whose
    accession is not empty once its version is stripped always gets a
    gene name that is not empty, and its stripped accession is a key of
    the translation table. *)
Theorem every_accession_gets_a_row (lines : list string) (h acc : string)
    (g : option string) :
  h ∈ header_lines lines ->
  MapBuilder.process_header h MapBuilder.bracket_pattern (Some MapBuilder.gn_pattern)
    = Return (Some acc, g) ->
  version_stripped acc <> "" ->
  truthy g = true /\
  exists table,
    MapBuilder.main (Some lines) = Return (Some table) /\
    is_Some (dict_get (version_stripped acc) table).
Proof.
  intros Hh Hp Hne.
  destruct (process_header_names_accession h acc g Hp Hne) as [Hacc Hg].
  split; [done|].
  destruct (main_spec lines) as (m & table & Hm & Ht & Hmain).
  destruct (build_annotation_map_inv [] lines) as (m' & Hm' & Hnd & _ & Hcompl);
    [apply NoDup_nil_2|].
  rewrite Hm in Hm'. injection Hm' as <-.
  destruct (unique_map_go_inv [] m) as (t' & Ht' & Hndt & _ & Htk & _);
    [apply NoDup_nil_2|].
  rewrite Ht in Ht'. injection Ht' as <-.
  exists table. split; [done|].
  assert (version_stripped acc ∈ table.*1) as Hin.
  { apply Htk. right. exists (version_stripped acc).
    split; [|apply version_stripped_idemp].
    assert (header_key h = version_stripped acc) as <-
      by (unfold header_key; by rewrite Hp).
    apply Hcompl; [done|]. unfold resolvable. by rewrite Hp, Hacc, Hg. }
  apply list_elem_of_fmap in Hin as ([k name] & Hk & Hin). simpl in Hk. subst k.
  exists name. by apply dict_get_Some.
Qed.

Lemma every_accession_gets_a_row_witness :
  truthy (Some "arsB") = true /\
  exists table,
    MapBuilder.main (Some ["MKLV"; ">BAC0002|arsB|x|P1234.2|desc"])
      = Return (Some table) /\
    is_Some (dict_get "P1234" table).
Proof.
  apply (every_accession_gets_a_row
           ["MKLV"; ">BAC0002|arsB|x|P1234.2|desc"]
           ">BAC0002|arsB|x|P1234.2|desc" "P1234.2" (Some "arsB")).
  - apply elem_of_header_lines. split; [by right; left|reflexivity].
  - reflexivity.
  - discriminate.
Defined.

(** ** Scripts 14 and 15: the order of the contig labels *)

Lemma unique_sorted_strict `{EqDecision A} (R : relation A) (l : list A) :
  StronglySorted R l -> StronglySorted (fun x y => R x y /\ x <> y) (unique l).
Proof.
  induction 1 as [|x l Hl IH Hx]; simpl; [constructor|].
  constructor; [by apply StronglySorted_filter|].
  apply Forall_forall. intros y [Hne Hy]%list_elem_of_filter.
  apply (proj1 (elem_of_unique _ _)) in Hy.
  rewrite Forall_forall in Hx. split; [by apply Hx|congruence].
Qed.

(** The labels of script 15 follow the order of the rows of its input
    table and nothing else.  When the rows of the table are sorted by
    source in some order, whichever it is, the distinct sources, in the
    order in which they are labelled Contig_1, Contig_2 and so on, are
    strictly ascending in that order. *)
Theorem plot_labels_follow_row_order (df : list plot_row)
    (R : relation (option string)) :
  StronglySorted (fun x y => R (source x) (source y)) df ->
  StronglySorted (fun c1 c2 => R c1 c2 /\ c1 <> c2)
    (PlotExport.unique_contigs (PlotExport.df_formatted df)) /\
  forall j c,
    PlotExport.unique_contigs (PlotExport.df_formatted df) !! j = Some c ->
    PlotExport.cdict_get c
      (PlotExport.contig_map
         (PlotExport.unique_contigs (PlotExport.df_formatted df)))
    = Some (PlotExport.contig_label j).
Proof.
  intros Hsorted.
  set (cs := PlotExport.unique_contigs (PlotExport.df_formatted df)).
  assert (NoDup cs) as Hnd by apply NoDup_unique.
  split.
  - unfold cs, PlotExport.unique_contigs, PlotExport.df_formatted.
    rewrite <- list_fmap_compose.
    change (PlotExport.f_source ∘ _) with source.
    apply unique_sorted_strict.
    by eapply StronglySorted_fmap; [|exact Hsorted].
  - intros j c Hj. by apply (contig_map_go_lookup cs [] 0 j c).
Qed.

Lemma plot_labels_follow_row_order_witness :
  let row := fun c p s =>
    mk_plot (Some p) (Some c) s (s + 90) (Some "+") (Some "ARG") (Some "g") in
  let df := [row "k141_2" "k141_2_1" 10%Z; row "k141_2" "k141_2_2" 200%Z;
             row "k141_9" "k141_9_1" 5%Z] in
  StronglySorted (fun x y => source_le (source x) (source y)) df /\
  PlotExport.unique_contigs (PlotExport.df_formatted df)
    = [Some "k141_2"; Some "k141_9"] /\
  StronglySorted (fun c1 c2 => source_le c1 c2 /\ c1 <> c2)
    (PlotExport.unique_contigs (PlotExport.df_formatted df)).
Proof.
  intros row df.
  assert (StronglySorted (fun x y => source_le (source x) (source y)) df) as Hs.
  { repeat constructor. }
  split; [exact Hs|]. split; [reflexivity|].
  apply (plot_labels_follow_row_order df source_le Hs).
Defined.

(** ** Script 15: the samples and their input files *)

Lemma split_head_prefix (sep : ascii) (f s : string) :
  getitem (split sep f) 0 = Return s -> startswith s f = true.
Proof.
  unfold startswith. revert s. induction f as [|a f IH]; intros s; simpl.
  - by intros [= <-].
  - destruct (Ascii.eqb a sep); [by intros [= <-]|].
    destruct (split_cons sep f) as (u & us & Hu). rewrite Hu in *.
    intros [= <-]. simpl. destruct (Ascii.ascii_dec a a); [|done]. by apply IH.
Qed.

Lemma split_head_app_sep (sep : ascii) (s t s0 : string) :
  getitem (split sep s) 0 = Return s0 ->
  getitem (split sep (s +:+ String sep t)) 0 = Return s0.
Proof.
  revert s0. induction s as [|a s IH]; intros s0; simpl.
  - intros [= <-]. by rewrite Ascii.eqb_refl.
  - destruct (Ascii.eqb a sep); [done|].
    destruct (split_cons sep s) as (u & us & Hu). rewrite Hu in *.
    intros [= <-].
    destruct (split_cons sep (s +:+ String sep t)) as (u' & us' & Hu').
    rewrite Hu' in *. specialize (IH u eq_refl). by injection IH as ->.
Qed.

Lemma endswith_app (p s t : string) :
  endswith p t = true -> endswith p (s +:+ t) = true.
Proof.
  intros Ht. induction s as [|a s IH]; simpl; [done|].
  rewrite IH. apply orb_true_r.
Qed.

Lemma startswith_app (s t : string) : startswith s (s +:+ t) = true.
Proof.
  unfold startswith. induction s as [|a s IH]; simpl; [by destruct t|].
  by destruct (Ascii.ascii_dec a a).
Qed.

Lemma input_file_first (sample_name fname : string) (before after : list string) :
  (forall g, g ∈ before ->
     startswith sample_name g && endswith "_plot_data.tsv" g = false) ->
  startswith sample_name fname && endswith "_plot_data.tsv" fname = true ->
  PlotExport.input_file sample_name (before ++ fname :: after) = Some fname.
Proof.
  intros Hbefore Hf. unfold PlotExport.input_file.
  induction before as [|g before IH]; simpl.
  - by rewrite Hf.
  - rewrite (Hbefore g) by (by left). apply IH.
    intros g' Hg'. apply Hbefore. by right.
Qed.

(** The samples that script 15 works on are the names of the files of
    the input folder that end with the suffix, cut at their first
    underscore: distinct, in ascending order, none with an underscore.
    Every one of them finds an input file whose name starts with it.
    The table that script 14 writes for a sample is found under the
    sample's name when that name has no underscore, and under the part
    of the name before its first underscore otherwise. *)
Theorem plot_export_sample_names (listing : list string) :
  exists ss,
    PlotExport.samples listing = Return ss /\
    NoDup ss /\
    StronglySorted (fun x y => String.leb x y = true) ss /\
    (forall s, s ∈ ss <->
       exists fname, fname ∈ listing /\
                     endswith PlotExport.INPUT_SUFFIX fname = true /\
                     getitem (split "_" fname) 0 = Return s) /\
    (forall s, s ∈ ss ->
       lacks "_" s = true /\
       exists fname,
         PlotExport.input_file s listing = Some fname /\ fname ∈ listing /\
         startswith s fname = true /\
         endswith PlotExport.INPUT_SUFFIX fname = true) /\
    (forall sample,
       (sample +:+ "_top_10_contigs_plot_data.tsv") ∈ listing ->
       exists s0, getitem (split "_" sample) 0 = Return s0 /\ s0 ∈ ss /\
                  (lacks "_" sample = true -> s0 = sample)).
Proof.
  destruct (mapM_result_returns (fun fname => getitem (split "_" fname) 0)
              (List.filter (endswith PlotExport.INPUT_SUFFIX) listing))
    as (names & Hnames & Hall).
  { intros f _. destruct (getitem_split_0 "_" f) as [s ->]. by eauto. }
  exists (stable_sort String.leb (unique names)).
  assert (forall s, s ∈ stable_sort String.leb (unique names) <->
            exists fname, fname ∈ listing /\
                          endswith PlotExport.INPUT_SUFFIX fname = true /\
                          getitem (split "_" fname) 0 = Return s) as Hin.
  { intros s. rewrite (stable_sort_Permutation String.leb), elem_of_unique. split.
    - intros [i Hi]%list_elem_of_lookup.
      destruct (Forall2_lookup_r _ _ _ _ _ Hall Hi) as (f & Hf & Hs).
      apply list_elem_of_lookup_2, list_elem_of_In, filter_In in Hf as [Hf He].
      exists f. by rewrite list_elem_of_In.
    - intros (f & Hf & He & Hs).
      assert (f ∈ List.filter (endswith PlotExport.INPUT_SUFFIX) listing)
        as [i Hi]%list_elem_of_lookup.
      { apply list_elem_of_In, filter_In. by rewrite <- list_elem_of_In. }
      destruct (Forall2_lookup_l _ _ _ _ _ Hall Hi) as (s' & Hs' & Hfs).
      simpl in Hfs. rewrite Hs in Hfs. injection Hfs as <-.
      by eapply list_elem_of_lookup_2. }
  split_and!.
  - unfold PlotExport.samples. by rewrite Hnames.
  - rewrite (stable_sort_Permutation String.leb). apply NoDup_unique.
  - apply stable_sort_sorted_strings.
  - done.
  - intros s (f & Hf & He & Hs)%Hin. split; [by eapply split_0_lacks|].
    destruct (PlotExport.input_file s listing) as [g|] eqn:Hfind.
    + unfold PlotExport.input_file in Hfind.
      apply find_some in Hfind as [Hg [Hg1 Hg2]%andb_true_iff].
      exists g. by rewrite list_elem_of_In.
    + unfold PlotExport.input_file in Hfind.
      apply list_elem_of_In in Hf.
      pose proof (find_none _ _ Hfind f Hf) as Hfalse. simpl in Hfalse.
      rewrite (split_head_prefix _ _ _ Hs) in Hfalse.
      unfold PlotExport.INPUT_SUFFIX in He. by rewrite He in Hfalse.
  - intros sample Hsample.
    destruct (getitem_split_0 "_" sample) as [s0 Hs0].
    exists s0. split; [done|]. split.
    + apply Hin. exists (sample +:+ "_top_10_contigs_plot_data.tsv").
      split; [done|]. split; [by apply endswith_app|].
      by apply split_head_app_sep.
    + intros Hl. rewrite (split_lacks _ _ Hl) in Hs0. by injection Hs0.
Qed.

(** The file that script 15 reads for a sample is the first name of the
    listing that starts with the sample name and ends with the suffix.
    So the table that script 14 wrote for a sample with a longer name,
    the sample name followed by some [tail], is read for the sample when
    no name that starts with the sample name is listed before it. *)
Theorem plot_export_reads_first_name_with_prefix (sample_name tail : string)
    (before after : list string) :
  (forall g, g ∈ before -> startswith sample_name g = false) ->
  PlotExport.input_file sample_name
    (before ++ (sample_name +:+ tail +:+ "_top_10_contigs_plot_data.tsv") :: after)
  = Some (sample_name +:+ tail +:+ "_top_10_contigs_plot_data.tsv").
Proof.
  intros Hbefore. apply input_file_first.
  - intros g Hg. by rewrite (Hbefore g Hg).
  - rewrite startswith_app. simpl.
    apply (endswith_app _ sample_name), endswith_app. reflexivity.
Qed.

Lemma plot_export_reads_first_name_with_prefix_witness :
  PlotExport.input_file "S1"
    (["notes.txt"] ++ "S10_top_10_contigs_plot_data.tsv"
       :: ["S1_top_10_contigs_plot_data.tsv"])
  = Some "S10_top_10_contigs_plot_data.tsv".
Proof.
  apply (plot_export_reads_first_name_with_prefix "S1" "0" ["notes.txt"]
           ["S1_top_10_contigs_plot_data.tsv"]).
  intros g ->%list_elem_of_singleton. reflexivity.
Defined.

(** ** Scripts 13 and 14: the two copies of the merger *)

(** C4. The claim holds of script 13 and fails of script 14, whose copy
    of the merger groups every row of the selected contigs, the rows of
    type Other too.  On a report with an ARG row, an HMRG row and two
    Other rows that share a [protein_id], script 13 returns the four
    rows as they are, while script 14 merges the two Other rows into one
    row with the coordinates of the first and the empty name, and writes
    a table of three rows.  Script 14 also joins the [gene_type] values
    as they are: on an ARG row and a row without a [gene_type] of one
    protein it ends in its error branch, where script 13 merges the
    types to ARG/nan. *)
Theorem merger_of_script_14_merges_other_rows :
  let arg := mk_detail (Some "k141_7") (Some "k141_7_1") 120 980 (Some "+")
                       (Some "ARG") (Some "ceoB") (Some "91.2") (Some "1e-50")
                       (Some "310") in
  let hmrg := mk_detail (Some "k141_7") (Some "k141_7_2") 1200 1980 (Some "-")
                        (Some "HMRG") (Some "acrF") (Some "70.2") (Some "1e-80")
                        (Some "498") in
  let other := fun s e strand name =>
    mk_detail (Some "k141_7") (Some "k141_7_") s e (Some strand) (Some "Other")
              name None None None in
  let nan := mk_detail (Some "k141_7") (Some "k141_7_1") 120 980 (Some "+")
                       None (Some "mexB") None None None in
  let df := [arg; hmrg; other 2000 2500 "+" None; other 3000 3600 "-" None]%Z in
  ClusterData.deduplicate df
    = Return [arg; hmrg; other 2000 2500 "+" None; other 3000 3600 "-" None]%Z /\
  df_plot_data df = df /\
  TopClusters.deduplicate (df_plot_data df)
    = Return [other 2000 2500 "+" (Some ""); arg; hmrg]%Z /\
  (exists table,
     TopClusters.process_sample "S1" (Some df)
       = Return [Print MsgProcessing;
                 WriteFile "S1_top_10_contigs_plot_data.tsv" table;
                 Print MsgSuccess] /\
     length table = 3 /\
     to_plot_row (other 3000 3600 "-" None)%Z ∉ table) /\
  (exists merged,
     ClusterData.deduplicate [arg; nan; hmrg] = Return [merged; hmrg] /\
     gene_type merged = Some "ARG/nan") /\
  TopClusters.process_sample "S1" (Some [arg; nan; hmrg])
    = Return [Print MsgProcessing; Print MsgError].
Proof.
  intros arg hmrg other nan df. split_and!.
  - reflexivity.
  - reflexivity.
  - reflexivity.
  - eexists. split; [reflexivity|]. split; [reflexivity|].
    intros Hin. repeat (apply elem_of_cons in Hin as [Heq|Hin]; [discriminate|]).
    by apply elem_of_nil in Hin.
  - eexists. split; reflexivity.
  - reflexivity.
Qed.
